(** * OpenGL pipeline and program cache of DuckStation (src/util/opengl_pipeline.cpp)

    A shallow embedding of the program-key derivation, the reference-counted
    live program cache, and the disk cache store (open / add / invalidate /
    close), followed by the properties established about them.

    Conventions.
    - The release build is modelled: [DebugAssert] and the [#ifdef _DEBUG]
      blocks are compiled out; [Assert] aborts.  An abort, and anything the
      C++ leaves undefined (a stdio call on a null [FILE*], a dangling shader
      pointer), is the result [None] of the device monad.
    - [u32] values are [Z] with the wrap-around written out ([wrap32]).
    - The graphics driver is an interface ([GLDriver]); the file system is a
      map from paths to byte strings, with a script of injected failures for
      the stdio calls.
    - Log output is not part of the state. *)

From Stdlib Require Import ZArith Lia Bool.
From Stdlib Require Import Strings.Byte.
From stdpp Require Import base option list gmap strings pretty.

Local Open Scope Z_scope.

(** ** Machine integers and bytes *)

Definition u32_modulus : Z := 2 ^ 32.
Definition u32_max : Z := u32_modulus - 1.
Definition wrap32 (x : Z) : Z := x mod u32_modulus.

Abbreviation byte := Byte.byte.

Definition byte_to_Z (b : byte) : Z := Z.of_N (Byte.to_N b).
Definition byte_of_Z (z : Z) : byte :=
  match Byte.of_N (Z.to_N (z mod 256)) with
  | Some b => b
  | None => Byte.x00
  end.

(** A little-endian [u32], as [fwrite]/[fread] of a struct field lay it out on
    the little-endian hosts the project builds for. *)
Definition encode_u32 (x : Z) : list byte :=
  [byte_of_Z x; byte_of_Z (x / 2 ^ 8); byte_of_Z (x / 2 ^ 16); byte_of_Z (x / 2 ^ 24)].

Definition decode_u32 (bs : list byte) : Z :=
  match bs with
  | b0 :: b1 :: b2 :: b3 :: _ =>
      byte_to_Z b0 + 2 ^ 8 * byte_to_Z b1 + 2 ^ 16 * byte_to_Z b2 + 2 ^ 24 * byte_to_Z b3
  | _ => 0
  end.

(** ** Keys (opengl_pipeline.h, gpu_device.h, gpu_shader_cache.h) *)

(** [GPUPipeline::VertexAttribute::Semantic]; the order is that of the
    [semantic_vars] table in [CompileProgram]. *)
Inductive Semantic := Position | TexCoord | Color.

Definition Semantic_to_Z (s : Semantic) : Z :=
  match s with Position => 0 | TexCoord => 1 | Color => 2 end.

(** Modelled from the spec: the declaration of [GPUPipeline::VertexAttribute]
    is not under src/; the spec lists its fields as type, component count,
    semantic, semantic index and byte offset. *)
Record VertexAttribute := {
  va_semantic : Semantic;
  va_semantic_index : Z;
  va_type : Z;
  va_components : Z;
  va_offset : Z
}.

(** The attribute all of whose bits are zero, what [memset(.., 0, ..)] leaves
    in an unused slot. *)
Definition VertexAttribute_zero : VertexAttribute :=
  {| va_semantic := Position; va_semantic_index := 0; va_type := 0;
     va_components := 0; va_offset := 0 |}.

Record VertexArrayCacheKey := {
  vertex_attributes : list VertexAttribute;
  vertex_attribute_stride : Z;
  num_vertex_attributes : Z
}.

Record ProgramCacheKey := {
  vs_hash_low : Z; vs_hash_high : Z; vs_length : Z;
  fs_hash_low : Z; fs_hash_high : Z; fs_length : Z;
  gs_hash_low : Z; gs_hash_high : Z; gs_length : Z;
  va_key : VertexArrayCacheKey
}.

(** Modelled from the spec: [GPUShaderCache::CacheIndexKey] is not under src/;
    the fields are the ones [GetProgramCacheKey] reads. *)
Record CacheIndexKey := {
  source_hash_low : Z;
  source_hash_high : Z;
  source_length : Z
}.

(** [operator==] is [memcmp] over the whole object; the structs have no
    padding, so it is equality of all fields.  Decidable equality and an
    injection into a countable type make the key usable in [gmap], the
    counterpart of [std::unordered_map] with [ProgramCacheKeyHash]. *)
#[global] Instance Semantic_eq_dec : EqDecision Semantic.
Proof. solve_decision. Defined.
#[global] Instance VertexAttribute_eq_dec : EqDecision VertexAttribute.
Proof. solve_decision. Defined.
#[global] Instance VertexArrayCacheKey_eq_dec : EqDecision VertexArrayCacheKey.
Proof. solve_decision. Defined.
#[global] Instance ProgramCacheKey_eq_dec : EqDecision ProgramCacheKey.
Proof. solve_decision. Defined.

Definition Semantic_of_Z (z : Z) : Semantic :=
  if z =? 1 then TexCoord else if z =? 2 then Color else Position.

Definition VertexAttribute_to_tuple (a : VertexAttribute) : Z * Z * Z * Z * Z :=
  (Semantic_to_Z (va_semantic a), va_semantic_index a, va_type a, va_components a, va_offset a).
Definition VertexAttribute_of_tuple (t : Z * Z * Z * Z * Z) : VertexAttribute :=
  let '(s, i, ty, c, o) := t in
  {| va_semantic := Semantic_of_Z s; va_semantic_index := i; va_type := ty;
     va_components := c; va_offset := o |}.

#[global] Instance VertexAttribute_countable : Countable VertexAttribute.
Proof.
  apply (inj_countable' VertexAttribute_to_tuple VertexAttribute_of_tuple).
  intros [[] ? ? ? ?]; reflexivity.
Defined.

Definition ProgramCacheKey_to_tuple (k : ProgramCacheKey)
  : list Z * (list VertexAttribute * Z * Z) :=
  ([vs_hash_low k; vs_hash_high k; vs_length k;
    fs_hash_low k; fs_hash_high k; fs_length k;
    gs_hash_low k; gs_hash_high k; gs_length k],
   (vertex_attributes (va_key k), vertex_attribute_stride (va_key k),
    num_vertex_attributes (va_key k))).

Definition ProgramCacheKey_of_tuple (t : list Z * (list VertexAttribute * Z * Z))
  : ProgramCacheKey :=
  let '(zs, (vas, stride, num)) := t in
  let f i := default 0 (zs !! i) in
  {| vs_hash_low := f 0%nat; vs_hash_high := f 1%nat; vs_length := f 2%nat;
     fs_hash_low := f 3%nat; fs_hash_high := f 4%nat; fs_length := f 5%nat;
     gs_hash_low := f 6%nat; gs_hash_high := f 7%nat; gs_length := f 8%nat;
     va_key := {| vertex_attributes := vas; vertex_attribute_stride := stride;
                  num_vertex_attributes := num |} |}.

#[global] Instance ProgramCacheKey_countable : Countable ProgramCacheKey.
Proof.
  apply (inj_countable' ProgramCacheKey_to_tuple ProgramCacheKey_of_tuple).
  intros [? ? ? ? ? ? ? ? ? []]; reflexivity.
Defined.

(** ** The graphics driver

    The entry points of OpenGL that the file calls, as an interface over an
    abstract driver state [G].  Every call may change the driver state (at
    least its error flag), so each one is a state transformer. *)

Class GLDriver (G : Type) := {
  glGetError : G → Z * G;
  glGetString : Z → G → string * G;
  glCreateShader : Z → G → Z * G;
  glShaderSource : Z → string → G → G;
  glCompileShader : Z → G → G;
  glGetShaderiv : Z → Z → G → Z * G;
  glGetShaderInfoLog : Z → Z → G → (Z * list byte) * G;
  glDeleteShader : Z → G → G;
  glCreateProgram : G → Z * G;
  glProgramParameteri : Z → Z → Z → G → G;
  glAttachShader : Z → Z → G → G;
  glBindAttribLocation : Z → Z → string → G → G;
  glBindFragDataLocation : Z → Z → string → G → G;
  glBindFragDataLocationIndexed : Z → Z → Z → string → G → G;
  glBindFragDataLocationIndexedEXT : Z → Z → Z → string → G → G;
  glLinkProgram : Z → G → G;
  glGetProgramiv : Z → Z → G → Z * G;
  glGetProgramInfoLog : Z → Z → G → (Z * list byte) * G;
  glDeleteProgram : Z → G → G;
  glGetUniformBlockIndex : Z → string → G → Z * G;
  glUniformBlockBinding : Z → Z → Z → G → G;
  glUseProgram : Z → G → G;
  glGetUniformLocation : Z → string → G → Z * G;
  glUniform1i : Z → Z → G → G;
  glProgramBinary : Z → Z → list byte → G → G;
  (** [glGetProgramBinary program bufSize]: the length written, the binary
      format, and the buffer contents after the call. *)
  glGetProgramBinary : Z → Z → G → (Z * Z * list byte) * G;
  GLAD_GL_VERSION_3_3 : bool;
  GLAD_GL_ARB_blend_func_extended : bool;
  GLAD_GL_EXT_blend_func_extended : bool
}.

Definition GL_NO_ERROR : Z := 0.
Definition GL_FALSE : Z := 0.
Definition GL_TRUE : Z := 1.
Definition GL_VENDOR : Z := 0x1F00.
Definition GL_RENDERER : Z := 0x1F01.
Definition GL_VERSION : Z := 0x1F02.
Definition GL_FRAGMENT_SHADER : Z := 0x8B30.
Definition GL_VERTEX_SHADER : Z := 0x8B31.
Definition GL_GEOMETRY_SHADER : Z := 0x8DD9.
Definition GL_COMPUTE_SHADER : Z := 0x91B9.
Definition GL_COMPILE_STATUS : Z := 0x8B81.
Definition GL_LINK_STATUS : Z := 0x8B82.
Definition GL_INFO_LOG_LENGTH : Z := 0x8B84.
Definition GL_PROGRAM_BINARY_RETRIEVABLE_HINT : Z := 0x8257.
Definition GL_PROGRAM_BINARY_LENGTH : Z := 0x8741.

(** ** The rest of the program and its libraries

    Functions and constants of other translation units (shadergen, the shader
    cache, the GPU device base class) and of zstd that the file uses. *)

Inductive GPUShaderStage := Vertex | Fragment | Geometry | Compute.

Class Externals := {
  (** [OpenGLPipeline::MAX_VERTEX_ATTRIBUTES] *)
  MAX_VERTEX_ATTRIBUTES : nat;
  (** [ShaderGen::UseGLSLBindingLayout()] *)
  UseGLSLBindingLayout : bool;
  (** [GetActiveTexturesForLayout(layout)] *)
  GetActiveTexturesForLayout : Z → Z;
  (** [GPUShaderCache::GetCacheKey(stage, source, entry_point)] *)
  GetCacheKey : GPUShaderStage → string → string → CacheIndexKey;
  (** [GPUDevice::GetShaderDumpPath(name)] *)
  GetShaderDumpPath : string → string;
  (** [GPUShader::GetStageName(stage)] *)
  GetStageName : GPUShaderStage → string;
  (** The object representation of a [ProgramCacheKey], as [memcpy] and
      [fread]/[fwrite] of the index entry see it ([sizeof] is 96). *)
  ProgramCacheKey_to_bytes : ProgramCacheKey → list byte;
  ProgramCacheKey_of_bytes : list byte → ProgramCacheKey;
  (** The zstd codec: [None] is a result for which [ZSTD_isError] holds. *)
  zstd_compress : list byte → option (list byte);
  zstd_decompress : list byte → option (list byte);
  (** What the heap holds where a [DynamicHeapArray<u8>] is allocated: the
      constructor does not initialise the array.  [uninitialized n i] is
      the byte at index [i] of a fresh array of [n] bytes. *)
  uninitialized : nat → nat → byte
}.

(** ** The file system

    Files are byte strings by path.  A stdio call that can fail takes the next
    outcome of [io_script]; an exhausted script means no injected failure. *)

Inductive io_outcome := IoOk | IoFail (errno : Z).

Definition EACCES : Z := 13.
Definition ENOENT : Z := 2.

(** An open [std::FILE*]: the file it is bound to and its position. *)
Record FILE := { f_path : string; f_pos : Z }.

Inductive open_mode := RPlusB | WPlusB | WB.

Record World (G : Type) := {
  gl : G;
  disk : gmap string (list byte);
  io_script : list io_outcome;
  (** the file-scope [s_next_bad_shader_id] *)
  s_next_bad_shader_id : Z
}.
Arguments gl {G} _.
Arguments disk {G} _.
Arguments io_script {G} _.
Arguments s_next_bad_shader_id {G} _.

Section WorldOps.
Context {G : Type}.

Definition set_gl (g : G) (w : World G) : World G :=
  {| gl := g; disk := disk w; io_script := io_script w;
     s_next_bad_shader_id := s_next_bad_shader_id w |}.
Definition set_disk (d : gmap string (list byte)) (w : World G) : World G :=
  {| gl := gl w; disk := d; io_script := io_script w;
     s_next_bad_shader_id := s_next_bad_shader_id w |}.
Definition set_io_script (s : list io_outcome) (w : World G) : World G :=
  {| gl := gl w; disk := disk w; io_script := s;
     s_next_bad_shader_id := s_next_bad_shader_id w |}.
Definition set_next_bad_shader_id (n : Z) (w : World G) : World G :=
  {| gl := gl w; disk := disk w; io_script := io_script w;
     s_next_bad_shader_id := n |}.

Definition next_io (w : World G) : io_outcome * World G :=
  match io_script w with
  | [] => (IoOk, w)
  | o :: s => (o, set_io_script s w)
  end.

(** Modelled from the spec: [FileSystem::OpenCFile] (common/file_system.h) is
    not under src/.  The spec has the cache file "opened for read+write,
    created if absent"; the call is taken to be [fopen] with the mode strings
    the source passes: "r+b" needs an existing file, "w+b" and "wb" create or
    truncate.  A failure leaves its [errno]. *)
Definition OpenCFile (path : string) (mode : open_mode) (w : World G)
  : (FILE + Z) * World G :=
  let '(o, w) := next_io w in
  match o with
  | IoFail e => (inr e, w)
  | IoOk =>
      match mode with
      | RPlusB =>
          match disk w !! path with
          | Some _ => (inl {| f_path := path; f_pos := 0 |}, w)
          | None => (inr ENOENT, w)
          end
      | WPlusB | WB =>
          (inl {| f_path := path; f_pos := 0 |}, set_disk (<[path := []]> (disk w)) w)
      end
  end.

Definition file_data (f : FILE) (w : World G) : list byte :=
  default [] (disk w !! f_path f).

(** Modelled from the spec: [FileSystem::FSize64] is not under src/; the
    spec speaks of the "file size".  It is the length of the file, and the
    position is left where it was. *)
Definition FSize64 (f : FILE) (w : World G) : Z :=
  Z.of_nat (length (file_data f w)).

(** Modelled from the spec: [FileSystem::FSeek64] is not under src/; the
    spec has the store "seek to data_end".  It is taken to be [fseek] with
    [SEEK_SET]: [true] stands for the result 0, and seeking past the end is
    allowed. *)
Definition FSeek64 (f : FILE) (offset : Z) (w : World G) : (bool * FILE) * World G :=
  let '(o, w) := next_io w in
  match o with
  | IoFail _ => ((false, f), w)
  | IoOk =>
      if offset <? 0 then ((false, f), w)
      else ((true, {| f_path := f_path f; f_pos := offset |}), w)
  end.

(** [std::fread(buf, size, 1, fp)]: [Some bytes] stands for the result 1.
    With [size = 0] the result is 0 and the stream is left as it is; at a
    short read the result is 0 and the position is the end of the file. *)
Definition fread (f : FILE) (size : Z) (w : World G)
  : (option (list byte) * FILE) * World G :=
  let '(o, w) := next_io w in
  match o with
  | IoFail _ => ((None, f), w)
  | IoOk =>
      let data := file_data f w in
      if (size <=? 0) || (Z.of_nat (length data) <? f_pos f + size) then
        ((None, {| f_path := f_path f;
                   f_pos := if size <=? 0 then f_pos f
                            else Z.max (f_pos f) (Z.of_nat (length data)) |}), w)
      else
        ((Some (take (Z.to_nat size) (drop (Z.to_nat (f_pos f)) data)),
          {| f_path := f_path f; f_pos := f_pos f + size |}), w)
  end.

(** The contents of a file after [bytes] are stored at [pos]; a gap after
    the old end reads as zeros. *)
Definition write_at (pos : nat) (bytes data : list byte) : list byte :=
  take pos data ++ replicate (pos - length data) Byte.x00 ++ bytes
    ++ drop (pos + length bytes) data.

(** [std::fwrite(buf, size, 1, fp)]: [true] stands for the result 1.  With
    [size = 0] the result is 0.  A failed write is taken to store nothing. *)
Definition fwrite (f : FILE) (bytes : list byte) (w : World G)
  : (bool * FILE) * World G :=
  let '(o, w) := next_io w in
  match o with
  | IoFail _ => ((false, f), w)
  | IoOk =>
      match bytes with
      | [] => ((false, f), w)
      | _ =>
          ((true, {| f_path := f_path f;
                     f_pos := f_pos f + Z.of_nat (length bytes) |}),
           set_disk (<[f_path f := write_at (Z.to_nat (f_pos f)) bytes (file_data f w)]>
                       (disk w)) w)
      end
  end.

(** [std::fclose(fp)]: writes are not buffered in this model, so the file
    system is as it was; the handle is dead afterwards. *)
Definition fclose (f : FILE) (w : World G) : unit * World G := (tt, w).
End WorldOps.

(** ** Objects of the device *)

(** The members of [OpenGLShader] that the functions use; [m_id] is a
    [std::optional<GLuint>]. *)
Record OpenGLShader := {
  m_stage : GPUShaderStage;
  m_key : CacheIndexKey;
  m_source : string;
  m_id : option Z;
  m_compile_tried : bool
}.

(** [OpenGLPipeline::ProgramCacheItem], with the fields the functions use.
    The struct is declared in opengl_pipeline.h, which is not under src/; the
    fields are taken to be 32 bits wide, as the index entry fields they are
    copied from and to. *)
Record ProgramCacheItem := {
  program_id : Z;
  reference_count : Z;
  file_format : Z;
  file_offset : Z;
  file_uncompressed_size : Z;
  file_compressed_size : Z
}.

(** The part of [GPUPipeline::GraphicsConfig] that the program cache reads.
    A shader is referred to by its address in the store of shader objects;
    [None] is the null pointer. *)
Record GraphicsConfig := {
  layout : Z;
  input_layout_vertex_attributes : list VertexAttribute;
  input_layout_vertex_stride : Z;
  vertex_shader : option nat;
  fragment_shader : option nat;
  geometry_shader : option nat
}.

(** The members of [OpenGLDevice] that the functions use, and the state
    outside the object that they reach.  [m_pipeline_disk_cache_data_end] is
    taken to be a [u32], as the [file_offset] it is assigned to. *)
Record OpenGLDevice (G : Type) := {
  m_program_cache : gmap ProgramCacheKey ProgramCacheItem;
  m_last_program : Z;
  m_pipeline_disk_cache_file : option FILE;
  m_pipeline_disk_cache_filename : string;
  m_pipeline_disk_cache_data_end : Z;
  m_pipeline_disk_cache_changed : bool;
  (** [m_features.dual_source_blend] *)
  m_features_dual_source_blend : bool;
  (** [m_shader_cache.GetVersion()] *)
  m_shader_cache_version : Z;
  (** the shader objects alive on the heap, by address *)
  shaders : gmap nat OpenGLShader;
  world : World G
}.
Arguments m_program_cache {G} _.
Arguments m_last_program {G} _.
Arguments m_pipeline_disk_cache_file {G} _.
Arguments m_pipeline_disk_cache_filename {G} _.
Arguments m_pipeline_disk_cache_data_end {G} _.
Arguments m_pipeline_disk_cache_changed {G} _.
Arguments m_features_dual_source_blend {G} _.
Arguments m_shader_cache_version {G} _.
Arguments shaders {G} _.
Arguments world {G} _.

(** ** The records of the cache file *)

Record PipelineDiskCacheFooter := {
  version : Z;
  num_programs : Z;
  driver_vendor : list byte;
  driver_renderer : list byte;
  driver_version : list byte
}.

Record PipelineDiskCacheIndexEntry := {
  key : ProgramCacheKey;
  format : Z;
  offset : Z;
  uncompressed_size : Z;
  compressed_size : Z
}.

Definition sizeof_PipelineDiskCacheFooter : Z := 4 * 2 + 128 * 3.
Definition sizeof_ProgramCacheKey : Z := 96.
Definition sizeof_PipelineDiskCacheIndexEntry : Z := 112.

Definition encode_footer (f : PipelineDiskCacheFooter) : list byte :=
  encode_u32 (version f) ++ encode_u32 (num_programs f)
    ++ driver_vendor f ++ driver_renderer f ++ driver_version f.

Definition decode_footer (bs : list byte) : PipelineDiskCacheFooter :=
  {| version := decode_u32 bs;
     num_programs := decode_u32 (drop 4 bs);
     driver_vendor := take 128 (drop 8 bs);
     driver_renderer := take 128 (drop 136 bs);
     driver_version := take 128 (drop 264 bs) |}.

(** The bytes of a C string: the characters before the first NUL. *)
Fixpoint c_str (bs : list byte) : list byte :=
  match bs with
  | [] => []
  | b :: bs => if Byte.eqb b Byte.x00 then [] else b :: c_str bs
  end.

(** Modelled from the spec: [StringUtil::Strlcpy] is not under src/; the
    spec has each driver string "truncated to a fixed maximum length (127
    bytes + terminator)".  Into a buffer of [size] chars go at most
    [size - 1] characters and a terminator.  The chars after the terminator
    are whatever the buffer held; they are taken to be zero. *)
Definition Strlcpy (src : string) (size : nat) : list byte :=
  let chars := take (size - 1) (c_str (String.list_byte_of_string src)) in
  chars ++ replicate (size - length chars) Byte.x00.

(** [std::strncmp(a, b, n) == 0] on two char arrays. *)
Fixpoint strncmp_eq (a b : list byte) (n : nat) : bool :=
  match n with
  | O => true
  | S n =>
      let x := hd Byte.x00 a in
      let y := hd Byte.x00 b in
      if Byte.eqb x y then
        if Byte.eqb x Byte.x00 then true else strncmp_eq (tl a) (tl b) n
      else false
  end.

(** [ZSTD_decompress(dst, dstCapacity, src, srcSize)]: the number of bytes
    written and the destination afterwards, or [None] for an error code
    (a frame that does not decode, or one longer than the destination). *)
Definition ZSTD_decompress `{!Externals} (dst src : list byte) : option (Z * list byte) :=
  match zstd_decompress src with
  | None => None
  | Some out =>
      if (length out <=? length dst)%nat
      then Some (Z.of_nat (length out), out ++ drop (length out) dst)
      else None
  end.

(** [DynamicHeapArray<u8> data(n)]: [n] bytes, not initialised. *)
Definition DynamicHeapArray `{!Externals} (n : nat) : list byte :=
  uninitialized n <$> seq 0 n.

Definition encode_entry `{!Externals} (e : PipelineDiskCacheIndexEntry) : list byte :=
  ProgramCacheKey_to_bytes (key e) ++ encode_u32 (format e) ++ encode_u32 (offset e)
    ++ encode_u32 (uncompressed_size e) ++ encode_u32 (compressed_size e).

Definition decode_entry `{!Externals} (bs : list byte) : PipelineDiskCacheIndexEntry :=
  {| key := ProgramCacheKey_of_bytes (take 96 bs);
     format := decode_u32 (drop 96 bs);
     offset := decode_u32 (drop 100 bs);
     uncompressed_size := decode_u32 (drop 104 bs);
     compressed_size := decode_u32 (drop 108 bs) |}.

Definition newline : string := String (Ascii.ascii_of_nat 10) EmptyString.

(** ** The device monad: state, and [None] for an abort *)

Definition M (S A : Type) : Type := S → option (A * S).

#[global] Instance M_ret {S} : MRet (M S) := λ A (a : A) s, Some (a, s).
#[global] Instance M_bind {S} : MBind (M S) := λ A B (f : A → M S B) (m : M S A) s,
  match m s with
  | Some (a, s') => f a s'
  | None => None
  end.

Definition abort {S A} : M S A := λ _, None.
Definition gets {S A} (f : S → A) : M S A := λ s, Some (f s, s).
Definition modify {S} (f : S → S) : M S unit := λ s, Some (tt, f s).
(** A total state transformer with a result, run inside the monad. *)
Definition lift {S A} (f : S → A * S) : M S A := λ s, Some (f s).
(** [Assert(cond)] *)
Definition Assert {S} (cond : bool) : M S unit := if cond then mret tt else abort.
(** A loop over the elements of a list, in order. *)
Fixpoint for_each {S A} (l : list A) (body : A → M S unit) : M S unit :=
  match l with
  | [] => mret tt
  | a :: l => body a;; for_each l body
  end.

(** A [GLuint] or [u32] read as a [GLint]. *)
Definition to_s32 (x : Z) : Z := if wrap32 x <? 2 ^ 31 then wrap32 x else wrap32 x - 2 ^ 32.

Section Device.
Context {G : Type} `{!GLDriver G} `{!Externals}.

Local Abbreviation Dev := (OpenGLDevice G).

Definition set_program_cache (m : gmap ProgramCacheKey ProgramCacheItem) (d : Dev) : Dev :=
  {| m_program_cache := m; m_last_program := m_last_program d;
     m_pipeline_disk_cache_file := m_pipeline_disk_cache_file d;
     m_pipeline_disk_cache_filename := m_pipeline_disk_cache_filename d;
     m_pipeline_disk_cache_data_end := m_pipeline_disk_cache_data_end d;
     m_pipeline_disk_cache_changed := m_pipeline_disk_cache_changed d;
     m_features_dual_source_blend := m_features_dual_source_blend d;
     m_shader_cache_version := m_shader_cache_version d;
     shaders := shaders d; world := world d |}.
Definition set_last_program (p : Z) (d : Dev) : Dev :=
  {| m_program_cache := m_program_cache d; m_last_program := p;
     m_pipeline_disk_cache_file := m_pipeline_disk_cache_file d;
     m_pipeline_disk_cache_filename := m_pipeline_disk_cache_filename d;
     m_pipeline_disk_cache_data_end := m_pipeline_disk_cache_data_end d;
     m_pipeline_disk_cache_changed := m_pipeline_disk_cache_changed d;
     m_features_dual_source_blend := m_features_dual_source_blend d;
     m_shader_cache_version := m_shader_cache_version d;
     shaders := shaders d; world := world d |}.
Definition set_file (f : option FILE) (d : Dev) : Dev :=
  {| m_program_cache := m_program_cache d; m_last_program := m_last_program d;
     m_pipeline_disk_cache_file := f;
     m_pipeline_disk_cache_filename := m_pipeline_disk_cache_filename d;
     m_pipeline_disk_cache_data_end := m_pipeline_disk_cache_data_end d;
     m_pipeline_disk_cache_changed := m_pipeline_disk_cache_changed d;
     m_features_dual_source_blend := m_features_dual_source_blend d;
     m_shader_cache_version := m_shader_cache_version d;
     shaders := shaders d; world := world d |}.
Definition set_filename (n : string) (d : Dev) : Dev :=
  {| m_program_cache := m_program_cache d; m_last_program := m_last_program d;
     m_pipeline_disk_cache_file := m_pipeline_disk_cache_file d;
     m_pipeline_disk_cache_filename := n;
     m_pipeline_disk_cache_data_end := m_pipeline_disk_cache_data_end d;
     m_pipeline_disk_cache_changed := m_pipeline_disk_cache_changed d;
     m_features_dual_source_blend := m_features_dual_source_blend d;
     m_shader_cache_version := m_shader_cache_version d;
     shaders := shaders d; world := world d |}.
Definition set_data_end (e : Z) (d : Dev) : Dev :=
  {| m_program_cache := m_program_cache d; m_last_program := m_last_program d;
     m_pipeline_disk_cache_file := m_pipeline_disk_cache_file d;
     m_pipeline_disk_cache_filename := m_pipeline_disk_cache_filename d;
     m_pipeline_disk_cache_data_end := e;
     m_pipeline_disk_cache_changed := m_pipeline_disk_cache_changed d;
     m_features_dual_source_blend := m_features_dual_source_blend d;
     m_shader_cache_version := m_shader_cache_version d;
     shaders := shaders d; world := world d |}.
Definition set_changed (c : bool) (d : Dev) : Dev :=
  {| m_program_cache := m_program_cache d; m_last_program := m_last_program d;
     m_pipeline_disk_cache_file := m_pipeline_disk_cache_file d;
     m_pipeline_disk_cache_filename := m_pipeline_disk_cache_filename d;
     m_pipeline_disk_cache_data_end := m_pipeline_disk_cache_data_end d;
     m_pipeline_disk_cache_changed := c;
     m_features_dual_source_blend := m_features_dual_source_blend d;
     m_shader_cache_version := m_shader_cache_version d;
     shaders := shaders d; world := world d |}.
Definition set_shaders (h : gmap nat OpenGLShader) (d : Dev) : Dev :=
  {| m_program_cache := m_program_cache d; m_last_program := m_last_program d;
     m_pipeline_disk_cache_file := m_pipeline_disk_cache_file d;
     m_pipeline_disk_cache_filename := m_pipeline_disk_cache_filename d;
     m_pipeline_disk_cache_data_end := m_pipeline_disk_cache_data_end d;
     m_pipeline_disk_cache_changed := m_pipeline_disk_cache_changed d;
     m_features_dual_source_blend := m_features_dual_source_blend d;
     m_shader_cache_version := m_shader_cache_version d;
     shaders := h; world := world d |}.
Definition set_world (w : World G) (d : Dev) : Dev :=
  {| m_program_cache := m_program_cache d; m_last_program := m_last_program d;
     m_pipeline_disk_cache_file := m_pipeline_disk_cache_file d;
     m_pipeline_disk_cache_filename := m_pipeline_disk_cache_filename d;
     m_pipeline_disk_cache_data_end := m_pipeline_disk_cache_data_end d;
     m_pipeline_disk_cache_changed := m_pipeline_disk_cache_changed d;
     m_features_dual_source_blend := m_features_dual_source_blend d;
     m_shader_cache_version := m_shader_cache_version d;
     shaders := shaders d; world := w |}.

(** A driver call with a result, and one without. *)
Definition gl_call {A} (f : G → A * G) : M Dev A :=
  lift (λ d, let '(a, g) := f (gl (world d)) in (a, set_world (set_gl g (world d)) d)).
Definition gl_do (f : G → G) : M Dev unit :=
  modify (λ d, set_world (set_gl (f (gl (world d))) (world d)) d).
(** A file-system call. *)
Definition os_call {A} (f : World G → A * World G) : M Dev A :=
  lift (λ d, let '(a, w) := f (world d) in (a, set_world w d)).

Definition deref_shader (p : nat) : M Dev OpenGLShader :=
  λ d, match shaders d !! p with
       | Some sh => Some (sh, d)
       | None => None
       end.
Definition store_shader (p : nat) (sh : OpenGLShader) : M Dev unit :=
  modify (λ d, set_shaders (<[p := sh]> (shaders d)) d).

(** ** Shader objects *)

Definition GetGLShaderType (stage : GPUShaderStage) : Z :=
  match stage with
  | Vertex => GL_VERTEX_SHADER
  | Fragment => GL_FRAGMENT_SHADER
  | Geometry => GL_GEOMETRY_SHADER
  | Compute => GL_COMPUTE_SHADER
  end.

Definition set_m_id (id : option Z) (sh : OpenGLShader) : OpenGLShader :=
  {| m_stage := m_stage sh; m_key := m_key sh; m_source := m_source sh;
     m_id := id; m_compile_tried := m_compile_tried sh |}.
Definition set_m_compile_tried (b : bool) (sh : OpenGLShader) : OpenGLShader :=
  {| m_stage := m_stage sh; m_key := m_key sh; m_source := m_source sh;
     m_id := m_id sh; m_compile_tried := b |}.

(** The dump of a shader that failed to compile: bad_shader_<n>.txt with
    the source, a line naming the stage, and the compiler's log.  The
    results of the writes are not looked at. *)
Definition dump_bad_shader (sh : OpenGLShader) (info_log : list byte)
    (info_log_length : Z) : M Dev unit :=
  n ← gets (λ d, s_next_bad_shader_id (world d));
  modify (λ d, set_world (set_next_bad_shader_id (wrap32 (n + 1)) (world d)) d);;
  fp ← os_call (OpenCFile (GetShaderDumpPath ("bad_shader_" +:+ pretty n +:+ ".txt")) WB);
  match fp with
  | inr _ => mret tt
  | inl fp =>
      '(_, fp) ← os_call (fwrite fp (String.list_byte_of_string (m_source sh)));
      '(_, fp) ← os_call (fwrite fp (String.list_byte_of_string
                   (newline +:+ newline +:+ "Compile " +:+ GetStageName (m_stage sh)
                      +:+ " shader failed" +:+ newline)));
      _ ← os_call (fwrite fp (take (Z.to_nat info_log_length) info_log));
      mret tt
  end.

(** The body of [OpenGLShader::Compile] after the memo check. *)
Definition do_compile (p : nat) (sh : OpenGLShader) : M Dev bool :=
  _ ← gl_call glGetError;
  shader ← gl_call (glCreateShader (GetGLShaderType (m_stage sh)));
  err ← gl_call glGetError;
  if negb (err =? GL_NO_ERROR) then mret false
  else
    gl_do (glShaderSource shader (m_source sh));;
    gl_do (glCompileShader shader);;
    status ← gl_call (glGetShaderiv shader GL_COMPILE_STATUS);
    info_log_length ← gl_call (glGetShaderiv shader GL_INFO_LOG_LENGTH);
    if (status =? GL_FALSE) || (0 <? info_log_length) then
      '(info_log_length, info_log) ← gl_call (glGetShaderInfoLog shader info_log_length);
      if status =? GL_TRUE then
        store_shader p (set_m_id (Some shader) sh);;
        mret true
      else
        dump_bad_shader sh info_log info_log_length;;
        gl_do (glDeleteShader shader);;
        mret false
    else
      store_shader p (set_m_id (Some shader) sh);;
      mret true.

(** [OpenGLShader::Compile] on the object at address [p]. *)
Definition OpenGLShader_Compile (p : nat) : M Dev bool :=
  sh ← deref_shader p;
  if m_compile_tried sh then mret (bool_decide (is_Some (m_id sh)))
  else
    let sh := set_m_compile_tried true sh in
    store_shader p sh;;
    do_compile p sh.

(** [OpenGLShader::GetGLId] *)
Definition GetGLId (sh : OpenGLShader) : M Dev Z :=
  match m_id sh with
  | Some id => mret id
  | None => abort
  end.

(** [OpenGLDevice::CreateShaderFromSource]: the result is the address of
    the new object, or [None] for the empty [unique_ptr]. *)
Definition CreateShaderFromSource (stage : GPUShaderStage) (source : string)
    (entry_point : string) : M Dev (option nat) :=
  if negb (bool_decide (entry_point = "main")) then mret None
  else
    p ← gets (λ d, fresh (dom (shaders d)));
    store_shader p {| m_stage := stage; m_key := GetCacheKey stage source entry_point;
                      m_source := source; m_id := None; m_compile_tried := false |};;
    mret (Some p).

(** ** Key derivation *)

(** [OpenGLPipeline::GetProgramCacheKey].  The function reads the keys of
    the shader objects, hence the store [h]. *)
Definition GetProgramCacheKey (h : gmap nat OpenGLShader) (plconfig : GraphicsConfig)
  : option ProgramCacheKey :=
  let attrs := input_layout_vertex_attributes plconfig in
  if negb (length attrs <=? MAX_VERTEX_ATTRIBUTES)%nat then None
  else
    vs ← vertex_shader plconfig ≫= (h !!.);
    fs ← fragment_shader plconfig ≫= (h !!.);
    gs_key ← match geometry_shader plconfig with
             | Some p => sh ← h !! p; Some (Some (m_key sh))
             | None => Some None
             end;
    let vs_key := m_key vs in
    let fs_key := m_key fs in
    let num := wrap32 (Z.of_nat (length attrs)) in
    Some {|
      vs_hash_low := source_hash_low vs_key;
      vs_hash_high := source_hash_high vs_key;
      vs_length := source_length vs_key;
      fs_hash_low := source_hash_low fs_key;
      fs_hash_high := source_hash_high fs_key;
      fs_length := source_length fs_key;
      gs_hash_low := from_option source_hash_low 0 gs_key;
      gs_hash_high := from_option source_hash_high 0 gs_key;
      gs_length := from_option source_length 0 gs_key;
      va_key := {|
        vertex_attributes :=
          if 0 <? num then
            take (Z.to_nat num) attrs
              ++ drop (Z.to_nat num) (replicate MAX_VERTEX_ATTRIBUTES VertexAttribute_zero)
          else replicate MAX_VERTEX_ATTRIBUTES VertexAttribute_zero;
        vertex_attribute_stride :=
          if 0 <? num then input_layout_vertex_stride plconfig else 0;
        num_vertex_attributes := num
      |}
    |}.

(** ** Linking a program *)

Definition set_program_id (id : Z) (it : ProgramCacheItem) : ProgramCacheItem :=
  {| program_id := id; reference_count := reference_count it;
     file_format := file_format it; file_offset := file_offset it;
     file_uncompressed_size := file_uncompressed_size it;
     file_compressed_size := file_compressed_size it |}.
Definition set_reference_count (n : Z) (it : ProgramCacheItem) : ProgramCacheItem :=
  {| program_id := program_id it; reference_count := n;
     file_format := file_format it; file_offset := file_offset it;
     file_uncompressed_size := file_uncompressed_size it;
     file_compressed_size := file_compressed_size it |}.
Definition set_file_location (format offset usize csize : Z) (it : ProgramCacheItem)
  : ProgramCacheItem :=
  {| program_id := program_id it; reference_count := reference_count it;
     file_format := format; file_offset := offset;
     file_uncompressed_size := usize; file_compressed_size := csize |}.

(** [OpenGLDevice::PostLinkProgram] *)
Definition PostLinkProgram (plconfig : GraphicsConfig) (program_id : Z) : M Dev unit :=
  if negb UseGLSLBindingLayout then
    location ← gl_call (glGetUniformBlockIndex program_id "UBOBlock");
    (if 0 <=? to_s32 location
     then gl_do (glUniformBlockBinding program_id (to_s32 location) 1)
     else mret tt);;
    gl_do (glUseProgram program_id);;
    (* Texture buffer is zero here, so we have to bump it. *)
    let num_textures := Z.max (wrap32 (GetActiveTexturesForLayout (layout plconfig))) 1 in
    for_each (seqZ 0 num_textures) (λ i,
      location ← gl_call (glGetUniformLocation program_id ("samp" +:+ pretty i));
      if 0 <=? location then gl_do (glUniform1i location i) else mret tt);;
    last ← gets (S := Dev) m_last_program;
    gl_do (glUseProgram last)
  else mret tt.

(** The name an attribute is bound to in [CompileProgram]. *)
Definition semantic_vars (s : Semantic) : string :=
  match s with Position => "a_pos" | TexCoord => "a_tex" | Color => "a_col" end.
Definition attrib_name (va : VertexAttribute) : string :=
  if bool_decide (va_semantic va = Position) && (va_semantic_index va =? 0) then "a_pos"
  else semantic_vars (va_semantic va) +:+ pretty (va_semantic_index va).

(** The condition at the head of [CompileProgram], with the short-circuit
    evaluation of [||] and [&&]: [true] when every shader is there and
    compiled. *)
Definition compile_shaders (plconfig : GraphicsConfig) : M Dev bool :=
  match vertex_shader plconfig, fragment_shader plconfig with
  | Some vs, Some fs =>
      ok ← OpenGLShader_Compile vs;
      if negb ok then mret false
      else
        ok ← OpenGLShader_Compile fs;
        if negb ok then mret false
        else
          match geometry_shader plconfig with
          | Some gs => OpenGLShader_Compile gs
          | None => mret true
          end
  | _, _ => mret false
  end.

Definition attach_shader (program_id : Z) (p : nat) : M Dev unit :=
  sh ← deref_shader p;
  id ← GetGLId sh;
  gl_do (glAttachShader program_id id).

(** [OpenGLDevice::CompileProgram]: the program, or 0. *)
Definition CompileProgram (plconfig : GraphicsConfig) : M Dev Z :=
  ok ← compile_shaders plconfig;
  if negb ok then mret 0
  else
    _ ← gl_call glGetError;
    program_id ← gl_call glCreateProgram;
    err ← gl_call glGetError;
    if negb (err =? GL_NO_ERROR) then mret 0
    else
      file ← gets (S := Dev) m_pipeline_disk_cache_file;
      match file : option FILE with
      | Some _ =>
          gl_do (glProgramParameteri program_id GL_PROGRAM_BINARY_RETRIEVABLE_HINT GL_TRUE)
      | None => mret tt
      end;;
      Assert (bool_decide (is_Some (vertex_shader plconfig))
              && bool_decide (is_Some (fragment_shader plconfig)));;
      from_option (attach_shader program_id) abort (vertex_shader plconfig);;
      from_option (attach_shader program_id) abort (fragment_shader plconfig);;
      from_option (attach_shader program_id) (mret tt) (geometry_shader plconfig);;
      (if negb UseGLSLBindingLayout then
         for_each (imap (λ i va, (Z.of_nat i, va)) (input_layout_vertex_attributes plconfig))
           (λ '(i, va), gl_do (glBindAttribLocation program_id i (attrib_name va)));;
         gl_do (glBindFragDataLocation program_id 0 "o_col0");;
         dual ← gets (S := Dev) m_features_dual_source_blend;
         if (dual : bool) then
           if GLAD_GL_VERSION_3_3 || GLAD_GL_ARB_blend_func_extended
           then gl_do (glBindFragDataLocationIndexed program_id 1 0 "o_col1")
           else if GLAD_GL_EXT_blend_func_extended
           then gl_do (glBindFragDataLocationIndexedEXT program_id 1 0 "o_col1")
           else mret tt
         else mret tt
       else mret tt);;
      gl_do (glLinkProgram program_id);;
      status ← gl_call (glGetProgramiv program_id GL_LINK_STATUS);
      info_log_length ← gl_call (glGetProgramiv program_id GL_INFO_LOG_LENGTH);
      linked ←
        (if (status =? GL_FALSE) || (0 <? info_log_length) then
           _ ← gl_call (glGetProgramInfoLog program_id info_log_length);
           if status =? GL_TRUE then mret true
           else gl_do (glDeleteProgram program_id);; mret false
         else mret true);
      if negb linked then mret 0
      else
        PostLinkProgram plconfig program_id;;
        mret program_id.

(** ** The disk cache store *)

(** A stdio call on [m_pipeline_disk_cache_file]; undefined on a null
    pointer. *)
Definition file_call {A} (op : FILE → World G → (A * FILE) * World G) : M Dev A :=
  λ d, match m_pipeline_disk_cache_file d with
       | None => None
       | Some f =>
           let '((a, f'), w) := op f (world d) in
           Some (a, set_file (Some f') (set_world w d))
       end.

(** [FillFooter(footer, version)] *)
Definition FillFooter (v : Z) : M Dev PipelineDiskCacheFooter :=
  vendor ← gl_call (glGetString GL_VENDOR);
  renderer ← gl_call (glGetString GL_RENDERER);
  ver ← gl_call (glGetString GL_VERSION);
  mret {| version := v; num_programs := 0;
          driver_vendor := Strlcpy vendor 128;
          driver_renderer := Strlcpy renderer 128;
          driver_version := Strlcpy ver 128 |}.

(** What the loop of [DiscardPipelineCache] does to one entry: a live one
    loses its place in the file, one that is not loaded is erased. *)
Definition discard_item (it : ProgramCacheItem) : option ProgramCacheItem :=
  if negb (program_id it =? 0) then Some (set_file_location 0 0 0 0 it) else None.

(** [OpenGLDevice::DiscardPipelineCache] *)
Definition DiscardPipelineCache : M Dev bool :=
  (* Remove any other disk cache entries which haven't been loaded. *)
  modify (λ d, set_program_cache (omap discard_item (m_program_cache d)) d);;
  file ← gets (S := Dev) m_pipeline_disk_cache_file;
  match file : option FILE with
  | Some f => os_call (fclose f)
  | None => mret tt
  end;;
  modify (set_data_end 0);;
  filename ← gets (S := Dev) m_pipeline_disk_cache_filename;
  r ← os_call (OpenCFile filename WPlusB);
  match r with
  | inl f => modify (set_file (Some f));; mret true
  | inr _ => modify (set_file None);; modify (set_filename "");; mret false
  end.

(** [OpenGLDevice::CreateProgramFromPipelineCache]: the program, or 0.  The
    [data] buffer starts out uninitialised, and [glProgramBinary] is given
    all [file_uncompressed_size] bytes of it, however many of them
    [ZSTD_decompress] has stored. *)
Definition CreateProgramFromPipelineCache (it : ProgramCacheItem)
    (plconfig : GraphicsConfig) : M Dev Z :=
  let data := DynamicHeapArray (Z.to_nat (file_uncompressed_size it)) in
  sought ← file_call (λ f, FSeek64 f (file_offset it));
  if negb (sought : bool) then mret 0
  else
    compressed_data ← file_call (λ f, fread f (file_compressed_size it));
    match compressed_data with
    | None => mret 0
    | Some compressed_data =>
        match ZSTD_decompress data compressed_data with
        | None => mret 0
        | Some (_, data) =>
            _ ← gl_call glGetError;
            prog ← gl_call glCreateProgram;
            err ← gl_call glGetError;
            if negb (err =? GL_NO_ERROR) then mret 0
            else
              gl_do (glProgramBinary prog (file_format it) data);;
              link_status ← gl_call (glGetProgramiv prog GL_LINK_STATUS);
              if negb (link_status =? GL_TRUE) then
                gl_do (glDeleteProgram prog);;
                mret 0
              else
                PostLinkProgram plconfig prog;;
                mret prog
        end
    end.

(** [OpenGLDevice::AddToPipelineCache]: the item is a local of the caller,
    so the function returns it. *)
Definition AddToPipelineCache (it : ProgramCacheItem) : M Dev ProgramCacheItem :=
  binary_size ← gl_call (glGetProgramiv (program_id it) GL_PROGRAM_BINARY_LENGTH);
  if binary_size =? 0 then mret it
  else
    '(binary_size, format, uncompressed_data) ←
      gl_call (glGetProgramBinary (program_id it) binary_size);
    if binary_size =? 0 then mret it
    else
      match zstd_compress (take (Z.to_nat binary_size) uncompressed_data) with
      | None => mret it
      | Some compressed_data =>
          let compress_result := Z.of_nat (length compressed_data) in
          data_end ← gets (S := Dev) m_pipeline_disk_cache_data_end;
          sought ← file_call (λ f, FSeek64 f data_end);
          (if (sought : bool)
           then _ ← file_call (λ f, fwrite f compressed_data); mret tt
           else mret tt);;
          modify (set_data_end (wrap32 (data_end + wrap32 compress_result)));;
          modify (set_changed true);;
          mret (set_file_location format data_end (wrap32 binary_size)
                  (wrap32 compress_result) it)
      end.

(** ** The live program cache *)

(** [m_program_cache.emplace(key, item)]: nothing is stored when the key is
    there already. *)
Definition emplace (k : ProgramCacheKey) (it : ProgramCacheItem)
    (m : gmap ProgramCacheKey ProgramCacheItem) : gmap ProgramCacheKey ProgramCacheItem :=
  match m !! k with
  | Some _ => m
  | None => <[k := it]> m
  end.

(** The tail of [LookupProgramCache], reached with no entry for the key:
    compile and link ([lookup_miss]), then look at the result and enter the
    program on success ([enter_program]). *)
Definition enter_program (k : ProgramCacheKey) (id : Z) : M Dev Z :=
  if id =? 0 then
    (* Compile failed, don't add to map, it just gets confusing. *)
    mret 0
  else
    let item := {| program_id := id; reference_count := 1; file_format := 0;
                   file_offset := 0; file_uncompressed_size := 0;
                   file_compressed_size := 0 |} in
    file ← gets (S := Dev) m_pipeline_disk_cache_file;
    item ← match file : option FILE with
           | Some _ => AddToPipelineCache item
           | None => mret item
           end;
    modify (λ d, set_program_cache (emplace k item (m_program_cache d)) d);;
    mret (program_id item).

Definition lookup_miss (k : ProgramCacheKey) (plconfig : GraphicsConfig) : M Dev Z :=
  id ← CompileProgram plconfig;
  enter_program k id.

(** The middle of [LookupProgramCache], reached with the iterator at an
    entry. *)
Definition lookup_hit (k : ProgramCacheKey) : M Dev Z :=
  m ← gets (S := Dev) m_program_cache;
  match m !! k with
  | None => abort
  | Some it =>
      if negb (program_id it =? 0) then
        modify (λ d, set_program_cache
                       (<[k := set_reference_count (wrap32 (reference_count it + 1)) it]>
                          (m_program_cache d)) d);;
        mret (program_id it)
      else mret (program_id it)
  end.

(** [OpenGLDevice::LookupProgramCache].  The first step yields whether the
    iterator still points at an entry. *)
Definition LookupProgramCache (k : ProgramCacheKey) (plconfig : GraphicsConfig) : M Dev Z :=
  m ← gets (S := Dev) m_program_cache;
  found ←
    match m !! k with
    | None => mret false
    | Some it =>
        if (program_id it =? 0) && (0 <? file_uncompressed_size it) then
          prog ← CreateProgramFromPipelineCache it plconfig;
          modify (λ d, set_program_cache
                         (<[k := set_program_id prog it]> (m_program_cache d)) d);;
          if prog =? 0 then
            modify (λ d, set_program_cache (delete k (m_program_cache d)) d);;
            _ ← DiscardPipelineCache;
            mret false
          else mret true
        else mret true
    end;
  if (found : bool) then lookup_hit k else lookup_miss k plconfig.

(** [OpenGLDevice::UnrefProgram] *)
Definition UnrefProgram (k : ProgramCacheKey) : M Dev unit :=
  m ← gets (S := Dev) m_program_cache;
  match m !! k with
  | None => abort
  | Some it =>
      Assert (negb (program_id it =? 0) && (0 <? reference_count it));;
      let it := set_reference_count (wrap32 (reference_count it - 1)) it in
      modify (λ d, set_program_cache (<[k := it]> (m_program_cache d)) d);;
      if 0 <? reference_count it then mret tt
      else
        last ← gets (S := Dev) m_last_program;
        (if last =? program_id it then
           modify (set_last_program 0);;
           gl_do (glUseProgram 0)
         else mret tt);;
        gl_do (glDeleteProgram (program_id it));;
        let it := set_program_id 0 it in
        modify (λ d, set_program_cache (<[k := it]> (m_program_cache d)) d);;
        (* If it's not in the pipeline cache, we need to remove it completely,
           otherwise we won't recreate it. *)
        if file_uncompressed_size it =? 0 then
          modify (λ d, set_program_cache (delete k (m_program_cache d)) d)
        else mret tt
  end.

(** The item an index entry turns into. *)
Definition item_of_entry (e : PipelineDiskCacheIndexEntry) : ProgramCacheItem :=
  {| program_id := 0; reference_count := 0; file_format := format e;
     file_offset := offset e; file_uncompressed_size := uncompressed_size e;
     file_compressed_size := compressed_size e |}.

(** The loop of [ReadPipelineCache] over the index entries, with [n]
    iterations to go; [size] is the length of the file. *)
Fixpoint read_entries (n : nat) (size : Z) : M Dev bool :=
  match n with
  | O => mret true
  | S n =>
      r ← file_call (λ f, fread f sizeof_PipelineDiskCacheIndexEntry);
      match r with
      | None => DiscardPipelineCache
      | Some bytes =>
          let entry := decode_entry bytes in
          if size <=? offset entry + compressed_size entry then DiscardPipelineCache
          else
            m ← gets (S := Dev) m_program_cache;
            match m !! key entry with
            | Some _ => DiscardPipelineCache
            | None =>
                modify (λ d, set_program_cache
                               (emplace (key entry) (item_of_entry entry) (m_program_cache d)) d);;
                read_entries n size
            end
      end
  end.

Definition footer_matches (file_footer expected_footer : PipelineDiskCacheFooter) : bool :=
  (version file_footer =? version expected_footer)
  && strncmp_eq (driver_vendor file_footer) (driver_vendor expected_footer) 128
  && strncmp_eq (driver_renderer file_footer) (driver_renderer expected_footer) 128
  && strncmp_eq (driver_version file_footer) (driver_version expected_footer) 128.

(** [OpenGLDevice::ReadPipelineCache] *)
Definition ReadPipelineCache (filename : string) : M Dev bool :=
  r ← os_call (OpenCFile filename RPlusB);
  modify (set_file (match r with inl f => Some f | inr _ => None end));;
  modify (set_filename filename);;
  match r with
  | inr errno =>
      (* Multiple instances running? Ignore. *)
      if errno =? EACCES then
        modify (set_filename "");; mret true
      (* If it doesn't exist, we're going to create it. *)
      else if negb (errno =? ENOENT) then
        modify (set_filename "");; mret false
      else DiscardPipelineCache
  | inl file =>
      (* Read footer. *)
      size ← gets (λ d : Dev, FSize64 file (world d));
      if (size <? sizeof_PipelineDiskCacheFooter) || (u32_max <=? size)
      then DiscardPipelineCache
      else
        sought ← file_call (λ f, FSeek64 f (size - sizeof_PipelineDiskCacheFooter));
        footer_bytes ←
          (if (sought : bool)
           then file_call (λ f, fread f sizeof_PipelineDiskCacheFooter)
           else mret None);
        match footer_bytes with
        | None => DiscardPipelineCache
        | Some footer_bytes =>
            let file_footer := decode_footer footer_bytes in
            v ← gets (S := Dev) m_shader_cache_version;
            expected_footer ← FillFooter v;
            if negb (footer_matches file_footer expected_footer) then DiscardPipelineCache
            else
              let data_end :=
                wrap32 (wrap32 size - sizeof_PipelineDiskCacheFooter
                        - sizeof_PipelineDiskCacheIndexEntry * num_programs file_footer) in
              modify (set_data_end data_end);;
              failed ←
                (if data_end <? 0 then mret true
                 else sought ← file_call (λ f, FSeek64 f data_end); mret (negb sought));
              if (failed : bool) then DiscardPipelineCache
              else
                (* Read entries. *)
                read_entries (Z.to_nat (num_programs file_footer)) size
        end
  end.

Definition entry_of_item (k : ProgramCacheKey) (it : ProgramCacheItem)
  : PipelineDiskCacheIndexEntry :=
  {| key := k; format := file_format it; offset := file_offset it;
     uncompressed_size := file_uncompressed_size it;
     compressed_size := file_compressed_size it |}.

(** The loop of [ClosePipelineCache] over the map: the count of entries
    written, or [None] when a write failed and the function returns. *)
Fixpoint write_entries (l : list (ProgramCacheKey * ProgramCacheItem)) (count : Z)
  : M Dev (option Z) :=
  match l with
  | [] => mret (Some count)
  | (k, it) :: l =>
      if file_uncompressed_size it =? 0 then write_entries l count
      else
        ok ← file_call (λ f, fwrite f (encode_entry (entry_of_item k it)));
        if negb (ok : bool) then mret None
        else write_entries l (wrap32 (count + 1))
  end.

(** The scope guard [file_closer], run on every way out of
    [ClosePipelineCache]. *)
Definition file_closer : M Dev unit :=
  file ← gets (S := Dev) m_pipeline_disk_cache_file;
  match file : option FILE with
  | Some f => os_call (fclose f);; modify (set_file None)
  | None => mret tt
  end.

(** The body of [ClosePipelineCache], up to each [return]. *)
Definition close_body : M Dev unit :=
  changed ← gets (S := Dev) m_pipeline_disk_cache_changed;
  if negb (changed : bool) then mret tt
  else
    data_end ← gets (S := Dev) m_pipeline_disk_cache_data_end;
    sought ← file_call (λ f, FSeek64 f data_end);
    if negb (sought : bool) then mret tt
    else
      m ← gets (S := Dev) m_program_cache;
      count ← write_entries (map_to_list m) 0;
      match count with
      | None => mret tt
      | Some count =>
          v ← gets (S := Dev) m_shader_cache_version;
          footer ← FillFooter v;
          let footer := {| version := version footer; num_programs := count;
                           driver_vendor := driver_vendor footer;
                           driver_renderer := driver_renderer footer;
                           driver_version := driver_version footer |} in
          _ ← file_call (λ f, fwrite f (encode_footer footer));
          mret tt
      end.

(** [OpenGLDevice::ClosePipelineCache] *)
Definition ClosePipelineCache : M Dev unit :=
  close_body;;
  file_closer.
End Device.

(** ** Vertex array objects and pipelines *)

Definition VertexArrayCacheKey_to_tuple (k : VertexArrayCacheKey)
  : list VertexAttribute * Z * Z :=
  (vertex_attributes k, vertex_attribute_stride k, num_vertex_attributes k).
Definition VertexArrayCacheKey_of_tuple (t : list VertexAttribute * Z * Z)
  : VertexArrayCacheKey :=
  let '(vas, stride, num) := t in
  {| vertex_attributes := vas; vertex_attribute_stride := stride;
     num_vertex_attributes := num |}.

#[global] Instance VertexArrayCacheKey_countable : Countable VertexArrayCacheKey.
Proof.
  apply (inj_countable' VertexArrayCacheKey_to_tuple VertexArrayCacheKey_of_tuple).
  intros []; reflexivity.
Defined.

(** The entry points of OpenGL for vertex array objects, over the driver
    state of [GLDriver].  [glGenVertexArrays] is the call with [n = 1]: it
    yields the name stored through the pointer.  [OpenGLStreamBuffer::Bind]
    (opengl_stream_buffer.cpp) is not under src/; the two calls on
    [m_vertex_buffer] and [m_index_buffer] are driver calls as well. *)
Class GLVertexArrays (G : Type) := {
  glGenVertexArrays : G → Z * G;
  glBindVertexArray : Z → G → G;
  glEnableVertexAttribArray : Z → G → G;
  (** index, size, type, stride, pointer *)
  glVertexAttribIPointer : Z → Z → Z → Z → Z → G → G;
  (** index, size, type, normalized, stride, pointer *)
  glVertexAttribPointer : Z → Z → Z → Z → Z → Z → G → G;
  glDeleteVertexArrays : Z → G → G;
  vertex_buffer_Bind : G → G;
  index_buffer_Bind : G → G
}.

Definition GL_BYTE : Z := 0x1400.
Definition GL_UNSIGNED_BYTE : Z := 0x1401.
Definition GL_SHORT : Z := 0x1402.
Definition GL_UNSIGNED_SHORT : Z := 0x1403.
Definition GL_INT : Z := 0x1404.
Definition GL_UNSIGNED_INT : Z := 0x1405.
Definition GL_FLOAT : Z := 0x1406.
Definition GL_POINTS : Z := 0.
Definition GL_LINES : Z := 1.
Definition GL_TRIANGLES : Z := 4.
Definition GL_TRIANGLE_STRIP : Z := 5.

(** [OpenGLPipeline::VertexArrayCacheItem]; its count is [reference_count]
    in the source, a name the program cache item has taken here. *)
Record VertexArrayCacheItem := {
  vao_id : Z;
  vao_reference_count : Z
}.

(** The local struct [VAMapping] of [CreateVAO] and its table, indexed by
    [GPUPipeline::VertexAttribute::Type]. *)
Record VAMapping := {
  type : Z;
  normalized : Z;
  integer : bool
}.

Definition format_mapping : list VAMapping := [
  {| type := GL_FLOAT; normalized := GL_FALSE; integer := false |};          (* Float *)
  {| type := GL_UNSIGNED_BYTE; normalized := GL_FALSE; integer := true |};   (* UInt8 *)
  {| type := GL_BYTE; normalized := GL_FALSE; integer := true |};            (* SInt8 *)
  {| type := GL_UNSIGNED_BYTE; normalized := GL_TRUE; integer := false |};   (* UNorm8 *)
  {| type := GL_UNSIGNED_SHORT; normalized := GL_FALSE; integer := true |};  (* UInt16 *)
  {| type := GL_SHORT; normalized := GL_FALSE; integer := true |};           (* SInt16 *)
  {| type := GL_UNSIGNED_SHORT; normalized := GL_TRUE; integer := false |};  (* UNorm16 *)
  {| type := GL_UNSIGNED_INT; normalized := GL_FALSE; integer := true |};    (* UInt32 *)
  {| type := GL_INT; normalized := GL_FALSE; integer := true |}              (* SInt32 *)
].

(** [GPUPipeline::Primitive] and the table [primitives] of
    [CreatePipeline]. *)
Inductive Primitive := Points | Lines | Triangles | TriangleStrips.

Definition primitives (p : Primitive) : Z :=
  match p with
  | Points => GL_POINTS
  | Lines => GL_LINES
  | Triangles => GL_TRIANGLES
  | TriangleStrips => GL_TRIANGLE_STRIP
  end.

(** The members of [OpenGLDevice] that the vertex array cache uses, beside
    the ones in [OpenGLDevice] above, which [device] holds. *)
Record PipelineDevice (G : Type) := {
  device : OpenGLDevice G;
  m_vao_cache : gmap VertexArrayCacheKey VertexArrayCacheItem;
  m_last_vao : Z
}.
Arguments device {G} _.
Arguments m_vao_cache {G} _.
Arguments m_last_vao {G} _.

Section Pipelines.
Context {G : Type} `{!GLDriver G} `{!GLVertexArrays G} `{!Externals}.
(** The fixed-function states are declared in gpu_device.h, which is not
    under src/; [CreatePipeline] only copies them. *)
Context {RasterizationState DepthState BlendState : Type}.

Local Abbreviation PDev := (PipelineDevice G).

(** The rest of [GPUPipeline::GraphicsConfig], which [CreatePipeline] reads
    beside the part the program cache reads. *)
Record PipelineConfig := {
  plconfig : GraphicsConfig;
  rasterization : RasterizationState;
  depth : DepthState;
  blend : BlendState;
  primitive : Primitive
}.

(** The members of [OpenGLPipeline]; [pl_key] is [m_key]. *)
Record OpenGLPipeline := {
  pl_key : ProgramCacheKey;
  m_program : Z;
  m_vao : Z;
  m_blend_state : BlendState;
  m_rasterization_state : RasterizationState;
  m_depth_state : DepthState;
  m_topology : Z
}.

Definition set_device (d : OpenGLDevice G) (s : PDev) : PDev :=
  {| device := d; m_vao_cache := m_vao_cache s; m_last_vao := m_last_vao s |}.
Definition set_vao_cache (m : gmap VertexArrayCacheKey VertexArrayCacheItem) (s : PDev)
  : PDev :=
  {| device := device s; m_vao_cache := m; m_last_vao := m_last_vao s |}.
Definition set_last_vao (v : Z) (s : PDev) : PDev :=
  {| device := device s; m_vao_cache := m_vao_cache s; m_last_vao := v |}.
Definition set_vao_reference_count (n : Z) (it : VertexArrayCacheItem)
  : VertexArrayCacheItem :=
  {| vao_id := vao_id it; vao_reference_count := n |}.

(** A function of the part of the device above, run on the whole. *)
Definition on_device {A} (m : M (OpenGLDevice G) A) : M PDev A :=
  λ s, match m (device s) with
       | Some (a, d) => Some (a, set_device d s)
       | None => None
       end.

(** The body of the loop of [CreateVAO].  An attribute type outside the
    table is an access out of bounds. *)
Definition bind_attribute (stride : Z) (i : Z) (va : VertexAttribute) : M PDev unit :=
  match (if va_type va <? 0 then None else format_mapping !! Z.to_nat (va_type va)) with
  | None => abort
  | Some m =>
      on_device (gl_do (glEnableVertexAttribArray i));;
      if integer m then
        on_device (gl_do (glVertexAttribIPointer i (va_components va) (type m) stride
                            (va_offset va)))
      else
        on_device (gl_do (glVertexAttribPointer i (va_components va) (type m)
                            (normalized m) stride (va_offset va)))
  end.

(** [OpenGLDevice::CreateVAO]: the vertex array object, or 0. *)
Definition CreateVAO (attributes : list VertexAttribute) (stride : Z) : M PDev Z :=
  _ ← on_device (gl_call glGetError);
  vao ← on_device (gl_call glGenVertexArrays);
  err ← on_device (gl_call glGetError);
  if negb (err =? GL_NO_ERROR) then mret 0
  else
    on_device (gl_do (glBindVertexArray vao));;
    on_device (gl_do vertex_buffer_Bind);;
    on_device (gl_do index_buffer_Bind);;
    for_each (imap (λ i va, (Z.of_nat i, va)) attributes)
      (λ '(i, va), bind_attribute stride i va);;
    last ← gets (S := PDev) m_last_vao;
    on_device (gl_do (glBindVertexArray last));;
    mret vao.

(** [m_vao_cache.emplace(key, item)] *)
Definition vao_emplace (k : VertexArrayCacheKey) (it : VertexArrayCacheItem)
    (m : gmap VertexArrayCacheKey VertexArrayCacheItem)
  : gmap VertexArrayCacheKey VertexArrayCacheItem :=
  match m !! k with
  | Some _ => m
  | None => <[k := it]> m
  end.

(** [OpenGLDevice::LookupVAOCache].  The span over the first
    [num_vertex_attributes] slots of the key is an access out of bounds
    when the count exceeds the array. *)
Definition LookupVAOCache (key : VertexArrayCacheKey) : M PDev Z :=
  m ← gets (S := PDev) m_vao_cache;
  match m !! key with
  | Some it =>
      modify (λ s, set_vao_cache
                     (<[key := set_vao_reference_count
                                 (wrap32 (vao_reference_count it + 1)) it]>
                        (m_vao_cache s)) s);;
      mret (vao_id it)
  | None =>
      if Z.of_nat (length (vertex_attributes key)) <? num_vertex_attributes key then abort
      else
        id ← CreateVAO (take (Z.to_nat (num_vertex_attributes key)) (vertex_attributes key))
                (vertex_attribute_stride key);
        if id =? 0 then mret 0
        else
          let item := {| vao_id := id; vao_reference_count := 1 |} in
          modify (λ s, set_vao_cache (vao_emplace key item (m_vao_cache s)) s);;
          mret id
  end.

(** [OpenGLDevice::UnrefVAO] *)
Definition UnrefVAO (key : VertexArrayCacheKey) : M PDev unit :=
  m ← gets (S := PDev) m_vao_cache;
  match m !! key with
  | None => abort
  | Some it =>
      Assert (0 <? vao_reference_count it);;
      let it := set_vao_reference_count (wrap32 (vao_reference_count it - 1)) it in
      modify (λ s, set_vao_cache (<[key := it]> (m_vao_cache s)) s);;
      if 0 <? vao_reference_count it then mret tt
      else
        last ← gets (S := PDev) m_last_vao;
        (if last =? vao_id it then
           modify (set_last_vao 0);;
           on_device (gl_do (glBindVertexArray 0))
         else mret tt);;
        on_device (gl_do (glDeleteVertexArrays (vao_id it)));;
        modify (λ s, set_vao_cache (delete key (m_vao_cache s)) s)
  end.

(** [OpenGLDevice::CreatePipeline]: [None] is the empty [unique_ptr].  The
    [Assert] of [GetProgramCacheKey] aborts. *)
Definition CreatePipeline (config : PipelineConfig) : M PDev (option OpenGLPipeline) :=
  h ← gets (λ s : PDev, shaders (device s));
  match GetProgramCacheKey h (plconfig config) with
  | None => abort
  | Some pkey =>
      program_id ← on_device (LookupProgramCache pkey (plconfig config));
      if program_id =? 0 then mret None
      else
        vao_id ← LookupVAOCache (va_key pkey);
        if vao_id =? 0 then
          on_device (UnrefProgram pkey);;
          mret None
        else
          mret (Some {| pl_key := pkey; m_program := program_id; m_vao := vao_id;
                        m_blend_state := blend config;
                        m_rasterization_state := rasterization config;
                        m_depth_state := depth config;
                        m_topology := primitives (primitive config) |})
  end.

(** [OpenGLPipeline::~OpenGLPipeline].  [OpenGLDevice::UnbindPipeline]
    (opengl_device.cpp) is not under src/; it is a parameter. *)
Definition OpenGLPipeline_destroy (UnbindPipeline : OpenGLPipeline → M PDev unit)
    (pl : OpenGLPipeline) : M PDev unit :=
  UnbindPipeline pl;;
  on_device (UnrefProgram (pl_key pl));;
  UnrefVAO (va_key (pl_key pl)).
End Pipelines.

(** * Notions used in the statements *)

Section Notions.
Context {G : Type} `{!GLDriver G} `{!Externals}.
Implicit Types (d : OpenGLDevice G).



(** The device fields outside the driver, the file system and the shader
    objects. *)
Definition same_caches d d' : Prop :=
  m_program_cache d' = m_program_cache d
  ∧ m_last_program d' = m_last_program d
  ∧ m_pipeline_disk_cache_file d' = m_pipeline_disk_cache_file d
  ∧ m_pipeline_disk_cache_filename d' = m_pipeline_disk_cache_filename d
  ∧ m_pipeline_disk_cache_data_end d' = m_pipeline_disk_cache_data_end d
  ∧ m_pipeline_disk_cache_changed d' = m_pipeline_disk_cache_changed d
  ∧ m_features_dual_source_blend d' = m_features_dual_source_blend d
  ∧ m_shader_cache_version d' = m_shader_cache_version d.

Definition keeps_caches {A} (m : M (OpenGLDevice G) A) : Prop :=
  ∀ d a d', m d = Some (a, d') → same_caches d d'.

(** A program that cannot abort. *)
Definition defined {A} (m : M (OpenGLDevice G) A) : Prop := ∀ d, is_Some (m d).

(** The entries [ClosePipelineCache] writes: those of the items with a
    place in the file, in the order of the traversal. *)
Definition backed_entries (l : list (ProgramCacheKey * ProgramCacheItem))
  : list PipelineDiskCacheIndexEntry :=
  (λ x, entry_of_item x.1 x.2) <$> filter (λ x, file_uncompressed_size x.2 ≠ 0) l.

(** The footer [FillFooter] builds, as a function of the driver state. *)
Definition footer_of (v : Z) (g : G) : PipelineDiskCacheFooter :=
  let '(vendor, g) := glGetString GL_VENDOR g in
  let '(renderer, g) := glGetString GL_RENDERER g in
  let '(ver, g) := glGetString GL_VERSION g in
  {| version := v; num_programs := 0;
     driver_vendor := Strlcpy vendor 128;
     driver_renderer := Strlcpy renderer 128;
     driver_version := Strlcpy ver 128 |}.

Definition with_num_programs (n : Z) (ft : PipelineDiskCacheFooter)
  : PipelineDiskCacheFooter :=
  {| version := version ft; num_programs := n;
     driver_vendor := driver_vendor ft;
     driver_renderer := driver_renderer ft;
     driver_version := driver_version ft |}.

(** The [n] index entries that lie in [data] from position [pos] on. *)
Definition entries_at (data : list byte) (pos n : nat) : list PipelineDiskCacheIndexEntry :=
  (λ i, decode_entry (take 112 (drop (pos + 112 * i) data))) <$> seq 0 n.

(** The checks of the loop of [ReadPipelineCache] on a list of entries, and
    the cache they build: [None] when an entry is rejected. *)
Fixpoint scan_entries (es : list PipelineDiskCacheIndexEntry) (size : Z)
    (m : gmap ProgramCacheKey ProgramCacheItem)
  : option (gmap ProgramCacheKey ProgramCacheItem) :=
  match es with
  | [] => Some m
  | e :: es =>
      if size <=? offset e + compressed_size e then None
      else match m !! key e with
           | Some _ => None
           | None => scan_entries es size (<[key e := item_of_entry e]> m)
           end
  end.

Definition insert_entries (es : list PipelineDiskCacheIndexEntry)
    (m : gmap ProgramCacheKey ProgramCacheItem) : gmap ProgramCacheKey ProgramCacheItem :=
  foldl (λ m e, <[key e := item_of_entry e]> m) m es.

(** Every entry of the cache satisfies [P]. *)
Definition cache_all (P : ProgramCacheItem → Prop)
    (m : gmap ProgramCacheKey ProgramCacheItem) : Prop :=
  ∀ k it, m !! k = Some it → P it.

(** An entry that is not loaded has no references. *)
Definition unloaded_unreferenced (m : gmap ProgramCacheKey ProgramCacheItem) : Prop :=
  ∀ k it, m !! k = Some it → program_id it = 0 → reference_count it = 0.

(** An entry that is not loaded has a place in the file: the uncompressed
    size, which the code tests, is not zero. *)
Definition unloaded_backed (m : gmap ProgramCacheKey ProgramCacheItem) : Prop :=
  ∀ k it, m !! k = Some it → program_id it = 0 → file_uncompressed_size it ≠ 0.


(** The references of the live program of a key: none when the key has no
    entry or its entry is not loaded. *)
Definition live_references (k : ProgramCacheKey)
    (m : gmap ProgramCacheKey ProgramCacheItem) : Z :=
  match m !! k with
  | Some it => if program_id it =? 0 then 0 else reference_count it
  | None => 0
  end.

(** A live entry has references. *)
Definition live_referenced (m : gmap ProgramCacheKey ProgramCacheItem) : Prop :=
  ∀ k it, m !! k = Some it → program_id it ≠ 0 → 0 < reference_count it.

(** The live entries of [m'] are entries of [m], with the handle and the
    count they had there. *)
Definition live_from (m m' : gmap ProgramCacheKey ProgramCacheItem) : Prop :=
  ∀ k it', m' !! k = Some it' → program_id it' ≠ 0 →
    ∃ it, m !! k = Some it ∧ program_id it = program_id it'
          ∧ reference_count it = reference_count it'.

(** A program that yields a program name and, when the name is not 0, ends
    with the driver call that binds [m_last_program] again, which it has
    not changed. *)
Definition restores_binding (m : M (OpenGLDevice G) Z) : Prop :=
  ∀ d r d', m d = Some (r, d') → r ≠ 0 →
    m_last_program d' = m_last_program d
    ∧ ∃ g, gl (world d') = glUseProgram (m_last_program d) g.

Definition keeps_last_program {A} (m : M (OpenGLDevice G) A) : Prop :=
  ∀ d a d', m d = Some (a, d') → m_last_program d' = m_last_program d.

End Notions.

Section PipelineNotions.
Context {G : Type} `{!GLDriver G} `{!GLVertexArrays G} `{!Externals}.

(** The device with another driver state. *)
Definition with_gl (g : G) (s : PipelineDevice G) : PipelineDevice G :=
  set_device (set_world (set_gl g (world (device s))) (device s)) s.

(** A program that changes the driver state only. *)
Definition gl_only {A} (m : M (PipelineDevice G) A) : Prop :=
  ∀ s a s', m s = Some (a, s') → ∃ g, s' = with_gl g s.

Definition vao_references (k : VertexArrayCacheKey)
    (m : gmap VertexArrayCacheKey VertexArrayCacheItem) : Z :=
  match m !! k with
  | Some it => vao_reference_count it
  | None => 0
  end.

Definition vao_ids_nonzero (m : gmap VertexArrayCacheKey VertexArrayCacheItem) : Prop :=
  ∀ k it, m !! k = Some it → vao_id it ≠ 0.
End PipelineNotions.

(** * A driver and file-system stub

    A small driver in the manner of a test double: object names are handed
    out in sequence, compiling and linking succeed or fail as the stub is
    told, every program has the same binary, and [glGetError] reports the
    codes it is scripted with.  The commands that matter to the cache are
    logged, most recent first. *)

Module Stub.

Inductive GLCall :=
| CreateShader (name : Z)
| CompileShader (name : Z)
| DeleteShader (name : Z)
| CreateProgram (name : Z)
| LinkProgram (name : Z)
| ProgramBinary (name fmt : Z) (binary : list byte)
| UseProgram (name : Z)
| DeleteProgram (name : Z).

Record GL := {
  next_name : Z;
  errors : list Z;
  compile_ok : bool;
  link_ok : bool;
  binary : list byte;
  calls : list GLCall
}.

Definition log (c : GLCall) (g : GL) : GL :=
  {| next_name := next_name g; errors := errors g; compile_ok := compile_ok g;
     link_ok := link_ok g; binary := binary g; calls := c :: calls g |}.

Definition fresh_name (mk : Z → GLCall) (g : GL) : Z * GL :=
  (next_name g,
   {| next_name := next_name g + 1; errors := errors g; compile_ok := compile_ok g;
      link_ok := link_ok g; binary := binary g; calls := mk (next_name g) :: calls g |}).

Definition get_error (g : GL) : Z * GL :=
  match errors g with
  | [] => (GL_NO_ERROR, g)
  | e :: es =>
      (e, {| next_name := next_name g; errors := es; compile_ok := compile_ok g;
             link_ok := link_ok g; binary := binary g; calls := calls g |})
  end.

Definition b2z (b : bool) : Z := if b then GL_TRUE else GL_FALSE.

#[global] Instance driver : GLDriver GL := {|
  glGetError := get_error;
  glGetString := λ name g,
    ((if name =? GL_VENDOR then "Stub" else if name =? GL_RENDERER then "Soft" else "4.6"), g);
  glCreateShader := λ _, fresh_name CreateShader;
  glShaderSource := λ _ _ g, g;
  glCompileShader := λ s, log (CompileShader s);
  glGetShaderiv := λ _ pname g,
    ((if pname =? GL_COMPILE_STATUS then b2z (compile_ok g) else 0), g);
  glGetShaderInfoLog := λ _ _ g, ((0, []), g);
  glDeleteShader := λ s, log (DeleteShader s);
  glCreateProgram := fresh_name CreateProgram;
  glProgramParameteri := λ _ _ _ g, g;
  glAttachShader := λ _ _ g, g;
  glBindAttribLocation := λ _ _ _ g, g;
  glBindFragDataLocation := λ _ _ _ g, g;
  glBindFragDataLocationIndexed := λ _ _ _ _ g, g;
  glBindFragDataLocationIndexedEXT := λ _ _ _ _ g, g;
  glLinkProgram := λ p, log (LinkProgram p);
  glGetProgramiv := λ _ pname g,
    ((if pname =? GL_LINK_STATUS then b2z (link_ok g)
      else if pname =? GL_PROGRAM_BINARY_LENGTH then Z.of_nat (length (binary g))
      else 0), g);
  glGetProgramInfoLog := λ _ _ g, ((0, []), g);
  glDeleteProgram := λ p, log (DeleteProgram p);
  glGetUniformBlockIndex := λ _ _ g, (0, g);
  glUniformBlockBinding := λ _ _ _ g, g;
  glUseProgram := λ p, log (UseProgram p);
  glGetUniformLocation := λ _ _ g, (0, g);
  glUniform1i := λ _ _ g, g;
  glProgramBinary := λ p fmt bs, log (ProgramBinary p fmt bs);
  glGetProgramBinary := λ _ _ g, ((Z.of_nat (length (binary g)), 1, binary g), g);
  GLAD_GL_VERSION_3_3 := true;
  GLAD_GL_ARB_blend_func_extended := false;
  GLAD_GL_EXT_blend_func_extended := false
|}.

(** A key laid out as six [u64] hash halves, three [u32] lengths, seven
    one-word attributes, the stride and the count: 96 bytes. *)
Definition encode_u64 (x : Z) : list byte := encode_u32 x ++ encode_u32 (x / 2 ^ 32).
Definition decode_u64 (bs : list byte) : Z := decode_u32 bs + 2 ^ 32 * decode_u32 (drop 4 bs).

Definition encode_attribute (a : VertexAttribute) : list byte :=
  [byte_of_Z (Semantic_to_Z (va_semantic a) + 4 * va_type a);
   byte_of_Z (va_semantic_index a); byte_of_Z (va_components a);
   byte_of_Z (va_offset a)].
Definition decode_attribute (bs : list byte) : VertexAttribute :=
  match bs with
  | b0 :: b1 :: b2 :: b3 :: _ =>
      {| va_semantic := Semantic_of_Z (byte_to_Z b0 mod 4);
         va_semantic_index := byte_to_Z b1;
         va_type := byte_to_Z b0 / 4;
         va_components := byte_to_Z b2;
         va_offset := byte_to_Z b3 |}
  | _ => VertexAttribute_zero
  end.

Definition key_to_bytes (k : ProgramCacheKey) : list byte :=
  encode_u64 (vs_hash_low k) ++ encode_u64 (vs_hash_high k)
    ++ encode_u64 (fs_hash_low k) ++ encode_u64 (fs_hash_high k)
    ++ encode_u64 (gs_hash_low k) ++ encode_u64 (gs_hash_high k)
    ++ encode_u32 (vs_length k) ++ encode_u32 (fs_length k) ++ encode_u32 (gs_length k)
    ++ take 28 (concat (encode_attribute <$> vertex_attributes (va_key k))
                  ++ replicate 28 Byte.x00)
    ++ encode_u32 (vertex_attribute_stride (va_key k))
    ++ encode_u32 (num_vertex_attributes (va_key k)).

Definition key_of_bytes (bs : list byte) : ProgramCacheKey :=
  {| vs_hash_low := decode_u64 bs; vs_hash_high := decode_u64 (drop 8 bs);
     fs_hash_low := decode_u64 (drop 16 bs); fs_hash_high := decode_u64 (drop 24 bs);
     gs_hash_low := decode_u64 (drop 32 bs); gs_hash_high := decode_u64 (drop 40 bs);
     vs_length := decode_u32 (drop 48 bs); fs_length := decode_u32 (drop 52 bs);
     gs_length := decode_u32 (drop 56 bs);
     va_key := {|
       vertex_attributes :=
         (λ i, decode_attribute (drop (60 + 4 * i) bs)) <$> seq 0 7;
       vertex_attribute_stride := decode_u32 (drop 88 bs);
       num_vertex_attributes := decode_u32 (drop 92 bs) |} |}.

#[global] Instance externals : Externals := {|
  MAX_VERTEX_ATTRIBUTES := 7;
  UseGLSLBindingLayout := false;
  GetActiveTexturesForLayout := λ _, 1;
  GetCacheKey := λ stage source entry_point,
    {| source_hash_low := Z.of_nat (String.length source);
       source_hash_high := GetGLShaderType stage;
       source_length := Z.of_nat (String.length source) |};
  GetShaderDumpPath := λ name, "dump/" +:+ name;
  GetStageName := λ stage,
    match stage with
    | Vertex => "Vertex" | Fragment => "Fragment"
    | Geometry => "Geometry" | Compute => "Compute"
    end;
  ProgramCacheKey_to_bytes := key_to_bytes;
  ProgramCacheKey_of_bytes := key_of_bytes;
  zstd_compress := λ bs, Some (Byte.x28 :: bs);
  zstd_decompress := λ bs,
    match bs with
    | Byte.x28 :: bs => Some bs
    | _ => None
    end;
  uninitialized := λ _ _, Byte.xcd
|}.

Definition gl0 : GL :=
  {| next_name := 1; errors := []; compile_ok := true; link_ok := true;
     binary := [Byte.x01; Byte.x02; Byte.x03]; calls := [] |}.

Definition world0 : World GL :=
  {| gl := gl0; disk := ∅; io_script := []; s_next_bad_shader_id := 1 |}.

(** The device as it is constructed: empty cache, no cache file. *)
Definition device0 : OpenGLDevice GL :=
  {| m_program_cache := ∅; m_last_program := 0;
     m_pipeline_disk_cache_file := None; m_pipeline_disk_cache_filename := "";
     m_pipeline_disk_cache_data_end := 0; m_pipeline_disk_cache_changed := false;
     m_features_dual_source_blend := false; m_shader_cache_version := 3;
     shaders := ∅; world := world0 |}.

End Stub.

(** * Concrete devices and cache files *)

Module Examples.
Import Stub.

Definition key1 : ProgramCacheKey :=
  {| vs_hash_low := 11; vs_hash_high := 12; vs_length := 13;
     fs_hash_low := 21; fs_hash_high := 22; fs_length := 23;
     gs_hash_low := 0; gs_hash_high := 0; gs_length := 0;
     va_key := {| vertex_attributes := replicate 7 VertexAttribute_zero;
                  vertex_attribute_stride := 0; num_vertex_attributes := 0 |} |}.

Definition key2 : ProgramCacheKey :=
  {| vs_hash_low := 31; vs_hash_high := 32; vs_length := 33;
     fs_hash_low := 41; fs_hash_high := 42; fs_length := 43;
     gs_hash_low := 0; gs_hash_high := 0; gs_length := 0;
     va_key := {| vertex_attributes := replicate 7 VertexAttribute_zero;
                  vertex_attribute_stride := 0; num_vertex_attributes := 0 |} |}.

(** Two shader objects and a configuration that uses them. *)
Definition vs_object : OpenGLShader :=
  {| m_stage := Vertex;
     m_key := {| source_hash_low := 11; source_hash_high := 12; source_length := 13 |};
     m_source := "void main(){}"; m_id := None; m_compile_tried := false |}.
Definition fs_object : OpenGLShader :=
  {| m_stage := Fragment;
     m_key := {| source_hash_low := 21; source_hash_high := 22; source_length := 23 |};
     m_source := "void main(){o_col0=vec4(1);}"; m_id := None; m_compile_tried := false |}.
Definition heap1 : gmap nat OpenGLShader := {[ 0%nat := vs_object; 1%nat := fs_object ]}.
Definition config1 : GraphicsConfig :=
  {| layout := 0; input_layout_vertex_attributes := [];
     input_layout_vertex_stride := 0;
     vertex_shader := Some 0%nat; fragment_shader := Some 1%nat;
     geometry_shader := None |}.

(** A live entry without a place in the file, bound as current program. *)
Definition live_item : ProgramCacheItem :=
  {| program_id := 5; reference_count := 1; file_format := 1; file_offset := 0;
     file_uncompressed_size := 3; file_compressed_size := 4 |}.
Definition live_device : OpenGLDevice GL :=
  set_last_program 5 (set_program_cache {[ key1 := live_item ]} device0).

(** A session with the cache file open: one blob in the file, and its entry
    not loaded. *)
Definition blob1 : list byte := [Byte.x28; Byte.x01; Byte.x02; Byte.x03].
Definition disk_item : ProgramCacheItem :=
  {| program_id := 0; reference_count := 0; file_format := 1; file_offset := 0;
     file_uncompressed_size := 3; file_compressed_size := 4 |}.
Definition open_device (data : list byte) : OpenGLDevice GL :=
  set_world (set_disk {[ "cache.bin" := data ]} world0)
    (set_file (Some {| f_path := "cache.bin"; f_pos := 0 |})
       (set_filename "cache.bin" (set_shaders heap1 device0))).
Definition disk_device : OpenGLDevice GL :=
  set_program_cache {[ key1 := disk_item ]} (open_device blob1).

(** A device whose driver refuses to link. *)
Definition failing_gl : GL :=
  {| next_name := 1; errors := []; compile_ok := true; link_ok := false;
     binary := []; calls := [] |}.
Definition failing_device : OpenGLDevice GL :=
  set_world (set_gl failing_gl world0) (set_shaders heap1 device0).
Definition failed_device : OpenGLDevice GL :=
  match CompileProgram config1 failing_device with
  | Some (_, d) => d
  | None => failing_device
  end.

(** A device on which the next stdio call fails. *)
Definition new_item : ProgramCacheItem :=
  {| program_id := 5; reference_count := 1; file_format := 0; file_offset := 0;
     file_uncompressed_size := 0; file_compressed_size := 0 |}.
Definition faulty_device : OpenGLDevice GL :=
  set_world (set_io_script [IoFail 5] (set_disk {[ "cache.bin" := [] ]} world0))
    (set_file (Some {| f_path := "cache.bin"; f_pos := 0 |})
       (set_filename "cache.bin" device0)).

(** Cache files.  [footer1 n] is the footer the stub's driver and the
    device's shader cache version call for. *)
Definition footer1 (n : Z) : PipelineDiskCacheFooter :=
  with_num_programs n (footer_of 3 gl0).
Definition entry1 : PipelineDiskCacheIndexEntry :=
  {| key := key1; format := 1; offset := 0; uncompressed_size := 3; compressed_size := 4 |}.
(** An entry whose compressed size reaches beyond any file. *)
Definition entry2 : PipelineDiskCacheIndexEntry :=
  {| key := key2; format := 1; offset := 4; uncompressed_size := 3;
     compressed_size := 1000000 |}.
(** An entry with both sizes zero. *)
Definition entry0 : PipelineDiskCacheIndexEntry :=
  {| key := key1; format := 1; offset := 0; uncompressed_size := 0; compressed_size := 0 |}.

Definition corrupt_file : list byte :=
  blob1 ++ encode_entry entry1 ++ encode_entry entry2 ++ encode_footer (footer1 2).
Definition zero_size_file : list byte :=
  encode_entry entry0 ++ encode_footer (footer1 1).


Definition closed_device (data : list byte) : OpenGLDevice GL :=
  set_world (set_disk {[ "cache.bin" := data ]} world0) device0.

Definition after_read (data : list byte) : OpenGLDevice GL :=
  match ReadPipelineCache "cache.bin" (closed_device data) with
  | Some (_, d) => d
  | None => closed_device data
  end.

(** A session with the cache file open that compiled one program and added
    it to the file. *)
Definition dirty_device : OpenGLDevice GL :=
  match LookupProgramCache key1 config1 (open_device []) with
  | Some (_, d) => d
  | None => open_device []
  end.

(** A session that opened a missing file (which invalidates) and did
    nothing else. *)
Definition invalidated_device : OpenGLDevice GL :=
  match ReadPipelineCache "cache.bin" device0 with
  | Some (_, d) => d
  | None => device0
  end.
Definition closed_invalidated_device : OpenGLDevice GL :=
  match ClosePipelineCache invalidated_device with
  | Some (_, d) => d
  | None => invalidated_device
  end.
End Examples.

(** * A stub for the vertex array calls, and more devices *)

Module StubVertexArrays.
Import Stub.

(** Vertex array objects take their names from the same sequence as the
    other objects; the other calls leave the stub's state alone. *)
Definition gen_vertex_array (g : GL) : Z * GL :=
  (next_name g,
   {| next_name := next_name g + 1; errors := errors g; compile_ok := compile_ok g;
      link_ok := link_ok g; binary := binary g; calls := calls g |}).

#[global] Instance vertex_arrays : GLVertexArrays GL := {|
  glGenVertexArrays := gen_vertex_array;
  glBindVertexArray := λ _ g, g;
  glEnableVertexAttribArray := λ _ g, g;
  glVertexAttribIPointer := λ _ _ _ _ _ g, g;
  glVertexAttribPointer := λ _ _ _ _ _ _ g, g;
  glDeleteVertexArrays := λ _ g, g;
  vertex_buffer_Bind := λ g, g;
  index_buffer_Bind := λ g, g
|}.
End StubVertexArrays.

Module PipelineExamples.
Import Stub Examples StubVertexArrays.

(** A device that finds the cache file held by another instance. *)
Definition locked_device : OpenGLDevice GL :=
  set_world (set_io_script [IoFail EACCES] world0) device0.

(** A cache file that is a footer counting five programs, and nothing
    else. *)
Definition overcounted_file : list byte := encode_footer (footer1 5).

(** The two shader objects on the heap, and the vertex shader compiled. *)
Definition shader_device : OpenGLDevice GL := set_shaders heap1 device0.
Definition compiled_device : OpenGLDevice GL :=
  match OpenGLShader_Compile 0 shader_device with
  | Some (_, d) => d
  | None => shader_device
  end.

(** A driver that refuses to compile. *)
Definition broken_gl : GL :=
  {| next_name := 1; errors := []; compile_ok := false; link_ok := true;
     binary := []; calls := [] |}.
Definition broken_device : OpenGLDevice GL :=
  set_world (set_gl broken_gl world0) shader_device.

(** The item of a program that was just linked. *)
Definition linked_item : ProgramCacheItem :=
  {| program_id := 3; reference_count := 1; file_format := 0; file_offset := 0;
     file_uncompressed_size := 0; file_compressed_size := 0 |}.

(** The session that follows [dirty_device]: the file as the close left
    it, and a device as constructed. *)
Definition closed_dirty_device : OpenGLDevice GL :=
  match ClosePipelineCache dirty_device with
  | Some (_, d) => d
  | None => dirty_device
  end.
Definition next_session : OpenGLDevice GL :=
  set_world (set_disk (disk (world closed_dirty_device)) world0) device0.

(** A device with the vertex array cache, and a configuration with one
    attribute of two floats. *)
Definition attribute1 : VertexAttribute :=
  {| va_semantic := Position; va_semantic_index := 0; va_type := 0;
     va_components := 2; va_offset := 0 |}.
Definition config2 : GraphicsConfig :=
  {| layout := 0; input_layout_vertex_attributes := [attribute1];
     input_layout_vertex_stride := 8;
     vertex_shader := Some 0%nat; fragment_shader := Some 1%nat;
     geometry_shader := None |}.
Definition pipeline_config : PipelineConfig (RasterizationState := unit)
    (DepthState := unit) (BlendState := unit) :=
  {| plconfig := config2; rasterization := tt; depth := tt; blend := tt;
     primitive := Triangles |}.
Definition key3 : ProgramCacheKey :=
  {| vs_hash_low := 11; vs_hash_high := 12; vs_length := 13;
     fs_hash_low := 21; fs_hash_high := 22; fs_length := 23;
     gs_hash_low := 0; gs_hash_high := 0; gs_length := 0;
     va_key := {| vertex_attributes := attribute1 :: replicate 6 VertexAttribute_zero;
                  vertex_attribute_stride := 8; num_vertex_attributes := 1 |} |}.
Definition pipeline_device0 : PipelineDevice GL :=
  {| device := shader_device; m_vao_cache := ∅; m_last_vao := 0 |}.
(** The device and the pipeline after [CreatePipeline]. *)
Definition pipeline_device1 : PipelineDevice GL :=
  match CreatePipeline pipeline_config pipeline_device0 with
  | Some (_, s) => s
  | None => pipeline_device0
  end.
Definition pipeline1 : OpenGLPipeline (RasterizationState := unit)
    (DepthState := unit) (BlendState := unit) :=
  {| pl_key := key3; m_program := 3; m_vao := 4; m_blend_state := tt;
     m_rasterization_state := tt; m_depth_state := tt; m_topology := GL_TRIANGLES |}.
(** A vertex array cache with one object, bound. *)
Definition vao_item : VertexArrayCacheItem := {| vao_id := 4; vao_reference_count := 1 |}.
Definition vao_device : PipelineDevice GL :=
  {| device := shader_device; m_vao_cache := {[ va_key key3 := vao_item ]};
     m_last_vao := 4 |}.
End PipelineExamples.

(** * Properties *)

(** ** Key derivation *)

Section KeyDerivation.
Context `{!Externals}.






End KeyDerivation.

Create HintDb keeps.
Create HintDb defined.

(** Runs the monadic plumbing of the goal. *)
Ltac mred :=
  repeat (progress
    (cbv beta iota zeta delta
       [mbind M_bind mret M_ret gets modify lift abort Assert
        gl_call gl_do os_call file_call store_shader deref_shader];
     cbn [m_program_cache m_last_program m_pipeline_disk_cache_file
          m_pipeline_disk_cache_filename m_pipeline_disk_cache_data_end
          m_pipeline_disk_cache_changed m_features_dual_source_blend
          m_shader_cache_version shaders world
          set_program_cache set_last_program set_file set_filename set_data_end
          set_changed set_shaders set_world
          gl disk io_script s_next_bad_shader_id
          set_gl set_disk set_io_script set_next_bad_shader_id
          program_id reference_count file_format file_offset
          file_uncompressed_size file_compressed_size
          set_program_id set_reference_count set_file_location negb])).

(** [mred] with the boolean connectives evaluated. *)
Ltac mredb := repeat (progress (mred; cbn [andb orb negb])).


Section DeviceProperties.
Context {G : Type} `{!GLDriver G} `{!Externals}.
Implicit Types (d : OpenGLDevice G) (k : ProgramCacheKey) (it : ProgramCacheItem).

Local Abbreviation keeps_caches := (keeps_caches (G := G)).
Local Abbreviation defined := (defined (G := G)).

Lemma CreateShaderFromSource_main stage source d :
  let p := fresh (dom (shaders d)) in
  let sh := {| m_stage := stage; m_key := GetCacheKey stage source "main";
               m_source := source; m_id := None; m_compile_tried := false |} in
  shaders d !! p = None
  ∧ CreateShaderFromSource stage source "main" d
    = Some (Some p, set_shaders (<[p := sh]> (shaders d)) d).
Proof.
  intros p sh. split.
  - apply not_elem_of_dom. apply is_fresh.
  - reflexivity.
Qed.

Lemma Compile_first p sh d :
  shaders d !! p = Some sh → m_compile_tried sh = false →
  OpenGLShader_Compile p d
  = do_compile p (set_m_compile_tried true sh)
      (set_shaders (<[p := set_m_compile_tried true sh]> (shaders d)) d).
Proof.
  intros Hp Htried. unfold OpenGLShader_Compile. mred. rewrite Hp, Htried. reflexivity.
Qed.

Lemma Compile_memo p sh d :
  shaders d !! p = Some sh → m_compile_tried sh = true →
  OpenGLShader_Compile p d = Some (bool_decide (is_Some (m_id sh)), d).
Proof.
  intros Hp Htried. unfold OpenGLShader_Compile. mred. rewrite Hp, Htried. reflexivity.
Qed.

(** C10.  [CreateShaderFromSource] yields the null pointer, and leaves the
    device and the driver as they were, for every entry point other than
    "main".  For "main" it yields a new shader object on which no compile
    has been tried and that has no GL shader yet; the driver is not called,
    and the first [Compile()] on the object is the one that runs the
    compiler. *)
Theorem CreateShaderFromSource_defers_compile stage source entry_point d :
  (entry_point ≠ "main" →
     CreateShaderFromSource stage source entry_point d = Some (None, d))
  ∧ (entry_point = "main" →
     ∃ p sh d',
       CreateShaderFromSource stage source entry_point d = Some (Some p, d')
       ∧ shaders d !! p = None
       ∧ shaders d' = <[p := sh]> (shaders d)
       ∧ world d' = world d
       ∧ m_program_cache d' = m_program_cache d
       ∧ m_stage sh = stage ∧ m_source sh = source
       ∧ m_compile_tried sh = false ∧ m_id sh = None
       ∧ OpenGLShader_Compile p d'
         = do_compile p (set_m_compile_tried true sh)
             (set_shaders (<[p := set_m_compile_tried true sh]> (shaders d')) d')).
Proof.
  split.
  - intros Hne. unfold CreateShaderFromSource.
    rewrite bool_decide_eq_false_2 by assumption. reflexivity.
  - intros ->.
    destruct (CreateShaderFromSource_main stage source d) as [Hfresh Hcreate].
    eexists _, _, _. split; [exact Hcreate|].
    repeat split; try assumption.
    apply Compile_first; [apply lookup_insert_eq | reflexivity].
Qed.

Lemma wrap32_small x : 0 ≤ x < u32_modulus → wrap32 x = x.
Proof. intros. unfold wrap32. apply Z.mod_small. assumption. Qed.

(** ** Release *)

(** C4.  [UnrefProgram] on a key with a live entry (the condition of its
    [Assert]) decrements the reference count.  When the count stays above
    zero nothing else changes.  When it reaches zero, the program is
    deleted in the driver, after [glUseProgram(0)] and the reset of
    [m_last_program] if it was the current program; the entry is then
    erased if and only if its uncompressed size in the file is zero, and is
    otherwise kept with handle 0, count 0 and its place in the file as it
    was. *)
Theorem UnrefProgram_release k it d :
  m_program_cache d !! k = Some it →
  program_id it ≠ 0 →
  0 < reference_count it < u32_modulus →
  ∃ d',
    UnrefProgram k d = Some (tt, d')
    ∧ (1 < reference_count it →
         d' = set_program_cache
                (<[k := set_reference_count (reference_count it - 1) it]> (m_program_cache d)) d)
    ∧ (reference_count it = 1 →
         gl (world d')
         = glDeleteProgram (program_id it)
             (if m_last_program d =? program_id it
              then glUseProgram 0 (gl (world d)) else gl (world d))
         ∧ m_last_program d'
           = (if m_last_program d =? program_id it then 0 else m_last_program d)
         ∧ (m_program_cache d' !! k = None ↔ file_uncompressed_size it = 0)
         ∧ (file_uncompressed_size it = 0 →
              m_program_cache d' = delete k (m_program_cache d))
         ∧ (file_uncompressed_size it ≠ 0 →
              m_program_cache d'
              = <[k := set_program_id 0 (set_reference_count 0 it)]> (m_program_cache d))
         ∧ disk (world d') = disk (world d)
         ∧ m_pipeline_disk_cache_file d' = m_pipeline_disk_cache_file d
         ∧ m_pipeline_disk_cache_data_end d' = m_pipeline_disk_cache_data_end d
         ∧ m_pipeline_disk_cache_changed d' = m_pipeline_disk_cache_changed d).
Proof.
  intros Hk Hid Hrc.
  unfold UnrefProgram. mred. rewrite Hk.
  assert (Hlive : negb (program_id it =? 0) && (0 <? reference_count it) = true).
  { apply andb_true_iff. split; [apply negb_true_iff; lia | lia]. }
  rewrite Hlive. mred.
  rewrite (wrap32_small (reference_count it - 1)) by lia.
  destruct (0 <? reference_count it - 1) eqn:Hpos.
  - eexists. split; [reflexivity|]. split; [intros _; reflexivity | lia].
  - assert (Hone : reference_count it = 1) by lia.
    mred.
    destruct (m_last_program d =? program_id it) eqn:Hlast; mred;
      destruct (file_uncompressed_size it =? 0) eqn:Hsize; mred.
    all: (eexists; split; [reflexivity|]; split; [lia|]; intros _; mred).
    all: rewrite ?Hone, ?delete_insert_eq, ?insert_insert_eq; change (1 - 1) with 0.
    all: apply Z.eqb_eq in Hsize || apply Z.eqb_neq in Hsize.
    all: repeat split; try reflexivity; try (intros; lia); try (intros; congruence).
    all: try (intros _; apply lookup_delete_eq).
    all: rewrite lookup_insert_eq; discriminate.
Qed.

(** ** What compiling and linking leave alone *)

Lemma same_caches_refl d : same_caches d d.
Proof. repeat split. Qed.

Lemma same_caches_trans d1 d2 d3 :
  same_caches d1 d2 → same_caches d2 d3 → same_caches d1 d3.
Proof. unfold same_caches. intros H1 H2. intuition congruence. Qed.

Lemma keeps_ret {A} (a : A) : keeps_caches (mret a).
Proof. intros d a' d' [= _ <-]. apply same_caches_refl. Qed.

Lemma keeps_abort {A} : keeps_caches (abort (A := A)).
Proof. intros d a d' [=]. Qed.

Lemma keeps_bind {A B} (m : M (OpenGLDevice G) A) (f : A → M (OpenGLDevice G) B) :
  keeps_caches m → (∀ a, keeps_caches (f a)) → keeps_caches (m ≫= f).
Proof.
  intros Hm Hf d b d' Hrun. unfold mbind, M_bind in Hrun.
  destruct (m d) as [[a d1]|] eqn:Hmd; [|discriminate].
  eapply same_caches_trans; [eapply Hm | eapply Hf]; eassumption.
Qed.

Lemma keeps_gets {A} (f : OpenGLDevice G → A) : keeps_caches (gets f).
Proof. intros d a d' [= _ <-]. apply same_caches_refl. Qed.

Lemma keeps_gl_call {A} (f : G → A * G) : keeps_caches (gl_call f).
Proof.
  intros d a d'. unfold gl_call, lift. destruct (f _). intros [= _ <-]. repeat split.
Qed.

Lemma keeps_gl_do (f : G → G) : keeps_caches (gl_do f).
Proof. intros d a d' [= _ <-]. repeat split. Qed.

Lemma keeps_os_call {A} (f : World G → A * World G) : keeps_caches (os_call f).
Proof.
  intros d a d'. unfold os_call, lift. destruct (f _). intros [= _ <-]. repeat split.
Qed.

Lemma keeps_store_shader p sh : keeps_caches (store_shader p sh).
Proof. intros d a d' [= _ <-]. repeat split. Qed.

Lemma keeps_deref_shader p : keeps_caches (deref_shader p).
Proof.
  intros d a d'. unfold deref_shader. destruct (_ !! _); intros [= _ <-].
  apply same_caches_refl.
Qed.

Lemma keeps_set_next_bad_shader_id n :
  keeps_caches (modify (λ d, set_world (set_next_bad_shader_id n (world d)) d)).
Proof. intros d a d' [= _ <-]. repeat split. Qed.

Lemma keeps_Assert b : keeps_caches (Assert b).
Proof. destruct b; [apply keeps_ret | apply keeps_abort]. Qed.

Lemma keeps_for_each {A} (l : list A) (body : A → M (OpenGLDevice G) unit) :
  (∀ a, keeps_caches (body a)) → keeps_caches (for_each l body).
Proof.
  intros Hbody. induction l as [|a l IH]; simpl.
  - apply keeps_ret.
  - apply keeps_bind; [apply Hbody | intros _; apply IH].
Qed.

#[local] Hint Resolve keeps_ret keeps_abort keeps_gets keeps_gl_call keeps_gl_do keeps_os_call
  keeps_store_shader keeps_deref_shader keeps_set_next_bad_shader_id keeps_Assert : keeps.

(** Splits a monadic program along its binds and branches. *)
Ltac keeps_step :=
  match goal with
  | |- keeps_caches (_ ≫= _) => apply keeps_bind; [|intros ?]
  | |- keeps_caches (for_each _ _) => apply keeps_for_each; intros ?
  | |- keeps_caches (if ?c then _ else _) => destruct c
  | |- keeps_caches (match ?x with _ => _ end) => destruct x
  | |- keeps_caches (let '(_, _) := ?x in _) => destruct x
  | |- keeps_caches (from_option _ _ ?x) => destruct x; simpl
  | |- keeps_caches _ => solve [auto with keeps]
  end.

Lemma keeps_dump_bad_shader sh info_log n : keeps_caches (dump_bad_shader sh info_log n).
Proof. unfold dump_bad_shader. repeat keeps_step. Qed.

Lemma keeps_Compile p : keeps_caches (OpenGLShader_Compile p).
Proof.
  unfold OpenGLShader_Compile, do_compile.
  repeat (keeps_step || apply keeps_dump_bad_shader).
Qed.

Lemma keeps_PostLinkProgram plconfig id : keeps_caches (PostLinkProgram plconfig id).
Proof. unfold PostLinkProgram. repeat keeps_step. Qed.

Lemma keeps_CompileProgram plconfig : keeps_caches (CompileProgram plconfig).
Proof.
  unfold CompileProgram, compile_shaders, attach_shader, GetGLId.
  repeat (keeps_step || apply keeps_Compile || apply keeps_PostLinkProgram).
Qed.

(** ** Programs that cannot abort *)

Lemma defined_ret {A} (a : A) : defined (mret a).
Proof. intros d. eexists; reflexivity. Qed.

Lemma defined_bind {A B} (m : M (OpenGLDevice G) A) (f : A → M (OpenGLDevice G) B) :
  defined m → (∀ a, defined (f a)) → defined (m ≫= f).
Proof.
  intros Hm Hf d. unfold mbind, M_bind.
  destruct (Hm d) as [[a d1] ->]. apply Hf.
Qed.

Lemma defined_gets {A} (f : OpenGLDevice G → A) : defined (gets f).
Proof. intros d. eexists; reflexivity. Qed.

Lemma defined_modify (f : OpenGLDevice G → OpenGLDevice G) : defined (modify f).
Proof. intros d. eexists; reflexivity. Qed.

Lemma defined_gl_call {A} (f : G → A * G) : defined (gl_call f).
Proof. intros d. eexists; reflexivity. Qed.

Lemma defined_gl_do (f : G → G) : defined (gl_do f).
Proof. intros d. eexists; reflexivity. Qed.

Lemma defined_os_call {A} (f : World G → A * World G) : defined (os_call f).
Proof. intros d. eexists; reflexivity. Qed.

Lemma defined_for_each {A} (l : list A) (body : A → M (OpenGLDevice G) unit) :
  (∀ a, defined (body a)) → defined (for_each l body).
Proof.
  intros Hbody. induction l as [|a l IH]; simpl.
  - apply defined_ret.
  - apply defined_bind; [apply Hbody | intros _; apply IH].
Qed.

#[local] Hint Resolve defined_ret defined_gets defined_modify defined_gl_call
  defined_gl_do defined_os_call : defined.

Ltac defined_step :=
  match goal with
  | |- defined (_ ≫= _) => apply defined_bind; [|intros ?]
  | |- defined (for_each _ _) => apply defined_for_each; intros ?
  | |- defined (if ?c then _ else _) => destruct c
  | |- defined (match ?x with _ => _ end) => destruct x
  | |- defined _ => solve [auto with defined]
  end.

Lemma defined_PostLinkProgram plconfig id : defined (PostLinkProgram plconfig id).
Proof. unfold PostLinkProgram. repeat defined_step. Qed.

Lemma defined_DiscardPipelineCache : defined DiscardPipelineCache.
Proof. unfold DiscardPipelineCache. repeat defined_step. Qed.

(** [PostLinkProgram] with its result spelled out: only the driver state
    changes. *)
Lemma PostLinkProgram_run plconfig id d :
  ∃ g, PostLinkProgram plconfig id d = Some (tt, set_world (set_gl g (world d)) d).
Proof.
  destruct (defined_PostLinkProgram plconfig id d) as [[[] d'] Hrun].
  pose proof (keeps_PostLinkProgram plconfig id d tt d' Hrun) as Hkeeps.
  assert (Hw : ∀ l (body : Z → M (OpenGLDevice G) unit) d0 d1,
             (∀ i d0 d1, body i d0 = Some (tt, d1) →
                disk (world d1) = disk (world d0)
                ∧ io_script (world d1) = io_script (world d0)
                ∧ s_next_bad_shader_id (world d1) = s_next_bad_shader_id (world d0)
                ∧ shaders d1 = shaders d0) →
             for_each l body d0 = Some (tt, d1) →
             disk (world d1) = disk (world d0)
             ∧ io_script (world d1) = io_script (world d0)
             ∧ s_next_bad_shader_id (world d1) = s_next_bad_shader_id (world d0)
             ∧ shaders d1 = shaders d0).
  { induction l as [|i l IH]; intros body d0 d1 Hbody; simpl.
    - intros [= <-]. auto.
    - unfold mbind, M_bind. destruct (body i d0) as [[[] d2]|] eqn:Hi; [|discriminate].
      intros Hl. apply Hbody in Hi. apply (IH _ _ _ Hbody) in Hl.
      intuition congruence. }
  assert (Hrest : disk (world d') = disk (world d)
                  ∧ io_script (world d') = io_script (world d)
                  ∧ s_next_bad_shader_id (world d') = s_next_bad_shader_id (world d)
                  ∧ shaders d' = shaders d).
  { revert Hrun. unfold PostLinkProgram. destruct (negb _); [|intros [= <-]; auto].
    mred. destruct (glGetUniformBlockIndex _ _ _) as [location g1].
    destruct (0 <=? to_s32 location); mred.
    all: match goal with
         | |- context [for_each ?l ?body ?d0] =>
             destruct (for_each l body d0) as [[[] d2]|] eqn:Hloop; [|discriminate];
             apply Hw in Hloop; [|]
         end.
    all: try (intros [= <-]; mred; simpl in Hloop; intuition congruence).
    all: intros i d0 d1; mred; destruct (glGetUniformLocation _ _ _) as [loc g2];
         destruct (0 <=? loc); mred; intros [= <-]; auto. }
  exists (gl (world d')). rewrite Hrun. f_equal. f_equal.
  destruct Hkeeps as (?&?&?&?&?&?&?&?), Hrest as (?&?&?&?).
  destruct d as [? ? ? ? ? ? ? ? ? [? ? ? ?]], d' as [? ? ? ? ? ? ? ? ? [? ? ? ?]].
  simpl in *. subst. reflexivity.
Qed.

(** ** The stdio calls *)

Lemma next_io_keeps (w : World G) o w' :
  next_io w = (o, w') → disk w' = disk w ∧ gl w' = gl w.
Proof.
  unfold next_io. destruct (io_script w); intros [= <- <-]; auto.
Qed.

Lemma FSeek64_keeps f off (w : World G) r f1 w1 :
  FSeek64 f off w = ((r, f1), w1) →
  disk w1 = disk w ∧ gl w1 = gl w ∧ f_path f1 = f_path f
  ∧ (r = true → f_pos f1 = off ∧ 0 ≤ off).
Proof.
  unfold FSeek64. destruct (next_io w) as [o w0] eqn:Hio.
  apply next_io_keeps in Hio as [Hdisk Hgl].
  destruct o; [destruct (off <? 0) eqn:Hoff|]; intros [= <- <- <-];
    repeat split; try assumption; try discriminate; lia.
Qed.

Lemma fread_keeps f n (w : World G) r f1 w1 :
  fread f n w = ((r, f1), w1) →
  disk w1 = disk w ∧ gl w1 = gl w ∧ f_path f1 = f_path f.
Proof.
  unfold fread. destruct (next_io w) as [o w0] eqn:Hio.
  apply next_io_keeps in Hio as [Hdisk Hgl]. unfold file_data.
  destruct o; [destruct (_ || _)|]; intros [= <- <- <-]; rewrite ?Hdisk; auto.
Qed.

(** A read that succeeds yields the [n] bytes of the file at the position
    of the handle, and there are that many. *)
Lemma fread_Some f n (w : World G) bs f1 w1 :
  fread f n w = ((Some bs, f1), w1) →
  bs = take (Z.to_nat n) (drop (Z.to_nat (f_pos f)) (file_data f w))
  ∧ 0 < n
  ∧ f_pos f + n ≤ Z.of_nat (length (file_data f w))
  ∧ f_pos f1 = f_pos f + n.
Proof.
  unfold fread. destruct (next_io w) as [o w0] eqn:Hio.
  apply next_io_keeps in Hio as [Hdisk Hgl]. unfold file_data. rewrite Hdisk.
  destruct o; [|discriminate].
  destruct (_ || _) eqn:Hshort; [discriminate|].
  apply orb_false_iff in Hshort as [Hn Hlen]. intros [= <- <- <-].
  repeat split; lia.
Qed.

Lemma FSeek64_ok f off (w : World G) :
  io_script w = [] → 0 ≤ off →
  FSeek64 f off w = ((true, {| f_path := f_path f; f_pos := off |}), w).
Proof.
  intros Hscript Hoff. unfold FSeek64, next_io. rewrite Hscript.
  destruct (off <? 0) eqn:Hneg; [lia|reflexivity].
Qed.

Lemma fread_ok f n (w : World G) :
  io_script w = [] → 0 < n → 0 ≤ f_pos f →
  f_pos f + n ≤ Z.of_nat (length (file_data f w)) →
  fread f n w
  = ((Some (take (Z.to_nat n) (drop (Z.to_nat (f_pos f)) (file_data f w))),
      {| f_path := f_path f; f_pos := f_pos f + n |}), w).
Proof.
  intros Hscript Hn Hpos Hlen. unfold fread, next_io. rewrite Hscript.
  destruct (_ || _) eqn:Hshort; [|reflexivity].
  apply orb_true_iff in Hshort as [Hshort|Hshort]; lia.
Qed.

(** ** Loading a program from the cache file *)

(** [CreateProgramFromPipelineCache] returns whenever the file is open, and
    leaves the program cache and the open file in place. *)
Lemma CreateProgramFromPipelineCache_frame it plconfig d :
  match CreateProgramFromPipelineCache it plconfig d with
  | Some (r, d') =>
      m_program_cache d' = m_program_cache d ∧ is_Some (m_pipeline_disk_cache_file d')
  | None => m_pipeline_disk_cache_file d = None
  end.
Proof.
  unfold CreateProgramFromPipelineCache. mred.
  destruct (m_pipeline_disk_cache_file d) as [f|]; [|reflexivity].
  destruct (FSeek64 f (file_offset it) (world d)) as [[sought f1] w1].
  destruct sought; mred; [|eauto].
  destruct (fread f1 (file_compressed_size it) w1) as [[cdata f2] w2].
  destruct cdata as [cdata|]; mred; [|eauto].
  destruct (ZSTD_decompress _ cdata) as [[n data]|]; mred; [|eauto].
  destruct (glGetError _) as [e0 g1]. mred.
  destruct (glCreateProgram g1) as [prog g2]. mred.
  destruct (glGetError g2) as [err g3]. mred.
  destruct (err =? GL_NO_ERROR); mred; [|eauto].
  destruct (glGetProgramiv prog GL_LINK_STATUS _) as [status g5]. mred.
  destruct (status =? GL_TRUE); mred; [|eauto].
  match goal with
  | |- context [PostLinkProgram ?c ?p ?d0] =>
      destruct (PostLinkProgram_run c p d0) as [g6 ->]
  end.
  mred. eauto.
Qed.

Lemma DynamicHeapArray_length n : length (DynamicHeapArray n) = n.
Proof. unfold DynamicHeapArray. rewrite length_fmap, length_seq. reflexivity. Qed.

(** What a result other than 0 says about the run, and the failures of the
    read and of the decompression, whatever the stdio calls do. *)
Lemma CreateProgramFromPipelineCache_checked it plconfig d f :
  m_pipeline_disk_cache_file d = Some f →
  let blob := take (Z.to_nat (file_compressed_size it))
                (drop (Z.to_nat (file_offset it)) (file_data f (world d))) in
  ∃ r d',
    CreateProgramFromPipelineCache it plconfig d = Some (r, d')
    ∧ m_program_cache d' = m_program_cache d
    ∧ is_Some (m_pipeline_disk_cache_file d')
    ∧ disk (world d') = disk (world d)
    ∧ (r ≠ 0 →
       ∃ out e0 g1 g2 g3 g5,
         let data :=
           out ++ drop (length out)
                    (DynamicHeapArray (Z.to_nat (file_uncompressed_size it))) in
         file_offset it + file_compressed_size it
           ≤ Z.of_nat (length (file_data f (world d)))
         ∧ Z.of_nat (length blob) = file_compressed_size it
         ∧ zstd_decompress blob = Some out
         ∧ (length out ≤ Z.to_nat (file_uncompressed_size it))%nat
         ∧ length data = Z.to_nat (file_uncompressed_size it)
         ∧ glGetError (gl (world d)) = (e0, g1)
         ∧ glCreateProgram g1 = (r, g2)
         ∧ glGetError g2 = (GL_NO_ERROR, g3)
         ∧ glGetProgramiv r GL_LINK_STATUS (glProgramBinary r (file_format it) data g3)
           = (GL_TRUE, g5)).
Proof.
  intros Hfile blob. unfold CreateProgramFromPipelineCache. mred. rewrite Hfile.
  destruct (FSeek64 f (file_offset it) (world d)) as [[sought f1] w1] eqn:Hseek.
  destruct (FSeek64_keeps _ _ _ _ _ _ Hseek) as (Hdisk1 & Hgl1 & Hpath1 & Hpos1).
  destruct sought; mred;
    [|eexists _, _; split; [reflexivity|]; mred; repeat split; eauto; congruence].
  destruct (Hpos1 eq_refl) as [Hpos Hoff].
  destruct (fread f1 (file_compressed_size it) w1) as [[cdata f2] w2] eqn:Hread.
  destruct (fread_keeps _ _ _ _ _ _ Hread) as (Hdisk2 & Hgl2 & Hpath2).
  assert (Hdata1 : file_data f1 w1 = file_data f (world d)).
  { unfold file_data. rewrite Hdisk1, Hpath1. reflexivity. }
  destruct cdata as [cdata|]; mred.
  2:{ eexists _, _; split; [reflexivity|]; mred.
      repeat split; eauto; congruence. }
  apply fread_Some in Hread as (Hbytes & Hn & Hlen & _).
  rewrite Hdata1, Hpos in Hbytes, Hlen. fold blob in Hbytes. subst cdata.
  assert (Hclen : Z.of_nat (length blob) = file_compressed_size it).
  { unfold blob. rewrite length_take, length_drop. lia. }
  unfold ZSTD_decompress.
  destruct (zstd_decompress blob) as [out|] eqn:Hzstd.
  2:{ eexists _, _; split; [reflexivity|]; mred.
      repeat split; eauto; congruence. }
  rewrite DynamicHeapArray_length.
  destruct (length out <=? Z.to_nat (file_uncompressed_size it))%nat eqn:Hcap.
  2:{ eexists _, _; split; [reflexivity|]; mred.
      repeat split; eauto; congruence. }
  apply Nat.leb_le in Hcap. mred.
  rewrite Hgl2, Hgl1.
  destruct (glGetError (gl (world d))) as [e0 g1] eqn:He0. mred.
  destruct (glCreateProgram g1) as [prog g2] eqn:Hprog. mred.
  destruct (glGetError g2) as [err g3] eqn:Herr. mred.
  destruct (err =? GL_NO_ERROR) eqn:Hnoerr; mred.
  2:{ eexists _, _; split; [reflexivity|]; mred.
      repeat split; eauto; congruence. }
  apply Z.eqb_eq in Hnoerr. subst err.
  destruct (glGetProgramiv prog GL_LINK_STATUS _) as [status g5] eqn:Hstatus. mred.
  destruct (status =? GL_TRUE) eqn:Hlinked; mred.
  2:{ eexists _, _; split; [reflexivity|]; mred.
      repeat split; eauto; congruence. }
  apply Z.eqb_eq in Hlinked. subst status.
  match goal with
  | |- context [PostLinkProgram ?c ?p ?d0] =>
      destruct (PostLinkProgram_run c p d0) as [g6 ->]
  end.
  eexists _, _; split; [reflexivity|]; mred.
  split; [reflexivity|]. split; [eauto|]. split; [congruence|].
  intros _. exists out, e0, g1, g2, g3, g5. cbv zeta.
  repeat split; try assumption; try lia.
  rewrite length_app, length_drop, DynamicHeapArray_length. lia.
Qed.

(** The run when no stdio call fails, the blob lies within the file and
    decompresses to no more than [file_uncompressed_size] bytes. *)
Lemma CreateProgramFromPipelineCache_run it plconfig d f out e0 g1 prog g2 err g3
    status g5 r d' :
  m_pipeline_disk_cache_file d = Some f →
  io_script (world d) = [] →
  0 ≤ file_offset it →
  0 < file_compressed_size it →
  file_offset it + file_compressed_size it ≤ Z.of_nat (length (file_data f (world d))) →
  zstd_decompress
    (take (Z.to_nat (file_compressed_size it))
       (drop (Z.to_nat (file_offset it)) (file_data f (world d)))) = Some out →
  (length out ≤ Z.to_nat (file_uncompressed_size it))%nat →
  glGetError (gl (world d)) = (e0, g1) →
  glCreateProgram g1 = (prog, g2) →
  glGetError g2 = (err, g3) →
  glGetProgramiv prog GL_LINK_STATUS
    (glProgramBinary prog (file_format it)
       (out ++ drop (length out) (DynamicHeapArray (Z.to_nat (file_uncompressed_size it))))
       g3) = (status, g5) →
  CreateProgramFromPipelineCache it plconfig d = Some (r, d') →
  (err ≠ GL_NO_ERROR → r = 0 ∧ gl (world d') = g3)
  ∧ (err = GL_NO_ERROR → status ≠ GL_TRUE →
     r = 0 ∧ gl (world d') = glDeleteProgram prog g5)
  ∧ (err = GL_NO_ERROR → status = GL_TRUE →
     r = prog
     ∧ ∃ d0, gl (world d0) = g5 ∧ PostLinkProgram plconfig prog d0 = Some (tt, d')).
Proof.
  intros Hfile Hscript Hoff Hcsize Hlen Hzstd Hcap He0 Hprog Herr Hstatus.
  unfold CreateProgramFromPipelineCache. mred. rewrite Hfile.
  rewrite FSeek64_ok by assumption. mred.
  rewrite fread_ok by (simpl; assumption). mred.
  change (file_data _ (world d)) with (file_data f (world d)). cbn [f_pos].
  unfold ZSTD_decompress. rewrite Hzstd, DynamicHeapArray_length.
  apply Nat.leb_le in Hcap. rewrite Hcap. mred.
  rewrite He0. mred. rewrite Hprog. mred. rewrite Herr. mred.
  destruct (err =? GL_NO_ERROR) eqn:Hnoerr; mredb.
  2:{ intros [= <- <-]. split; [auto|]. split; intros ->; discriminate. }
  apply Z.eqb_eq in Hnoerr. rewrite Hstatus. mred.
  destruct (status =? GL_TRUE) eqn:Hlinked; mredb.
  2:{ intros [= <- <-]. split; [congruence|]. split; [auto|].
      intros _ ->. discriminate. }
  apply Z.eqb_eq in Hlinked.
  match goal with
  | |- context [PostLinkProgram ?c ?p ?d0] =>
      destruct (PostLinkProgram c p d0) as [[[] d1]|] eqn:Hpost; mred;
      [|discriminate]
  end.
  intros [= <- <-]. split; [congruence|]. split; [congruence|].
  intros _ _. split; [reflexivity|]. eexists. split; [|exact Hpost]. reflexivity.
Qed.

(** X23.  [CreateProgramFromPipelineCache] step by step.  With the cache
    file open it returns, and leaves the program cache and the files as
    they were.  The result is 0 when the file ends before the blob does,
    when the blob does not decompress, and when it decompresses to more
    than [file_uncompressed_size] bytes.  When no stdio call fails and the
    [file_compressed_size] bytes at [file_offset] decompress to [out] of
    no more than [file_uncompressed_size] bytes, the function creates a
    program and submits, in the item's format, the buffer of
    [file_uncompressed_size] bytes that starts with [out] and ends with
    what the uninitialised array held; the result is 0 when the creation
    raised an error, 0 with the program deleted when the link status is
    not [GL_TRUE], and otherwise the program, after [PostLinkProgram].
    Conversely a result other than 0 is reached in that last way only. *)
Theorem CreateProgramFromPipelineCache_steps it plconfig d f :
  m_pipeline_disk_cache_file d = Some f →
  let blob := take (Z.to_nat (file_compressed_size it))
                (drop (Z.to_nat (file_offset it)) (file_data f (world d))) in
  let buffer out :=
    out ++ drop (length out) (DynamicHeapArray (Z.to_nat (file_uncompressed_size it))) in
  ∃ r d',
    CreateProgramFromPipelineCache it plconfig d = Some (r, d')
    ∧ m_program_cache d' = m_program_cache d
    ∧ is_Some (m_pipeline_disk_cache_file d')
    ∧ disk (world d') = disk (world d)
    ∧ (Z.of_nat (length (file_data f (world d)))
         < file_offset it + file_compressed_size it → r = 0)
    ∧ (zstd_decompress blob = None → r = 0)
    ∧ (∀ out, zstd_decompress blob = Some out →
              (Z.to_nat (file_uncompressed_size it) < length out)%nat → r = 0)
    ∧ (io_script (world d) = [] →
       0 ≤ file_offset it →
       0 < file_compressed_size it →
       file_offset it + file_compressed_size it
         ≤ Z.of_nat (length (file_data f (world d))) →
       ∀ out e0 g1 prog g2 err g3 status g5,
         zstd_decompress blob = Some out →
         (length out ≤ Z.to_nat (file_uncompressed_size it))%nat →
         glGetError (gl (world d)) = (e0, g1) →
         glCreateProgram g1 = (prog, g2) →
         glGetError g2 = (err, g3) →
         glGetProgramiv prog GL_LINK_STATUS
           (glProgramBinary prog (file_format it) (buffer out) g3) = (status, g5) →
         length (buffer out) = Z.to_nat (file_uncompressed_size it)
         ∧ (err ≠ GL_NO_ERROR → r = 0 ∧ gl (world d') = g3)
         ∧ (err = GL_NO_ERROR → status ≠ GL_TRUE →
            r = 0 ∧ gl (world d') = glDeleteProgram prog g5)
         ∧ (err = GL_NO_ERROR → status = GL_TRUE →
            r = prog
            ∧ ∃ d0, gl (world d0) = g5
                    ∧ PostLinkProgram plconfig prog d0 = Some (tt, d')))
    ∧ (r ≠ 0 →
       ∃ out e0 g1 g2 g3 g5,
         file_offset it + file_compressed_size it
           ≤ Z.of_nat (length (file_data f (world d)))
         ∧ zstd_decompress blob = Some out
         ∧ (length out ≤ Z.to_nat (file_uncompressed_size it))%nat
         ∧ glGetError (gl (world d)) = (e0, g1)
         ∧ glCreateProgram g1 = (r, g2)
         ∧ glGetError g2 = (GL_NO_ERROR, g3)
         ∧ glGetProgramiv r GL_LINK_STATUS
             (glProgramBinary r (file_format it) (buffer out) g3) = (GL_TRUE, g5)).
Proof.
  intros Hfile blob buffer.
  destruct (CreateProgramFromPipelineCache_checked it plconfig d f Hfile)
    as (r & d' & Hrun & Hcache & Hopen & Hdisk & Hgood).
  fold blob in Hgood.
  assert (Hzero : ∀ P : Prop, (r ≠ 0 → ¬ P) → P → r = 0).
  { intros P HP HP'. destruct (decide (r = 0)) as [|Hr]; [assumption|].
    destruct (HP Hr HP'). }
  exists r, d'. split; [assumption|]. split; [assumption|]. split; [assumption|].
  split; [assumption|]. split; [|split; [|split; [|split]]].
  - apply Hzero. intros Hr. destruct (Hgood Hr) as (out & e0 & g1 & g2 & g3 & g5 & Hg).
    cbv zeta in Hg. lia.
  - apply Hzero. intros Hr. destruct (Hgood Hr) as (out & e0 & g1 & g2 & g3 & g5 & Hg).
    cbv zeta in Hg. destruct Hg as (_ & _ & Hout & _). congruence.
  - intros out Hout. apply Hzero. intros Hr.
    destruct (Hgood Hr) as (out' & e0 & g1 & g2 & g3 & g5 & Hg).
    cbv zeta in Hg. destruct Hg as (_ & _ & Hout' & Hcap & _).
    rewrite Hout in Hout'. injection Hout' as <-. lia.
  - intros Hscript Hoff Hcsize Hlen out e0 g1 prog g2 err g3 status g5
      Hout Hcap He0 Hprog Herr Hstatus.
    split.
    + unfold buffer. rewrite length_app, length_drop, DynamicHeapArray_length. lia.
    + apply (CreateProgramFromPipelineCache_run it plconfig d f out e0 g1 prog g2 err g3
               status g5 r d'); assumption.
  - intros Hr. destruct (Hgood Hr) as (out & e0 & g1 & g2 & g3 & g5 & Hg).
    cbv zeta in Hg. destruct Hg as (H1 & _ & H3 & H4 & _ & H6 & H7 & H8 & H9).
    exists out, e0, g1, g2, g3, g5. repeat split; assumption.
Qed.

(** ** Invalidation *)

Lemma OpenCFile_keeps path mode (w : World G) r w1 :
  OpenCFile path mode w = (r, w1) →
  gl w1 = gl w
  ∧ match r with
    | inl f =>
        f_path f = path ∧ f_pos f = 0
        ∧ (mode = RPlusB → disk w1 = disk w ∧ is_Some (disk w !! path))
        ∧ (mode ≠ RPlusB → disk w1 = <[path := []]> (disk w))
    | inr e => disk w1 = disk w
    end.
Proof.
  unfold OpenCFile. destruct (next_io w) as [o w0] eqn:Hio.
  apply next_io_keeps in Hio as [Hdisk Hgl].
  destruct o; [|intros [= <- <-]; auto].
  destruct mode.
  - destruct (disk w0 !! path) eqn:Hfile; intros [= <- <-]; simpl; rewrite <- ?Hdisk; eauto.
    repeat split; eauto. congruence.
  - intros [= <- <-]. simpl. rewrite Hdisk. repeat split; auto; congruence.
  - intros [= <- <-]. simpl. rewrite Hdisk. repeat split; auto; congruence.
Qed.

(** [DiscardPipelineCache] with its result spelled out. *)
Lemma DiscardPipelineCache_run d :
  ∃ ok d',
    DiscardPipelineCache d = Some (ok, d')
    ∧ m_program_cache d' = omap discard_item (m_program_cache d)
    ∧ m_pipeline_disk_cache_data_end d' = 0
    ∧ m_pipeline_disk_cache_changed d' = m_pipeline_disk_cache_changed d
    ∧ m_last_program d' = m_last_program d
    ∧ shaders d' = shaders d
    ∧ gl (world d') = gl (world d)
    ∧ (ok = true →
         m_pipeline_disk_cache_filename d' = m_pipeline_disk_cache_filename d
         ∧ m_pipeline_disk_cache_file d'
           = Some {| f_path := m_pipeline_disk_cache_filename d; f_pos := 0 |}
         ∧ disk (world d') = <[m_pipeline_disk_cache_filename d := []]> (disk (world d)))
    ∧ (ok = false →
         m_pipeline_disk_cache_filename d' = ""
         ∧ m_pipeline_disk_cache_file d' = None
         ∧ disk (world d') = disk (world d)).
Proof.
  unfold DiscardPipelineCache. mred.
  destruct (m_pipeline_disk_cache_file d) as [f0|]; unfold fclose; mred.
  all: destruct (OpenCFile (m_pipeline_disk_cache_filename d) WPlusB (world d))
         as [r w1] eqn:Hopen.
  all: apply OpenCFile_keeps in Hopen as [Hgl Hr].
  all: destruct r as [f|e]; mred; eexists _, _; (split; [reflexivity|]); mred.
  all: try (destruct Hr as (Hpath & Hpos & _ & Hdisk)).
  all: repeat split; try assumption; try discriminate.
  all: try (destruct f; simpl in *; congruence).
  all: apply Hdisk; discriminate.
Qed.

Lemma discard_item_Some it it' :
  discard_item it = Some it' →
  program_id it ≠ 0 ∧ it' = set_file_location 0 0 0 0 it.
Proof.
  unfold discard_item. destruct (program_id it =? 0) eqn:Hid; simpl; [discriminate|].
  intros [= <-]. split; [lia | reflexivity].
Qed.

(** After an invalidation every entry is live and has no place in the
    file. *)
Lemma discarded_cache (m : gmap ProgramCacheKey ProgramCacheItem) k it :
  omap discard_item m !! k = Some it →
  program_id it ≠ 0
  ∧ file_format it = 0 ∧ file_offset it = 0
  ∧ file_uncompressed_size it = 0 ∧ file_compressed_size it = 0.
Proof.
  rewrite lookup_omap. destruct (m !! k) as [it0|]; simpl; [|discriminate].
  intros Hit. apply discard_item_Some in Hit as [Hid ->]. auto.
Qed.

(** ** Resolution *)

Lemma LookupProgramCache_miss k plconfig d :
  m_program_cache d !! k = None →
  LookupProgramCache k plconfig d = lookup_miss k plconfig d.
Proof. intros Hk. unfold LookupProgramCache. mred. rewrite Hk. reflexivity. Qed.

(** C6.  When the key has no entry and compiling and linking fail,
    [LookupProgramCache] returns 0 and the program cache is the one it
    started with; the next resolution of the key therefore starts with
    [CompileProgram] again. *)
Theorem LookupProgramCache_compile_failure k plconfig d d1 :
  m_program_cache d !! k = None →
  CompileProgram plconfig d = Some (0, d1) →
  LookupProgramCache k plconfig d = Some (0, d1)
  ∧ m_program_cache d1 = m_program_cache d
  ∧ m_program_cache d1 !! k = None
  ∧ LookupProgramCache k plconfig d1
    = (CompileProgram plconfig ≫= enter_program k) d1.
Proof.
  intros Hk Hcompile.
  pose proof (keeps_CompileProgram plconfig d 0 d1 Hcompile) as (Hcache & _).
  assert (Hk1 : m_program_cache d1 !! k = None) by congruence.
  split.
  - rewrite LookupProgramCache_miss by assumption.
    unfold lookup_miss. mred. rewrite Hcompile. reflexivity.
  - repeat split; try assumption.
    apply LookupProgramCache_miss. assumption.
Qed.


(** ** Adding a program to the cache file *)

Lemma fwrite_keeps f bs (w : World G) r f1 w1 :
  fwrite f bs w = ((r, f1), w1) →
  gl w1 = gl w ∧ f_path f1 = f_path f
  ∧ (r = false → disk w1 = disk w)
  ∧ (r = true →
       bs ≠ []
       ∧ disk w1 = <[f_path f := write_at (Z.to_nat (f_pos f)) bs (file_data f w)]> (disk w)
       ∧ f_pos f1 = f_pos f + Z.of_nat (length bs)).
Proof.
  unfold fwrite. destruct (next_io w) as [o w0] eqn:Hio.
  apply next_io_keeps in Hio as [Hdisk Hgl]. unfold file_data. rewrite Hdisk.
  destruct o; [destruct bs|]; intros [= <- <- <-]; simpl;
    repeat split; try assumption; try discriminate; try reflexivity.
  all: intros _; assumption.
Qed.

(** C9.  When the driver hands out a binary and it compresses,
    [AddToPipelineCache] records format, offset and sizes on the item,
    advances [m_pipeline_disk_cache_data_end] by the compressed length and
    sets [m_pipeline_disk_cache_changed], whatever the seek and the write
    did.  When the seek fails, or the seek succeeds and the write fails,
    the file system is as before: the place recorded on the item holds
    no blob.  Once the item is in the cache, its entry is among those a
    close writes ([backed_entries]). *)
Theorem AddToPipelineCache_write_failure it d f binary_size g1 len fmt buf g2 compressed :
  m_pipeline_disk_cache_file d = Some f →
  glGetProgramiv (program_id it) GL_PROGRAM_BINARY_LENGTH (gl (world d))
    = (binary_size, g1) →
  binary_size ≠ 0 →
  glGetProgramBinary (program_id it) binary_size g1 = ((len, fmt, buf), g2) →
  len ≠ 0 →
  zstd_compress (take (Z.to_nat len) buf) = Some compressed →
  let data_end := m_pipeline_disk_cache_data_end d in
  let csize := Z.of_nat (length compressed) in
  let w := set_gl g2 (world d) in
  ∃ d',
    AddToPipelineCache it d
    = Some (set_file_location fmt data_end (wrap32 len) (wrap32 csize) it, d')
    ∧ m_pipeline_disk_cache_data_end d' = wrap32 (data_end + wrap32 csize)
    ∧ m_pipeline_disk_cache_changed d' = true
    ∧ m_program_cache d' = m_program_cache d
    ∧ ((∀ f1 w1, FSeek64 f data_end w = ((true, f1), w1) →
                 (fwrite f1 compressed w1).1.1 = false) →
       disk (world d') = disk (world d))
    ∧ (wrap32 len ≠ 0 →
       ∀ k (m : gmap ProgramCacheKey ProgramCacheItem),
         m !! k = Some (set_file_location fmt data_end (wrap32 len) (wrap32 csize) it) →
         entry_of_item k (set_file_location fmt data_end (wrap32 len) (wrap32 csize) it)
           ∈ backed_entries (map_to_list m)).
Proof.
  intros Hfile Hsize Hnz Hbinary Hlen Hzstd data_end csize w.
  assert (Hclose : wrap32 len ≠ 0 →
           ∀ k (m : gmap ProgramCacheKey ProgramCacheItem),
             m !! k = Some (set_file_location fmt data_end (wrap32 len) (wrap32 csize) it) →
             entry_of_item k (set_file_location fmt data_end (wrap32 len) (wrap32 csize) it)
               ∈ backed_entries (map_to_list m)).
  { intros Hsize' k m Hk. unfold backed_entries. apply list_elem_of_fmap.
    eexists (k, _). split; [reflexivity|].
    apply list_elem_of_filter. split; [exact Hsize'|].
    apply elem_of_map_to_list. exact Hk. }
  unfold AddToPipelineCache. mred. rewrite Hsize. mred.
  rewrite (proj2 (Z.eqb_neq _ _) Hnz). mred.
  rewrite Hbinary. mred.
  rewrite (proj2 (Z.eqb_neq _ _) Hlen). rewrite Hzstd. mred. rewrite Hfile.
  change (set_gl g2 (set_gl g1 (world d))) with w. fold data_end.
  destruct (FSeek64 f data_end w) as [[sought f1] w1] eqn:Hseek.
  destruct (FSeek64_keeps _ _ _ _ _ _ Hseek) as (Hdisk1 & _).
  destruct sought; mred.
  - destruct (fwrite f1 compressed w1) as [[written f2] w2] eqn:Hwrite.
    destruct (fwrite_keeps _ _ _ _ _ _ Hwrite) as (_ & _ & Hfail & _).
    mred. eexists. split; [reflexivity|]. mred. repeat split; [|exact Hclose].
    intros Hfailed. specialize (Hfailed f1 w1 eq_refl). rewrite Hwrite in Hfailed.
    simpl in Hfailed. rewrite Hfail by assumption. rewrite Hdisk1. reflexivity.
  - eexists. split; [reflexivity|]. mred. repeat split; [|exact Hclose].
    intros _. rewrite Hdisk1. reflexivity.
Qed.

(** ** Closing the cache file *)

Lemma write_at_app pos (a b data : list byte) :
  write_at (pos + length a) b (write_at pos a data) = write_at pos (a ++ b) data.
Proof.
  unfold write_at.
  set (P := take pos data ++ replicate (pos - length data) Byte.x00).
  assert (HP : length P = pos).
  { unfold P. rewrite length_app, length_take, length_replicate. lia. }
  assert (HX : take pos data ++ replicate (pos - length data) Byte.x00 ++ a
                 ++ drop (pos + length a) data = (P ++ a) ++ drop (pos + length a) data).
  { unfold P. rewrite <- !app_assoc. reflexivity. }
  rewrite HX.
  assert (HPa : length (P ++ a) = (pos + length a)%nat) by (rewrite length_app; lia).
  rewrite <- HPa at 1. rewrite take_app_length.
  replace (pos + length a - length ((P ++ a) ++ drop (pos + length a) data))%nat
    with 0%nat by (rewrite !length_app; lia).
  simpl.
  replace (pos + length a + length b)%nat with (length (P ++ a) + length b)%nat
    by (rewrite HPa; reflexivity).
  rewrite drop_app_add, drop_drop.
  unfold P. rewrite <- !app_assoc, length_app, Nat.add_assoc. reflexivity.
Qed.

Lemma encode_u32_length x : length (encode_u32 x) = 4%nat.
Proof. reflexivity. Qed.

Lemma encode_entry_nonempty e : encode_entry e ≠ [].
Proof.
  unfold encode_entry. intros Hnil. apply (f_equal length) in Hnil.
  rewrite !length_app, !encode_u32_length in Hnil. simpl in Hnil. lia.
Qed.

Lemma encode_footer_nonempty ft : encode_footer ft ≠ [].
Proof. unfold encode_footer. discriminate. Qed.

Lemma fwrite_ok f bs (w : World G) :
  io_script w = [] → bs ≠ [] →
  fwrite f bs w
  = ((true, {| f_path := f_path f; f_pos := f_pos f + Z.of_nat (length bs) |}),
     set_disk (<[f_path f := write_at (Z.to_nat (f_pos f)) bs (file_data f w)]> (disk w)) w).
Proof.
  intros Hscript Hbs. unfold fwrite, next_io. rewrite Hscript.
  destruct bs; [congruence|reflexivity].
Qed.

(** Without injected failures the loop writes every backed entry; the
    state it leaves is described by what the next write then produces. *)
Lemma write_entries_run l : ∀ count d f,
  m_pipeline_disk_cache_file d = Some f →
  io_script (world d) = [] →
  0 ≤ f_pos f →
  0 ≤ count < u32_modulus →
  ∃ d' f',
    write_entries l count d
    = Some (Some (wrap32 (count + Z.of_nat (length (backed_entries l)))), d')
    ∧ m_pipeline_disk_cache_file d' = Some f'
    ∧ f_path f' = f_path f
    ∧ 0 ≤ f_pos f'
    ∧ io_script (world d') = []
    ∧ gl (world d') = gl (world d)
    ∧ m_program_cache d' = m_program_cache d
    ∧ m_shader_cache_version d' = m_shader_cache_version d
    ∧ ∀ c, c ≠ [] →
        <[f_path f := write_at (Z.to_nat (f_pos f'))
                        c (file_data f' (world d'))]> (disk (world d'))
        = <[f_path f := write_at (Z.to_nat (f_pos f))
                          (concat (encode_entry <$> backed_entries l) ++ c)
                          (file_data f (world d))]> (disk (world d)).
Proof.
  induction l as [|[k it] l IH]; intros count d f Hfile Hscript Hpos Hcount.
  - exists d, f. simpl. rewrite Z.add_0_r, wrap32_small by assumption.
    repeat split; auto.
  - simpl. unfold backed_entries. rewrite filter_cons. simpl.
    destruct (file_uncompressed_size it =? 0) eqn:Hsize.
    + apply Z.eqb_eq in Hsize. rewrite decide_False by (intros Hne; apply Hne, Hsize).
      apply IH; assumption.
    + apply Z.eqb_neq in Hsize. rewrite decide_True by assumption. mred.
      rewrite Hfile.
      rewrite fwrite_ok by (assumption || apply encode_entry_nonempty). mred.
      set (e := entry_of_item k it).
      set (f1 := {| f_path := f_path f;
                    f_pos := f_pos f + Z.of_nat (length (encode_entry e)) |}).
      set (X := write_at (Z.to_nat (f_pos f)) (encode_entry e) (file_data f (world d))).
      match goal with
      | |- context [write_entries l ?c ?d1] =>
          destruct (IH c d1 f1) as (d' & f' & Hrun & Hfile' & Hpath' & Hpos' & Hscript'
                                    & Hgl' & Hcache' & Hver' & Hnext)
      end.
      { reflexivity. } { assumption. } { simpl. lia. }
      { unfold wrap32, u32_modulus. apply Z.mod_pos_bound. lia. }
      exists d', f'. rewrite Hrun. fold (backed_entries l).
      split.
      { do 2 f_equal. f_equal. unfold wrap32, backed_entries.
        rewrite Zplus_mod_idemp_l. f_equal. cbn [fmap list_fmap length]. lia. }
      repeat split; try assumption.
      intros c Hc. specialize (Hnext c Hc). simpl in Hnext. simpl.
      rewrite Hnext. unfold file_data at 1. simpl. rewrite lookup_insert_eq. simpl.
      rewrite insert_insert_eq. f_equal. fold X.
      replace (Z.to_nat (f_pos f + Z.of_nat (length (encode_entry e))))
        with (Z.to_nat (f_pos f) + length (encode_entry e))%nat by lia.
      unfold X. rewrite write_at_app, <- app_assoc. reflexivity.
Qed.

Lemma FillFooter_run v d :
  ∃ g, FillFooter v d
       = Some (footer_of v (gl (world d)), set_world (set_gl g (world d)) d).
Proof.
  unfold FillFooter, footer_of. mred.
  destruct (glGetString GL_VENDOR _) as [vendor g1]. mred.
  destruct (glGetString GL_RENDERER _) as [renderer g2]. mred.
  destruct (glGetString GL_VERSION _) as [ver g3]. mred.
  exists g3. reflexivity.
Qed.

Lemma file_closer_run d :
  ∃ d', file_closer d = Some (tt, d')
        ∧ m_pipeline_disk_cache_file d' = None
        ∧ world d' = world d
        ∧ m_program_cache d' = m_program_cache d
        ∧ m_pipeline_disk_cache_changed d' = m_pipeline_disk_cache_changed d
        ∧ (m_pipeline_disk_cache_file d = None → d' = d).
Proof.
  unfold file_closer. mred.
  destruct (m_pipeline_disk_cache_file d) eqn:Hfile; unfold fclose; mred.
  - eexists. split; [reflexivity|]. mred. repeat split. discriminate.
  - eexists. split; [reflexivity|]. repeat split. assumption.
Qed.

(** With the file open the loop returns, whatever the stdio calls do. *)
Lemma write_entries_defined l : ∀ count d,
  is_Some (m_pipeline_disk_cache_file d) →
  ∃ r d', write_entries l count d = Some (r, d')
          ∧ is_Some (m_pipeline_disk_cache_file d').
Proof.
  induction l as [|[k it] l IH]; intros count d Hfile; simpl.
  - eauto.
  - destruct (file_uncompressed_size it =? 0); [apply IH; assumption|].
    mred. destruct Hfile as [f Hfile]. rewrite Hfile.
    destruct (fwrite f _ (world d)) as [[ok f1] w1]. mred.
    destruct ok; mred; [apply IH|]; eauto.
Qed.

Lemma close_body_defined d :
  m_pipeline_disk_cache_changed d = false ∨ is_Some (m_pipeline_disk_cache_file d) →
  is_Some (close_body d).
Proof.
  intros Hok. unfold close_body. mred.
  destruct (m_pipeline_disk_cache_changed d); mred; [|eauto].
  destruct Hok as [Hok|[f Hfile]]; [discriminate|]. rewrite Hfile.
  destruct (FSeek64 f _ (world d)) as [[sought f1] w1]. mred.
  destruct sought; mred; [|eauto].
  match goal with
  | |- context [write_entries ?l ?c ?d1] =>
      destruct (write_entries_defined l c d1) as (r & d2 & -> & [f2 Hfile2]); [eauto|]
  end.
  destruct r as [count|]; mred; [|eauto].
  match goal with
  | |- context [FillFooter ?v ?d0] => destruct (FillFooter_run v d0) as [g ->]
  end.
  mred. rewrite Hfile2. destruct (fwrite f2 _ _) as [[ok f3] w3]. mred. eauto.
Qed.

(** After a close that wrote, the flag is still set and the handle is null:
    another close runs into the seek on the null handle. *)
Lemma ClosePipelineCache_again_undefined d :
  m_pipeline_disk_cache_changed d = true →
  m_pipeline_disk_cache_file d = None →
  ClosePipelineCache d = None.
Proof.
  intros Hchanged Hfile. unfold ClosePipelineCache, close_body. mred.
  rewrite Hchanged. mred. rewrite Hfile. reflexivity.
Qed.

(** C5, as the code has it.  [ClosePipelineCache] writes nothing when
    [m_pipeline_disk_cache_changed] is unset: it only closes the handle, and
    a second call changes nothing at all.  An invalidation
    ([DiscardPipelineCache]) leaves the flag as it was, so a session with
    invalidations and no add still closes without writing.  With the flag
    set, the file open and no failing stdio call, it stores at
    [m_pipeline_disk_cache_data_end] one index entry for every item whose
    uncompressed size is not zero (whether live or not), followed by the
    footer of the current driver identity whose program count is the
    number of those entries.  Whatever the stdio calls do, the function
    returns when the flag is unset or the file is open, and on every path
    the handle is null afterwards. *)
Theorem ClosePipelineCache_flushes d :
  (m_pipeline_disk_cache_changed d = false →
     ∃ d', ClosePipelineCache d = Some (tt, d')
           ∧ world d' = world d
           ∧ m_pipeline_disk_cache_file d' = None
           ∧ ClosePipelineCache d' = Some (tt, d'))
  ∧ (∀ ok d', DiscardPipelineCache d = Some (ok, d') →
       m_pipeline_disk_cache_changed d' = m_pipeline_disk_cache_changed d)
  ∧ (m_pipeline_disk_cache_changed d = true →
     ∀ f, m_pipeline_disk_cache_file d = Some f →
          io_script (world d) = [] →
          0 ≤ m_pipeline_disk_cache_data_end d →
     ∃ d',
       let entries := backed_entries (map_to_list (m_program_cache d)) in
       let footer :=
         with_num_programs (wrap32 (Z.of_nat (length entries)))
           (footer_of (m_shader_cache_version d) (gl (world d))) in
       ClosePipelineCache d = Some (tt, d')
       ∧ m_pipeline_disk_cache_file d' = None
       ∧ disk (world d')
         = <[f_path f :=
               write_at (Z.to_nat (m_pipeline_disk_cache_data_end d))
                 (concat (encode_entry <$> entries) ++ encode_footer footer)
                 (file_data f (world d))]> (disk (world d)))
  ∧ (m_pipeline_disk_cache_changed d = false ∨ is_Some (m_pipeline_disk_cache_file d) →
     ∃ d', ClosePipelineCache d = Some (tt, d') ∧ m_pipeline_disk_cache_file d' = None).
Proof.
  split; [|split; [|split]].
  - intros Hchanged. unfold ClosePipelineCache, close_body. mred. rewrite Hchanged. mred.
    destruct (file_closer_run d) as (d' & Hclose & Hfile' & Hworld & _ & Hchanged' & _).
    exists d'. rewrite Hclose. repeat split; try assumption.
    mred. rewrite Hchanged', Hchanged. mred.
    destruct (file_closer_run d') as (d'' & Hclose' & _ & _ & _ & _ & Hsame).
    rewrite Hclose'. rewrite (Hsame Hfile'). reflexivity.
  - intros ok d' Hdiscard.
    destruct (DiscardPipelineCache_run d) as (ok0 & d0 & Hrun & _ & _ & Hflag & _).
    congruence.
  - intros Hchanged f Hfile Hscript Hend.
    unfold ClosePipelineCache, close_body. mred. rewrite Hchanged. mred.
    rewrite Hfile, FSeek64_ok by assumption. mred.
    set (f0 := {| f_path := f_path f; f_pos := m_pipeline_disk_cache_data_end d |}).
    match goal with
    | |- context [write_entries ?l ?c ?d1] =>
        destruct (write_entries_run l c d1 f0)
          as (d2 & f2 & Hrun & Hfile2 & Hpath2 & Hpos2 & Hscript2 & Hgl2 & Hcache2
              & Hver2 & Hnext)
    end.
    { reflexivity. } { assumption. } { assumption. } { unfold u32_modulus. lia. }
    simpl in Hrun. rewrite Hrun. mred. rewrite Hver2. simpl.
    destruct (FillFooter_run (m_shader_cache_version d) d2) as [g Hfill].
    rewrite Hfill. mred. rewrite Hfile2. mred.
    rewrite Z.add_0_l.
    match goal with
    | |- context [fwrite f2 ?bs ?w] =>
        rewrite (fwrite_ok f2 bs w) by (assumption || apply encode_footer_nonempty);
        specialize (Hnext bs (encode_footer_nonempty _))
    end.
    mred.
    match goal with
    | |- context [file_closer ?d3] =>
        destruct (file_closer_run d3) as (d' & Hclose & Hfile' & Hworld & _)
    end.
    exists d'. cbv zeta. rewrite Hclose. split; [reflexivity|]. split; [assumption|].
    rewrite Hworld. simpl. simpl in Hnext. rewrite Hpath2.
    unfold file_data in Hnext |- *. simpl. simpl in Hnext.
    rewrite Hgl2 in Hnext |- *. simpl in Hnext |- *. exact Hnext.
  - intros Hok. unfold ClosePipelineCache. unfold mbind at 1, M_bind.
    destruct (close_body_defined d Hok) as [[[] d1] ->].
    destruct (file_closer_run d1) as (d2 & Hclose & Hfile & _).
    exists d2. split; assumption.
Qed.

(** ** Opening the cache file *)

Lemma FILE_eta f : {| f_path := f_path f; f_pos := f_pos f |} = f.
Proof. destruct f; reflexivity. Qed.

Lemma set_file_eta d f : m_pipeline_disk_cache_file d = Some f → set_file (Some f) d = d.
Proof. destruct d; simpl; intros ->; reflexivity. Qed.

Lemma set_program_cache_eta d : set_program_cache (m_program_cache d) d = d.
Proof. destruct d; reflexivity. Qed.

Lemma entries_at_S data pos n :
  entries_at data pos (S n)
  = decode_entry (take 112 (drop pos data)) :: entries_at data (pos + 112) n.
Proof.
  unfold entries_at. simpl. rewrite Nat.add_0_r. f_equal.
  rewrite <- fmap_S_seq, <- list_fmap_compose. apply list_fmap_ext.
  intros _ i _. simpl. do 3 f_equal. lia.
Qed.

Lemma omap_discard_insert_unloaded (m : gmap ProgramCacheKey ProgramCacheItem) k it :
  m !! k = None → program_id it = 0 →
  omap discard_item (<[k := it]> m) = omap discard_item m.
Proof.
  intros Hk Hid. apply map_eq. intros k'. rewrite !lookup_omap.
  destruct (decide (k = k')) as [<-|Hne].
  - rewrite lookup_insert_eq, Hk. simpl. unfold discard_item. rewrite Hid. reflexivity.
  - rewrite lookup_insert_ne by assumption. reflexivity.
Qed.

(** The loop on a file that holds [n] entries from the position of the
    handle on: it ends with the cache [scan_entries] builds, or in
    [DiscardPipelineCache], run on a state that differs from the initial
    one in the entries read so far and the position of the handle. *)
Lemma read_entries_run size n : ∀ d f,
  m_pipeline_disk_cache_file d = Some f →
  io_script (world d) = [] →
  0 ≤ f_pos f →
  f_pos f + 112 * Z.of_nat n ≤ Z.of_nat (length (file_data f (world d))) →
  match scan_entries (entries_at (file_data f (world d)) (Z.to_nat (f_pos f)) n) size
          (m_program_cache d) with
  | Some m =>
      read_entries n size d
      = Some (true,
              set_program_cache m
                (set_file (Some {| f_path := f_path f;
                                   f_pos := f_pos f + 112 * Z.of_nat n |}) d))
  | None =>
      ∃ m f',
        read_entries n size d
        = DiscardPipelineCache (set_program_cache m (set_file (Some f') d))
        ∧ omap discard_item m = omap discard_item (m_program_cache d)
  end.
Proof.
  induction n as [|n IH]; intros d f Hfile Hscript Hpos Hlen.
  - simpl. rewrite Z.mul_0_r, Z.add_0_r, FILE_eta, set_file_eta, set_program_cache_eta
      by assumption.
    reflexivity.
  - rewrite entries_at_S. cbn [read_entries scan_entries]. mred. rewrite Hfile.
    unfold sizeof_PipelineDiskCacheIndexEntry.
    rewrite fread_ok by (assumption || lia). mred.
    change (Z.to_nat 112) with 112%nat.
    set (e := decode_entry (take 112 (drop (Z.to_nat (f_pos f)) (file_data f (world d))))).
    destruct (size <=? offset e + compressed_size e) eqn:Hrange.
    { exists (m_program_cache d), {| f_path := f_path f; f_pos := f_pos f + 112 |}.
      split; [|reflexivity]. destruct d; reflexivity. }
    mred.
    destruct (m_program_cache d !! key e) as [it|] eqn:Hdup.
    { exists (m_program_cache d), {| f_path := f_path f; f_pos := f_pos f + 112 |}.
      split; [|reflexivity]. destruct d; reflexivity. }
    mred. unfold emplace. rewrite Hdup.
    set (f1 := {| f_path := f_path f; f_pos := f_pos f + 112 |}).
    set (m1 := <[key e := item_of_entry e]> (m_program_cache d)).
    set (d1 := set_program_cache m1 (set_file (Some f1) (set_world (world d) d))).
    assert (IH' := IH d1 f1 eq_refl Hscript).
    change (file_data f1 (world d1)) with (file_data f (world d)) in IH'.
    change (m_program_cache d1) with m1 in IH'.
    replace (Z.to_nat (f_pos f1)) with (Z.to_nat (f_pos f) + 112)%nat in IH'
      by (simpl; lia).
    specialize (IH' ltac:(simpl; lia) ltac:(simpl; lia)).
    destruct (scan_entries _ size m1) as [m|].
    + rewrite IH'. do 2 f_equal.
      replace (f_pos f + 112 * Z.of_nat (S n)) with (f_pos f1 + 112 * Z.of_nat n)
        by (simpl; lia).
      reflexivity.
    + destruct IH' as (m & f' & Hrun & Hm).
      exists m, f'. split.
      * rewrite Hrun. reflexivity.
      * rewrite Hm. apply omap_discard_insert_unloaded; [assumption|reflexivity].
Qed.

Lemma scan_entries_good size es : ∀ m,
  (∀ e, e ∈ es → offset e + compressed_size e < size) →
  NoDup (key <$> es) →
  (∀ e, e ∈ es → m !! key e = None) →
  scan_entries es size m = Some (insert_entries es m).
Proof.
  induction es as [|e es IH]; intros m Hrange Hnodup Hfresh; [reflexivity|].
  simpl. rewrite fmap_cons in Hnodup. apply NoDup_cons in Hnodup as [Hnotin Hnodup].
  assert (Hr : (size <=? offset e + compressed_size e) = false).
  { apply Z.leb_gt. apply Hrange. left. }
  rewrite Hr, (Hfresh e) by left.
  apply IH; [intros e' He'; apply Hrange; right; assumption | assumption |].
  intros e' He'. rewrite lookup_insert_ne; [apply Hfresh; right; assumption|].
  intros Heq. apply Hnotin. rewrite Heq. apply list_elem_of_fmap. eauto.
Qed.

Lemma scan_entries_bad size es : ∀ m i e,
  es !! i = Some e →
  size ≤ offset e + compressed_size e
  ∨ is_Some (m !! key e)
  ∨ (∃ j e', (j < i)%nat ∧ es !! j = Some e' ∧ key e' = key e) →
  scan_entries es size m = None.
Proof.
  induction es as [|e0 es IH]; intros m i e Hi Hbad; [discriminate|].
  simpl. destruct (size <=? offset e0 + compressed_size e0) eqn:Hr; [reflexivity|].
  destruct (m !! key e0) as [it|] eqn:Hm; [reflexivity|].
  apply Z.leb_gt in Hr.
  destruct i as [|i]; simpl in Hi.
  - injection Hi as <-. destruct Hbad as [Hbad|[[it Hbad]|(j & e' & Hj & _)]];
      [lia | congruence | lia].
  - apply (IH _ i e Hi).
    destruct Hbad as [Hbad|[[it Hbad]|(j & e' & Hj & He' & Hkey)]].
    + left. assumption.
    + right. left. destruct (decide (key e0 = key e)) as [Heq|Hne].
      * rewrite Heq, lookup_insert_eq. eauto.
      * rewrite lookup_insert_ne by assumption. eauto.
    + destruct j as [|j]; simpl in He'.
      * injection He' as ->. right. left. rewrite Hkey, lookup_insert_eq. eauto.
      * right. right. exists j, e'. split; [lia|]. split; assumption.
Qed.

Lemma OpenCFile_existing path data (w : World G) :
  io_script w = [] → disk w !! path = Some data →
  OpenCFile path RPlusB w = (inl {| f_path := path; f_pos := 0 |}, w).
Proof.
  intros Hscript Hfile. unfold OpenCFile, next_io. rewrite Hscript, Hfile. reflexivity.
Qed.

(** Without an injected failure the invalidation reopens the file, empty. *)
Lemma DiscardPipelineCache_ok d :
  io_script (world d) = [] →
  ∃ d',
    DiscardPipelineCache d = Some (true, d')
    ∧ m_program_cache d' = omap discard_item (m_program_cache d)
    ∧ m_pipeline_disk_cache_data_end d' = 0
    ∧ m_pipeline_disk_cache_file d'
      = Some {| f_path := m_pipeline_disk_cache_filename d; f_pos := 0 |}
    ∧ m_pipeline_disk_cache_filename d' = m_pipeline_disk_cache_filename d
    ∧ disk (world d') = <[m_pipeline_disk_cache_filename d := []]> (disk (world d))
    ∧ io_script (world d') = [].
Proof.
  intros Hscript.
  destruct (DiscardPipelineCache_run d)
    as (ok & d' & Hrun & Hcache & Hend & _ & _ & _ & _ & Hok & _).
  assert (ok = true ∧ io_script (world d') = []) as [-> Hscript'].
  { revert Hrun. unfold DiscardPipelineCache. mred.
    destruct (m_pipeline_disk_cache_file d); unfold fclose, OpenCFile, next_io; mred;
      rewrite Hscript; mred; intros [= <- <-]; auto. }
  exists d'. destruct (Hok eq_refl) as (? & ? & ?). repeat split; assumption.
Qed.

Lemma byte_to_Z_range b : 0 ≤ byte_to_Z b < 256.
Proof. unfold byte_to_Z. pose proof (Byte.to_N_bounded b). lia. Qed.

Lemma decode_u32_range bs : 0 ≤ decode_u32 bs < u32_modulus.
Proof.
  unfold decode_u32, u32_modulus.
  destruct bs as [|b0 [|b1 [|b2 [|b3 ?]]]]; try lia.
  pose proof (byte_to_Z_range b0). pose proof (byte_to_Z_range b1).
  pose proof (byte_to_Z_range b2). pose proof (byte_to_Z_range b3). lia.
Qed.

(** The run of [ReadPipelineCache] on an existing file whose footer is
    accepted and whose index lies inside the file, without injected
    failures: up to the loop over the entries. *)
Lemma ReadPipelineCache_to_loop filename d data :
  let size := Z.of_nat (length data) in
  let file_footer := decode_footer (take 392 (drop (Z.to_nat (size - 392)) data)) in
  let data_end := size - 392 - 112 * num_programs file_footer in
  disk (world d) !! filename = Some data →
  io_script (world d) = [] →
  392 ≤ size < u32_max →
  footer_matches file_footer (footer_of (m_shader_cache_version d) (gl (world d))) = true →
  0 ≤ data_end →
  ∃ g,
    ReadPipelineCache filename d
    = read_entries (Z.to_nat (num_programs file_footer)) size
        (set_file (Some {| f_path := filename; f_pos := data_end |})
           (set_data_end data_end
              (set_world (set_gl g (world d)) (set_filename filename d)))).
Proof.
  intros size file_footer data_end Hdisk Hscript Hsize Hfooter Hend.
  unfold ReadPipelineCache. mred.
  rewrite (OpenCFile_existing filename data) by assumption. mred.
  unfold FSize64, file_data. cbn [f_path]. rewrite Hdisk. cbn [default from_option].
  unfold id. fold size. unfold sizeof_PipelineDiskCacheFooter. change (4 * 2 + 128 * 3) with 392.
  assert (Hs1 : (size <? 392) || (u32_max <=? size) = false).
  { apply orb_false_iff. split; lia. }
  rewrite Hs1. mred.
  rewrite FSeek64_ok by (assumption || lia). mred.
  rewrite fread_ok; [| assumption | lia | simpl; lia
                     | unfold file_data; simpl; rewrite Hdisk; simpl; fold size; lia].
  mred. unfold file_data. cbn [f_path f_pos]. rewrite Hdisk. cbn [default from_option].
  unfold id. change (Z.to_nat 392) with 392%nat. fold file_footer.
  match goal with
  | |- context [FillFooter ?v ?d0] => destruct (FillFooter_run v d0) as [g Hfill]
  end.
  rewrite Hfill. mred. rewrite Hfooter. mred.
  pose proof (decode_u32_range (drop 4 (take 392 (drop (Z.to_nat (size - 392)) data))))
    as Hnum.
  change (decode_u32 (drop 4 (take 392 (drop (Z.to_nat (size - 392)) data))))
    with (num_programs file_footer) in Hnum.
  unfold sizeof_PipelineDiskCacheIndexEntry.
  rewrite (wrap32_small size) by (unfold u32_max in Hsize; lia).
  fold data_end.
  rewrite (wrap32_small data_end) by (unfold u32_max in Hsize; lia).
  assert (Hneg : (data_end <? 0) = false) by lia.
  rewrite Hneg. mred.
  rewrite FSeek64_ok by (assumption || lia). mred.
  exists g. f_equal.
Qed.

(** C3.  Take a cache file that exists, can be read, has the length of a
    footer at least, ends in a footer that passes the version and driver
    check, and is long enough for the [num_programs] index entries of 112
    bytes before that footer.  If every entry has its blob end before the
    end of the file and all keys are distinct and new, exactly those
    [num_programs] entries are read and entered, and the function returns
    true.  If some entry has [offset + compressed_size] at or beyond the
    file size, or the key of an earlier entry, the function runs
    [DiscardPipelineCache]: no entry read from the file remains (only live
    entries survive, stripped of their place in the file), the file is
    empty, and [m_pipeline_disk_cache_data_end] is 0. *)
Theorem ReadPipelineCache_index filename d data :
  let size := Z.of_nat (length data) in
  let file_footer := decode_footer (take 392 (drop (Z.to_nat (size - 392)) data)) in
  let data_end := size - 392 - 112 * num_programs file_footer in
  let es := entries_at data (Z.to_nat data_end) (Z.to_nat (num_programs file_footer)) in
  disk (world d) !! filename = Some data →
  io_script (world d) = [] →
  392 ≤ size < u32_max →
  footer_matches file_footer (footer_of (m_shader_cache_version d) (gl (world d))) = true →
  0 ≤ data_end →
  ((∀ e, e ∈ es → offset e + compressed_size e < size) →
   NoDup (key <$> es) →
   (∀ e, e ∈ es → m_program_cache d !! key e = None) →
   ∃ d',
     ReadPipelineCache filename d = Some (true, d')
     ∧ length es = Z.to_nat (num_programs file_footer)
     ∧ m_program_cache d' = insert_entries es (m_program_cache d)
     ∧ m_pipeline_disk_cache_data_end d' = data_end
     ∧ m_pipeline_disk_cache_file d'
       = Some {| f_path := filename; f_pos := size - 392 |}
     ∧ disk (world d') = disk (world d))
  ∧ ((∃ i e, es !! i = Some e
            ∧ (size ≤ offset e + compressed_size e
               ∨ ∃ j e', (j < i)%nat ∧ es !! j = Some e' ∧ key e' = key e)) →
     ∃ d',
       ReadPipelineCache filename d = Some (true, d')
       ∧ m_program_cache d' = omap discard_item (m_program_cache d)
       ∧ (∀ k it, m_program_cache d' !! k = Some it → program_id it ≠ 0)
       ∧ (m_program_cache d = ∅ → m_program_cache d' = ∅)
       ∧ disk (world d') = <[filename := []]> (disk (world d))
       ∧ m_pipeline_disk_cache_data_end d' = 0
       ∧ m_pipeline_disk_cache_file d' = Some {| f_path := filename; f_pos := 0 |}).
Proof.
  intros size file_footer data_end es Hdisk Hscript Hsize Hfooter Hend.
  destruct (ReadPipelineCache_to_loop filename d data Hdisk Hscript Hsize Hfooter Hend)
    as [g Hread].
  fold size file_footer data_end in Hread.
  pose proof (decode_u32_range (drop 4 (take 392 (drop (Z.to_nat (size - 392)) data))))
    as Hnum.
  change (decode_u32 (drop 4 (take 392 (drop (Z.to_nat (size - 392)) data))))
    with (num_programs file_footer) in Hnum.
  set (d0 := set_file (Some {| f_path := filename; f_pos := data_end |})
               (set_data_end data_end
                  (set_world (set_gl g (world d)) (set_filename filename d)))) in Hread.
  pose proof (read_entries_run size (Z.to_nat (num_programs file_footer)) d0
                {| f_path := filename; f_pos := data_end |} eq_refl Hscript Hend) as Hloop.
  assert (Hdata : file_data {| f_path := filename; f_pos := data_end |} (world d0) = data).
  { unfold file_data. simpl. rewrite Hdisk. reflexivity. }
  rewrite Hdata in Hloop. cbn [f_pos f_path] in Hloop.
  change (m_program_cache d0) with (m_program_cache d) in Hloop.
  fold es in Hloop.
  specialize (Hloop ltac:(fold size; lia)).
  split.
  - intros Hrange Hnodup Hfresh.
    rewrite (scan_entries_good size es _ Hrange Hnodup Hfresh) in Hloop.
    eexists. rewrite Hread. split; [exact Hloop|]. cbn.
    split. { unfold es, entries_at. rewrite length_fmap, length_seq. reflexivity. }
    repeat split. do 2 f_equal.
    change (decode_u32 (drop 4 (take 392 (drop (Z.to_nat (size - 392)) data))))
      with (num_programs file_footer).
    unfold data_end. lia.
  - intros (i & e & Hi & Hbad).
    rewrite (scan_entries_bad size es (m_program_cache d) i e Hi) in Hloop
      by (destruct Hbad as [?|?]; [left; assumption | right; right; assumption]).
    destruct Hloop as (m & f' & Hloop & Hm).
    destruct (DiscardPipelineCache_ok (set_program_cache m (set_file (Some f') d0)) Hscript)
      as (d' & Hdiscard & Hcache & Hend' & Hfile' & _ & Hdisk' & _).
    exists d'. rewrite Hread, Hloop. split; [exact Hdiscard|].
    cbn in Hcache, Hfile', Hdisk'. rewrite Hm in Hcache.
    split; [assumption|]. split.
    { intros k it Hk. rewrite Hcache in Hk. apply discarded_cache in Hk. tauto. }
    split. { intros Hempty. rewrite Hcache, Hempty. apply omap_empty. }
    repeat split; assumption.
Qed.

(** ** Invariants of the program cache *)

Lemma file_call_cache {A} (op : FILE → World G → (A * FILE) * World G) d a d' :
  file_call op d = Some (a, d') → m_program_cache d' = m_program_cache d.
Proof.
  unfold file_call. destruct (m_pipeline_disk_cache_file d); [|discriminate].
  destruct (op _ _) as [[a0 f'] w]. intros [= _ <-]. reflexivity.
Qed.

Lemma CreateProgramFromPipelineCache_cache it plconfig d r d' :
  CreateProgramFromPipelineCache it plconfig d = Some (r, d') →
  m_program_cache d' = m_program_cache d.
Proof.
  intros Hrun. pose proof (CreateProgramFromPipelineCache_frame it plconfig d) as Hframe.
  rewrite Hrun in Hframe. apply Hframe.
Qed.

Lemma AddToPipelineCache_cache it d it' d' :
  AddToPipelineCache it d = Some (it', d') →
  m_program_cache d' = m_program_cache d
  ∧ program_id it' = program_id it
  ∧ reference_count it' = reference_count it.
Proof.
  unfold AddToPipelineCache. mred.
  destruct (glGetProgramiv _ _ _) as [binary_size g1]. mred.
  destruct (binary_size =? 0); mred; [intros [= <- <-]; auto|].
  destruct (glGetProgramBinary _ _ _) as [[[len fmt] buf] g2]. mred.
  destruct (len =? 0); mred; [intros [= <- <-]; auto|].
  destruct (zstd_compress _) as [compressed|]; mred; [|intros [= <- <-]; auto].
  destruct (m_pipeline_disk_cache_file d) as [f|]; [|discriminate].
  destruct (FSeek64 _ _ _) as [[sought f1] w1]. mred.
  destruct sought; mred.
  - destruct (fwrite _ _ _) as [[written f2] w2]. mred. intros [= <- <-]. auto.
  - intros [= <- <-]. auto.
Qed.

Lemma write_entries_cache l : ∀ count d r d',
  write_entries l count d = Some (r, d') → m_program_cache d' = m_program_cache d.
Proof.
  induction l as [|[k it] l IH]; intros count d r d'; simpl.
  - intros [= _ <-]. reflexivity.
  - destruct (file_uncompressed_size it =? 0); [apply IH|].
    unfold mbind at 1, M_bind.
    destruct (file_call _ d) as [[ok d1]|] eqn:Hwrite; [|discriminate].
    apply file_call_cache in Hwrite.
    destruct ok; mred; [|intros [= _ <-]; assumption].
    intros Hrest. apply IH in Hrest. congruence.
Qed.

Lemma ClosePipelineCache_cache d d' :
  ClosePipelineCache d = Some (tt, d') → m_program_cache d' = m_program_cache d.
Proof.
  unfold ClosePipelineCache. unfold mbind at 1, M_bind.
  destruct (close_body d) as [[[] d1]|] eqn:Hbody; [|discriminate].
  destruct (file_closer_run d1) as (d2 & -> & _ & _ & Hcache2 & _).
  intros [= <-]. rewrite Hcache2. clear Hcache2.
  revert Hbody. unfold close_body. mred.
  destruct (m_pipeline_disk_cache_changed d); mred; [|intros [= <-]; reflexivity].
  destruct (m_pipeline_disk_cache_file d) as [f|]; [|discriminate].
  destruct (FSeek64 f _ (world d)) as [[sought f1] w1]. mred.
  destruct sought; mred; [|intros [= <-]; reflexivity].
  match goal with
  | |- context [write_entries ?l ?c ?d0] =>
      destruct (write_entries l c d0) as [[count d3]|] eqn:Hloop; [|discriminate]
  end.
  apply write_entries_cache in Hloop. mred.
  destruct count as [count|]; mred; [|intros [= <-]; assumption].
  match goal with
  | |- context [FillFooter ?v ?d0] => destruct (FillFooter_run v d0) as [g ->]
  end.
  mred. destruct (m_pipeline_disk_cache_file d3) as [f3|]; [|discriminate].
  destruct (fwrite f3 _ _) as [[ok f4] w4]. mred. intros [= <-]. assumption.
Qed.

(** A property of items that holds of every live item, and of an item that
    has a place in the file once it is released, is kept by resolving,
    releasing, invalidating and closing.  If it also holds of the items made
    from index entries, opening keeps it. *)
Section CacheInvariant.
Variable P : ProgramCacheItem → Prop.
Hypothesis P_live : ∀ it, program_id it ≠ 0 → P it.
Hypothesis P_released :
  ∀ it, file_uncompressed_size it ≠ 0 → P (set_program_id 0 (set_reference_count 0 it)).

Lemma cache_all_insert m k it : cache_all P m → P it → cache_all P (<[k := it]> m).
Proof.
  intros Hm Hit k' it'. destruct (decide (k = k')) as [<-|Hne].
  - rewrite lookup_insert_eq. intros [= <-]. assumption.
  - rewrite lookup_insert_ne by assumption. apply Hm.
Qed.

Lemma cache_all_delete m k : cache_all P m → cache_all P (delete k m).
Proof.
  intros Hm k' it'. destruct (decide (k = k')) as [<-|Hne].
  - rewrite lookup_delete_eq. discriminate.
  - rewrite lookup_delete_ne by assumption. apply Hm.
Qed.

Lemma cache_all_discard m : cache_all P (omap discard_item m).
Proof. intros k it Hk. apply discarded_cache in Hk. apply P_live. tauto. Qed.

Lemma cache_all_emplace m k it : cache_all P m → P it → cache_all P (emplace k it m).
Proof.
  intros Hm Hit. unfold emplace. destruct (m !! k); [assumption|].
  apply cache_all_insert; assumption.
Qed.

Lemma DiscardPipelineCache_inv d ok d' :
  DiscardPipelineCache d = Some (ok, d') → cache_all P (m_program_cache d').
Proof.
  intros Hrun. destruct (DiscardPipelineCache_run d) as (ok0 & d0 & Hrun0 & Hcache & _).
  rewrite Hrun in Hrun0. injection Hrun0 as -> ->. rewrite Hcache.
  apply cache_all_discard.
Qed.

Lemma enter_program_inv k id d p d' :
  cache_all P (m_program_cache d) →
  enter_program k id d = Some (p, d') →
  cache_all P (m_program_cache d').
Proof.
  intros Hinv. unfold enter_program. destruct (id =? 0) eqn:Hid; mred.
  { intros [= _ <-]. assumption. }
  apply Z.eqb_neq in Hid.
  set (item := {| program_id := id; reference_count := 1; file_format := 0;
                  file_offset := 0; file_uncompressed_size := 0;
                  file_compressed_size := 0 |}).
  destruct (m_pipeline_disk_cache_file d); mred.
  - destruct (AddToPipelineCache item d) as [[it' d1]|] eqn:Hadd; [|discriminate].
    apply AddToPipelineCache_cache in Hadd as (Hcache & Hpid & _).
    mred. intros [= _ <-]. mred. rewrite Hcache.
    apply cache_all_emplace; [assumption|]. apply P_live. rewrite Hpid. assumption.
  - intros [= _ <-]. mred.
    apply cache_all_emplace; [assumption|]. apply P_live. assumption.
Qed.

Lemma lookup_miss_inv k plconfig d p d' :
  cache_all P (m_program_cache d) →
  lookup_miss k plconfig d = Some (p, d') →
  cache_all P (m_program_cache d').
Proof.
  intros Hinv. unfold lookup_miss. unfold mbind, M_bind.
  destruct (CompileProgram plconfig d) as [[id d1]|] eqn:Hcompile; [|discriminate].
  apply keeps_CompileProgram in Hcompile as (Hcache & _).
  apply enter_program_inv. rewrite Hcache. assumption.
Qed.

Lemma lookup_hit_inv k d p d' :
  cache_all P (m_program_cache d) →
  lookup_hit k d = Some (p, d') →
  cache_all P (m_program_cache d').
Proof.
  intros Hinv. unfold lookup_hit. mred.
  destruct (m_program_cache d !! k) as [it|]; [|discriminate].
  destruct (program_id it =? 0) eqn:Hid; mred; intros [= _ <-]; [assumption|].
  mred. apply cache_all_insert; [assumption|].
  apply P_live. apply Z.eqb_neq in Hid. assumption.
Qed.

Lemma LookupProgramCache_inv k plconfig d p d' :
  cache_all P (m_program_cache d) →
  LookupProgramCache k plconfig d = Some (p, d') →
  cache_all P (m_program_cache d').
Proof.
  intros Hinv. unfold LookupProgramCache. mred.
  destruct (m_program_cache d !! k) as [it|] eqn:Hk; mred;
    [|apply lookup_miss_inv; assumption].
  destruct ((program_id it =? 0) && (0 <? file_uncompressed_size it)) eqn:Hgate; mred;
    [|apply lookup_hit_inv; assumption].
  destruct (CreateProgramFromPipelineCache it plconfig d) as [[prog d1]|] eqn:Hcreate;
    [|discriminate].
  apply CreateProgramFromPipelineCache_cache in Hcreate as Hcache. mred.
  destruct (prog =? 0) eqn:Hprog; mred.
  - match goal with
    | |- context [DiscardPipelineCache ?d0] =>
        destruct (DiscardPipelineCache d0) as [[ok d2]|] eqn:Hdiscard; [|discriminate]
    end.
    apply DiscardPipelineCache_inv in Hdiscard. apply lookup_miss_inv. assumption.
  - apply lookup_hit_inv. mred. rewrite Hcache.
    apply cache_all_insert; [assumption|].
    apply P_live. apply Z.eqb_neq in Hprog. assumption.
Qed.

Lemma UnrefProgram_inv k d d' :
  cache_all P (m_program_cache d) →
  UnrefProgram k d = Some (tt, d') →
  cache_all P (m_program_cache d').
Proof.
  intros Hinv. unfold UnrefProgram. mred.
  destruct (m_program_cache d !! k) as [it|] eqn:Hk; [|discriminate].
  destruct (negb (program_id it =? 0) && (0 <? reference_count it)) eqn:Hlive;
    mred; [|discriminate].
  apply andb_true_iff in Hlive as [Hid Hrc]. apply negb_true_iff, Z.eqb_neq in Hid.
  destruct (0 <? wrap32 (reference_count it - 1)) eqn:Hpos; mred.
  { intros [= <-]. mred. apply cache_all_insert; [assumption|].
    apply P_live. assumption. }
  assert (Hzero : wrap32 (reference_count it - 1) = 0).
  { pose proof (Z.mod_pos_bound (reference_count it - 1) u32_modulus).
    unfold wrap32 in *. unfold u32_modulus in *. lia. }
  rewrite Hzero.
  destruct (m_last_program d =? program_id it); mred;
    destruct (file_uncompressed_size it =? 0) eqn:Hsize; mred; intros [= <-]; mred.
  all: rewrite ?insert_insert_eq.
  all: try (rewrite delete_insert_eq; apply cache_all_delete; assumption).
  all: apply cache_all_insert; [assumption|].
  all: apply P_released; apply Z.eqb_neq in Hsize; assumption.
Qed.

Lemma ClosePipelineCache_inv d d' :
  cache_all P (m_program_cache d) →
  ClosePipelineCache d = Some (tt, d') →
  cache_all P (m_program_cache d').
Proof.
  intros Hinv Hclose. apply ClosePipelineCache_cache in Hclose. rewrite Hclose. assumption.
Qed.

Hypothesis P_entry : ∀ e, P (item_of_entry e).

Lemma read_entries_inv size n : ∀ d r d',
  cache_all P (m_program_cache d) →
  read_entries n size d = Some (r, d') →
  cache_all P (m_program_cache d').
Proof.
  induction n as [|n IH]; intros d r d' Hinv; simpl.
  { intros [= _ <-]. assumption. }
  unfold mbind at 1, M_bind.
  destruct (file_call _ d) as [[bytes d1]|] eqn:Hread; [|discriminate].
  apply file_call_cache in Hread as Hcache.
  destruct bytes as [bytes|]; [|apply DiscardPipelineCache_inv].
  destruct (size <=? _); [apply DiscardPipelineCache_inv|]. mred.
  destruct (m_program_cache d1 !! _); [apply DiscardPipelineCache_inv|]. mred.
  apply IH. mred.
  apply cache_all_emplace; [rewrite Hcache; assumption | apply P_entry].
Qed.

Lemma ReadPipelineCache_inv filename d r d' :
  cache_all P (m_program_cache d) →
  ReadPipelineCache filename d = Some (r, d') →
  cache_all P (m_program_cache d').
Proof.
  intros Hinv. unfold ReadPipelineCache. mred.
  destruct (OpenCFile filename RPlusB (world d)) as [[file|errno] w]; mred.
  2:{ destruct (errno =? EACCES); mred; [intros [= _ <-]; assumption|].
      destruct (errno =? ENOENT); mred; [apply DiscardPipelineCache_inv|].
      intros [= _ <-]. assumption. }
  destruct (_ || _); [apply DiscardPipelineCache_inv|]. mred.
  destruct (FSeek64 _ _ _) as [[sought f1] w1]. mred.
  destruct sought; mred; [|apply DiscardPipelineCache_inv].
  destruct (fread _ _ _) as [[footer_bytes f2] w2]. mred.
  destruct footer_bytes as [footer_bytes|]; [|apply DiscardPipelineCache_inv]. mred.
  match goal with
  | |- context [FillFooter ?v ?d0] =>
      destruct (FillFooter_run v d0) as [g ->]
  end.
  mred. destruct (footer_matches _ _); mred; [|apply DiscardPipelineCache_inv].
  destruct (_ <? 0); mred; [apply DiscardPipelineCache_inv|].
  destruct (FSeek64 _ _ _) as [[sought f3] w3]. mred.
  destruct sought; mred; [|apply DiscardPipelineCache_inv].
  apply read_entries_inv. assumption.
Qed.
End CacheInvariant.

(** X4.  Every operation on the cache keeps the entries that are not
    loaded free of references. *)
Theorem unloaded_unreferenced_preserved d :
  unloaded_unreferenced (m_program_cache d) →
  (∀ k plconfig p d', LookupProgramCache k plconfig d = Some (p, d') →
                      unloaded_unreferenced (m_program_cache d'))
  ∧ (∀ k d', UnrefProgram k d = Some (tt, d') →
             unloaded_unreferenced (m_program_cache d'))
  ∧ (∀ filename r d', ReadPipelineCache filename d = Some (r, d') →
                      unloaded_unreferenced (m_program_cache d'))
  ∧ (∀ ok d', DiscardPipelineCache d = Some (ok, d') →
              unloaded_unreferenced (m_program_cache d'))
  ∧ (∀ d', ClosePipelineCache d = Some (tt, d') →
           unloaded_unreferenced (m_program_cache d')).
Proof.
  set (P := λ it, program_id it = 0 → reference_count it = 0).
  assert (P_live : ∀ it, program_id it ≠ 0 → P it) by (unfold P; intros; congruence).
  assert (P_released : ∀ it, file_uncompressed_size it ≠ 0 →
                             P (set_program_id 0 (set_reference_count 0 it)))
    by (unfold P; reflexivity).
  assert (P_entry : ∀ e, P (item_of_entry e)) by (unfold P; reflexivity).
  intros Hinv. change (cache_all P (m_program_cache d)) in Hinv.
  repeat split.
  - intros k plconfig p d'. apply (LookupProgramCache_inv P P_live); assumption.
  - intros k d'. apply (UnrefProgram_inv P P_live P_released); assumption.
  - intros filename r d'. apply (ReadPipelineCache_inv P P_live P_entry); assumption.
  - intros ok d'. apply (DiscardPipelineCache_inv P P_live).
  - intros d'. apply (ClosePipelineCache_inv P); assumption.
Qed.

(** X5.  Resolving, releasing, invalidating and closing keep every entry
    that is not loaded backed by the file.  Opening the cache file is the
    operation that can break this. *)
Theorem unloaded_backed_preserved d :
  unloaded_backed (m_program_cache d) →
  (∀ k plconfig p d', LookupProgramCache k plconfig d = Some (p, d') →
                      unloaded_backed (m_program_cache d'))
  ∧ (∀ k d', UnrefProgram k d = Some (tt, d') →
             unloaded_backed (m_program_cache d'))
  ∧ (∀ ok d', DiscardPipelineCache d = Some (ok, d') →
              unloaded_backed (m_program_cache d'))
  ∧ (∀ d', ClosePipelineCache d = Some (tt, d') →
           unloaded_backed (m_program_cache d')).
Proof.
  set (P := λ it, program_id it = 0 → file_uncompressed_size it ≠ 0).
  assert (P_live : ∀ it, program_id it ≠ 0 → P it) by (unfold P; intros; congruence).
  assert (P_released : ∀ it, file_uncompressed_size it ≠ 0 →
                             P (set_program_id 0 (set_reference_count 0 it)))
    by (unfold P; simpl; auto).
  intros Hinv. change (cache_all P (m_program_cache d)) in Hinv.
  repeat split.
  - intros k plconfig p d'. apply (LookupProgramCache_inv P P_live); assumption.
  - intros k d'. apply (UnrefProgram_inv P P_live P_released); assumption.
  - intros ok d'. apply (DiscardPipelineCache_inv P P_live).
  - intros d'. apply (ClosePipelineCache_inv P); assumption.
Qed.

(** ** Reference counts of the program cache *)

(** X1.  Resolving a key whose entry is live and releasing it again
    leaves the device exactly as it was: the reference count goes up by one
    and down by one, and neither the driver nor the file is touched.  At
    the largest count a [u32] holds, the increment wraps to 0 and the
    [Assert] of [UnrefProgram] fails. *)
Theorem LookupProgramCache_UnrefProgram_live k plconfig it d :
  m_program_cache d !! k = Some it →
  program_id it ≠ 0 →
  (0 < reference_count it < u32_max →
     (LookupProgramCache k plconfig ≫= λ _, UnrefProgram k) d = Some (tt, d))
  ∧ (reference_count it = u32_max →
     (LookupProgramCache k plconfig ≫= λ _, UnrefProgram k) d = None).
Proof.
  intros Hk Hid.
  assert (Hnz : (program_id it =? 0) = false) by lia.
  assert (Hrun : LookupProgramCache k plconfig d
    = Some (program_id it,
          set_program_cache
            (<[k := set_reference_count (wrap32 (reference_count it + 1)) it]>
               (m_program_cache d)) d)).
  { unfold LookupProgramCache. mred. rewrite Hk, Hnz. cbn [andb]. mred.
    unfold lookup_hit. mred. rewrite Hk. mred. rewrite Hnz. mred. reflexivity. }
  split.
  - intros Hrc. unfold mbind at 1, M_bind. rewrite Hrun.
    assert (Hw : wrap32 (reference_count it + 1) = reference_count it + 1).
    { apply wrap32_small. unfold u32_max in Hrc. lia. }
    rewrite Hw. unfold UnrefProgram. mred. rewrite lookup_insert_eq. mred. rewrite Hnz. mredb.
    assert (Hpos : (0 <? reference_count it + 1) = true) by lia.
    rewrite Hpos. mredb.
    replace (reference_count it + 1 - 1) with (reference_count it) by lia.
    rewrite (wrap32_small (reference_count it)) by (unfold u32_max in Hrc; lia).
    assert (Hpos' : (0 <? reference_count it) = true) by lia.
    rewrite Hpos'. mredb.
    match goal with
    | |- context [set_program_cache ?a (set_program_cache ?b d)] =>
        change (set_program_cache a (set_program_cache b d)) with (set_program_cache a d)
    end.
    rewrite insert_insert_eq.
    replace (set_reference_count (reference_count it) (set_reference_count (reference_count it + 1) it)) with it by (destruct it; reflexivity).
    rewrite insert_id by assumption. rewrite set_program_cache_eta. reflexivity.
  - intros Hrc. unfold mbind at 1, M_bind. rewrite Hrun.
    assert (Hw : wrap32 (reference_count it + 1) = 0).
    { rewrite Hrc. reflexivity. }
    rewrite Hw. unfold UnrefProgram. mred. rewrite lookup_insert_eq. mred. rewrite Hnz. mredb.
    reflexivity.
Qed.

Lemma enter_program_run k id d p d' :
  enter_program k id d = Some (p, d') →
  p = id
  ∧ (id = 0 → d' = d)
  ∧ (id ≠ 0 →
     ∃ item, m_program_cache d' = emplace k item (m_program_cache d)
             ∧ program_id item = id ∧ reference_count item = 1).
Proof.
  unfold enter_program. destruct (id =? 0) eqn:Hid; mred.
  { intros [= <- <-]. apply Z.eqb_eq in Hid. repeat split; [congruence|tauto]. }
  apply Z.eqb_neq in Hid.
  set (item := {| program_id := id; reference_count := 1; file_format := 0;
                  file_offset := 0; file_uncompressed_size := 0;
                  file_compressed_size := 0 |}).
  destruct (m_pipeline_disk_cache_file d); mred.
  - destruct (AddToPipelineCache item d) as [[it' d1]|] eqn:Hadd; [|discriminate].
    apply AddToPipelineCache_cache in Hadd as (Hcache & Hpid & Hrc).
    mred. intros [= <- <-]. mred. split; [assumption|]. split; [tauto|].
    intros _. exists it'. rewrite Hcache. auto.
  - intros [= <- <-]. mred. split; [reflexivity|]. split; [tauto|].
    intros _. exists item. auto.
Qed.

Lemma lookup_miss_run k plconfig d p d' :
  m_program_cache d !! k = None →
  lookup_miss k plconfig d = Some (p, d') →
  (p = 0 ∧ m_program_cache d' = m_program_cache d)
  ∨ (p ≠ 0 ∧ ∃ item, m_program_cache d' = <[k := item]> (m_program_cache d)
                     ∧ program_id item = p ∧ reference_count item = 1).
Proof.
  intros Hk. unfold lookup_miss. unfold mbind, M_bind.
  destruct (CompileProgram plconfig d) as [[id d1]|] eqn:Hcompile; [|discriminate].
  apply keeps_CompileProgram in Hcompile as (Hcache & _).
  intros Henter. apply enter_program_run in Henter as (-> & Hzero & Hnonzero).
  destruct (decide (id = 0)) as [->|Hid].
  - left. split; [reflexivity|]. rewrite (Hzero eq_refl). assumption.
  - right. split; [assumption|]. destruct (Hnonzero Hid) as (item & Hm & Hpid & Hrc).
    exists item. rewrite Hm, Hcache. unfold emplace. rewrite Hk. auto.
Qed.

(** The ways [LookupProgramCache] can go, by what the cache held for the
    key and what came back. *)
Lemma LookupProgramCache_cases k plconfig d p d' :
  LookupProgramCache k plconfig d = Some (p, d') →
  let m := m_program_cache d in
  let m' := m_program_cache d' in
  (∃ it, m !! k = Some it ∧ program_id it ≠ 0 ∧ p = program_id it
         ∧ m' = <[k := set_reference_count (wrap32 (reference_count it + 1)) it]> m)
  ∨ (∃ it, m !! k = Some it ∧ program_id it = 0 ∧ 0 < file_uncompressed_size it ∧ p ≠ 0
           ∧ m' = <[k := set_reference_count (wrap32 (reference_count it + 1))
                            (set_program_id p it)]> m)
  ∨ (∃ it, m !! k = Some it ∧ program_id it = 0 ∧ file_uncompressed_size it ≤ 0
           ∧ p = 0 ∧ m' = m)
  ∨ (∃ m0, (m !! k = None ∧ m0 = m
            ∨ ∃ it, m !! k = Some it ∧ program_id it = 0 ∧ 0 < file_uncompressed_size it
                    ∧ m0 = omap discard_item (delete k m))
           ∧ ((p = 0 ∧ m' = m0)
              ∨ (p ≠ 0 ∧ ∃ item, m' = <[k := item]> m0
                                 ∧ program_id item = p ∧ reference_count item = 1))).
Proof.
  intros Hrun m m'. subst m m'. revert Hrun. unfold LookupProgramCache. mred.
  destruct (m_program_cache d !! k) as [it|] eqn:Hk; mred.
  2:{ intros Hmiss. right. right. right. exists (m_program_cache d).
      split; [left; auto|]. apply (lookup_miss_run _ _ _ _ _ Hk Hmiss). }
  destruct (program_id it =? 0) eqn:Hid; mredb.
  2:{ apply Z.eqb_neq in Hid. unfold lookup_hit. mred. rewrite Hk. mred.
      rewrite (proj2 (Z.eqb_neq _ _) Hid). mred. intros [= <- <-]. left.
      exists it. auto. }
  apply Z.eqb_eq in Hid.
  destruct (0 <? file_uncompressed_size it) eqn:Hsize; mredb.
  2:{ apply Z.ltb_ge in Hsize. unfold lookup_hit. mred. rewrite Hk. mred.
      rewrite Hid. mredb. intros [= <- <-]. right. right. left. exists it. auto. }
  apply Z.ltb_lt in Hsize.
  destruct (CreateProgramFromPipelineCache it plconfig d) as [[prog d1]|] eqn:Hcreate;
    [|discriminate].
  apply CreateProgramFromPipelineCache_cache in Hcreate as Hcache. mred.
  destruct (prog =? 0) eqn:Hprog; mred.
  - match goal with
    | |- context [DiscardPipelineCache ?d0] =>
        destruct (DiscardPipelineCache_run d0) as (ok & d2 & Hdiscard & Hcache2 & _);
        rewrite Hdiscard
    end.
    mred. intros Hmiss. right. right. right.
    revert Hcache2. mred. rewrite delete_insert_eq, Hcache. intros Hcache2.
    exists (omap discard_item (delete k (m_program_cache d))). split.
    { right. exists it. auto. }
    rewrite <- Hcache2. apply (lookup_miss_run k plconfig d2); [|assumption].
    rewrite Hcache2, lookup_omap, lookup_delete_eq. reflexivity.
  - apply Z.eqb_neq in Hprog. unfold lookup_hit. mred. rewrite lookup_insert_eq. mred.
    rewrite (proj2 (Z.eqb_neq _ _) Hprog). mred. intros [= <- <-]. mred.
    right. left. exists it. rewrite insert_insert_eq, Hcache.
    repeat split; try assumption.
Qed.


Lemma live_references_insert k k' it (m : gmap ProgramCacheKey ProgramCacheItem) :
  live_references k' (<[k := it]> m)
  = if decide (k = k')
    then (if program_id it =? 0 then 0 else reference_count it)
    else live_references k' m.
Proof.
  unfold live_references. destruct (decide (k = k')) as [<-|Hne].
  - rewrite lookup_insert_eq. reflexivity.
  - rewrite lookup_insert_ne by assumption. reflexivity.
Qed.

Lemma live_references_discard k (m : gmap ProgramCacheKey ProgramCacheItem) :
  live_references k (omap discard_item m) = live_references k m.
Proof.
  unfold live_references. rewrite lookup_omap.
  destruct (m !! k) as [it|]; [|reflexivity]. simpl. unfold discard_item.
  destruct (program_id it =? 0) eqn:Hid; simpl; [reflexivity|].
  rewrite Hid. reflexivity.
Qed.

Lemma live_references_delete k k' (m : gmap ProgramCacheKey ProgramCacheItem) :
  live_references k' (delete k m)
  = if decide (k = k') then 0 else live_references k' m.
Proof.
  unfold live_references. destruct (decide (k = k')) as [<-|Hne].
  - rewrite lookup_delete_eq. reflexivity.
  - rewrite lookup_delete_ne by assumption. reflexivity.
Qed.

(** What [UnrefProgram] leaves in the cache when it returns. *)
Lemma UnrefProgram_cases k d d' :
  UnrefProgram k d = Some (tt, d') →
  ∃ it, m_program_cache d !! k = Some it ∧ program_id it ≠ 0 ∧ 0 < reference_count it
        ∧ let rc := wrap32 (reference_count it - 1) in
          (0 < rc ∧ m_program_cache d' = <[k := set_reference_count rc it]> (m_program_cache d))
          ∨ (rc = 0 ∧ file_uncompressed_size it = 0
             ∧ m_program_cache d' = delete k (m_program_cache d))
          ∨ (rc = 0 ∧ file_uncompressed_size it ≠ 0
             ∧ m_program_cache d'
               = <[k := set_program_id 0 (set_reference_count 0 it)]> (m_program_cache d)).
Proof.
  unfold UnrefProgram. mred.
  destruct (m_program_cache d !! k) as [it|] eqn:Hk; [|discriminate].
  destruct (negb (program_id it =? 0) && (0 <? reference_count it)) eqn:Hlive;
    mred; [|discriminate].
  apply andb_true_iff in Hlive as [Hid Hrc]. apply negb_true_iff, Z.eqb_neq in Hid.
  apply Z.ltb_lt in Hrc. intros Hrun. exists it. repeat split; try assumption.
  revert Hrun.
  destruct (0 <? wrap32 (reference_count it - 1)) eqn:Hpos; mred.
  { intros [= <-]. mred. left. apply Z.ltb_lt in Hpos. auto. }
  assert (Hzero : wrap32 (reference_count it - 1) = 0).
  { pose proof (Z.mod_pos_bound (reference_count it - 1) u32_modulus).
    unfold wrap32 in *. unfold u32_modulus in *. lia. }
  rewrite Hzero.
  destruct (m_last_program d =? program_id it); mred;
    destruct (file_uncompressed_size it =? 0) eqn:Hsize; mred; intros [= <-]; mred.
  all: rewrite ?insert_insert_eq, ?delete_insert_eq; right.
  all: try (left; apply Z.eqb_eq in Hsize; auto; fail).
  all: right; apply Z.eqb_neq in Hsize; auto.
Qed.

Lemma UnrefProgram_defined k d it :
  m_program_cache d !! k = Some it → program_id it ≠ 0 → 0 < reference_count it →
  ∃ d', UnrefProgram k d = Some (tt, d').
Proof.
  intros Hk Hid Hrc. unfold UnrefProgram. mred. rewrite Hk.
  assert (Hlive : negb (program_id it =? 0) && (0 <? reference_count it) = true).
  { apply andb_true_iff. split; [apply negb_true_iff|]; lia. }
  rewrite Hlive. mred.
  destruct (0 <? wrap32 (reference_count it - 1)); mred; [eexists; reflexivity|].
  destruct (m_last_program d =? program_id it); mred;
    destruct (file_uncompressed_size it =? 0); mred; eexists; reflexivity.
Qed.

Lemma UnrefProgram_live_references k d it :
  m_program_cache d !! k = Some it → program_id it ≠ 0 →
  0 < reference_count it < u32_modulus →
  ∃ d', UnrefProgram k d = Some (tt, d')
        ∧ ∀ k', live_references k' (m_program_cache d')
                = if decide (k = k') then reference_count it - 1
                  else live_references k' (m_program_cache d).
Proof.
  intros Hk Hid Hrc.
  destruct (UnrefProgram_defined k d it Hk Hid) as [d' Hrun]; [lia|].
  exists d'. split; [assumption|].
  destruct (UnrefProgram_cases k d d' Hrun) as (it' & Hk' & _ & _ & Hcases).
  assert (it' = it) by congruence. subst it'.
  rewrite (wrap32_small (reference_count it - 1)) in Hcases by lia.
  intros k'.
  destruct Hcases as [[Hpos ->]|[(Hzero & _ & ->)|(Hzero & _ & ->)]].
  - rewrite live_references_insert. destruct (decide (k = k')); [|reflexivity].
    simpl. destruct (program_id it =? 0) eqn:E; [lia|reflexivity].
  - rewrite live_references_delete. destruct (decide (k = k')); [lia|reflexivity].
  - rewrite live_references_insert. destruct (decide (k = k')); [|reflexivity].
    simpl. lia.
Qed.

(** The live references after [LookupProgramCache]: one more for the key
    when it returns a program, and as before for every other key. *)
Lemma LookupProgramCache_counts k plconfig d p d1 :
  unloaded_unreferenced (m_program_cache d) →
  0 ≤ live_references k (m_program_cache d) < u32_max →
  LookupProgramCache k plconfig d = Some (p, d1) →
  live_references k (m_program_cache d1)
  = live_references k (m_program_cache d) + (if p =? 0 then 0 else 1)
  ∧ (∀ k', k' ≠ k →
       live_references k' (m_program_cache d1) = live_references k' (m_program_cache d))
  ∧ (p ≠ 0 → ∃ it, m_program_cache d1 !! k = Some it ∧ program_id it = p
                   ∧ reference_count it = live_references k (m_program_cache d) + 1).
Proof.
  intros Hinv Hrange Hrun.
  destruct (LookupProgramCache_cases k plconfig d p d1 Hrun)
    as [(it & Hk & Hid & -> & Hm1)|[(it & Hk & Hid & Hsize & Hp & Hm1)
       |[(it & Hk & Hid & Hsize & -> & Hm1)|(m0 & Hm0 & Hcases)]]].
  - (* a live entry *)
    assert (Hlive : live_references k (m_program_cache d) = reference_count it).
    { unfold live_references. rewrite Hk.
      destruct (program_id it =? 0) eqn:E; [lia|reflexivity]. }
    rewrite Hlive in *. unfold u32_max in Hrange.
    rewrite (wrap32_small (reference_count it + 1)) in Hm1 by lia.
    assert (Hnz : (program_id it =? 0) = false) by lia.
    rewrite Hnz, Hm1. split; [|split].
    + rewrite live_references_insert, decide_True by reflexivity.
      simpl. rewrite Hnz. reflexivity.
    + intros k' Hne. rewrite live_references_insert, decide_False by congruence.
      reflexivity.
    + intros _. eexists. rewrite lookup_insert_eq. split; [reflexivity|]. auto.
  - (* an entry loaded from the file *)
    pose proof (Hinv k it Hk Hid) as Hrc.
    assert (Hlive : live_references k (m_program_cache d) = 0).
    { unfold live_references. rewrite Hk, Hid. reflexivity. }
    rewrite Hrc in Hm1. change (wrap32 (0 + 1)) with 1 in Hm1.
    assert (Hnz : (p =? 0) = false) by lia.
    rewrite Hlive, Hnz, Hm1. split; [|split].
    + rewrite live_references_insert, decide_True by reflexivity.
      simpl. rewrite Hnz. reflexivity.
    + intros k' Hne. rewrite live_references_insert, decide_False by congruence.
      reflexivity.
    + intros _. eexists. rewrite lookup_insert_eq. split; [reflexivity|]. auto.
  - (* an entry that can be neither loaded nor compiled *)
    rewrite Hm1. split; [|split; [reflexivity|intros []; reflexivity]].
    simpl. lia.
  - (* no entry, or one that failed to load *)
    assert (Hfresh : m0 !! k = None
                     ∧ ∀ k', live_references k' m0
                             = live_references k' (m_program_cache d)).
    { destruct Hm0 as [[Hk ->]|(it & Hk & Hid & _ & ->)]; [auto|]. split.
      - rewrite lookup_omap, lookup_delete_eq. reflexivity.
      - intros k'. rewrite live_references_discard, live_references_delete.
        destruct (decide (k = k')) as [<-|]; [|reflexivity].
        unfold live_references. rewrite Hk, Hid. reflexivity. }
    destruct Hfresh as [Hk0 Hrefs0].
    assert (Hlive : live_references k (m_program_cache d) = 0).
    { rewrite <- Hrefs0. unfold live_references. rewrite Hk0. reflexivity. }
    destruct Hcases as [[-> Hm1]|(Hp & item & Hm1 & Hpid & Hrc)].
    + rewrite Hm1. split; [|split; [auto|intros []; reflexivity]].
      rewrite Hrefs0. simpl. lia.
    + assert (Hnz : (p =? 0) = false) by lia.
      assert (Hnz' : (program_id item =? 0) = false) by lia.
      rewrite Hlive, Hnz, Hm1. split; [|split].
      * rewrite live_references_insert, decide_True by reflexivity.
        rewrite Hnz', Hrc. reflexivity.
      * intros k' Hne. rewrite live_references_insert, decide_False by congruence.
        apply Hrefs0.
      * intros _. exists item. rewrite lookup_insert_eq. auto.
Qed.

(** The release that answers a successful [LookupProgramCache]. *)
Lemma UnrefProgram_after_lookup k plconfig d p d1 :
  unloaded_unreferenced (m_program_cache d) →
  0 ≤ live_references k (m_program_cache d) < u32_max →
  LookupProgramCache k plconfig d = Some (p, d1) →
  p ≠ 0 →
  ∃ d2, UnrefProgram k d1 = Some (tt, d2)
        ∧ ∀ k', live_references k' (m_program_cache d2)
                = live_references k' (m_program_cache d).
Proof.
  intros Hinv Hrange Hrun Hp.
  destruct (LookupProgramCache_counts k plconfig d p d1 Hinv Hrange Hrun)
    as (_ & Hothers & Hentry).
  destruct (Hentry Hp) as (it & Hk & Hid & Hrc).
  destruct (UnrefProgram_live_references k d1 it Hk) as (d2 & Hunref & Hrefs).
  { congruence. }
  { unfold u32_max in Hrange. lia. }
  exists d2. split; [assumption|]. intros k'. rewrite Hrefs.
  destruct (decide (k = k')) as [<-|Hne]; [lia|]. apply Hothers. congruence.
Qed.

(** X2.  Reference counting is balanced.  In a cache whose unloaded
    entries have no references, [LookupProgramCache] adds one live
    reference to the key when it returns a program and none when it
    returns 0, and leaves the live references of every other key alone,
    whichever way it takes (live entry, entry loaded from the file, entry
    that failed to load, fresh compile).  After a program was returned,
    [UnrefProgram] of the key passes its [Assert] and puts the live
    references of every key back to what they were. *)
Theorem LookupProgramCache_reference_balance k plconfig d p d1 :
  unloaded_unreferenced (m_program_cache d) →
  0 ≤ live_references k (m_program_cache d) < u32_max →
  LookupProgramCache k plconfig d = Some (p, d1) →
  live_references k (m_program_cache d1)
  = live_references k (m_program_cache d) + (if p =? 0 then 0 else 1)
  ∧ (∀ k', k' ≠ k →
       live_references k' (m_program_cache d1) = live_references k' (m_program_cache d))
  ∧ (p ≠ 0 →
     (∃ it, m_program_cache d1 !! k = Some it ∧ program_id it = p)
     ∧ ∃ d2, UnrefProgram k d1 = Some (tt, d2)
             ∧ ∀ k', live_references k' (m_program_cache d2)
                     = live_references k' (m_program_cache d)).
Proof.
  intros Hinv Hrange Hrun.
  destruct (LookupProgramCache_counts k plconfig d p d1 Hinv Hrange Hrun)
    as (Hk & Hothers & Hentry).
  split; [assumption|]. split; [assumption|]. intros Hp. split.
  - destruct (Hentry Hp) as (it & Hit & Hid & _). exists it. auto.
  - apply (UnrefProgram_after_lookup k plconfig d p d1); assumption.
Qed.

Lemma live_from_refl (m : gmap ProgramCacheKey ProgramCacheItem) : live_from m m.
Proof. intros k it Hk _. exists it. auto. Qed.

Lemma live_from_trans (m1 m2 m3 : gmap ProgramCacheKey ProgramCacheItem) :
  live_from m1 m2 → live_from m2 m3 → live_from m1 m3.
Proof.
  intros H12 H23 k it3 Hk Hid.
  destruct (H23 k it3 Hk Hid) as (it2 & Hk2 & Hid2 & Hrc2).
  destruct (H12 k it2 Hk2) as (it1 & Hk1 & Hid1 & Hrc1); [congruence|].
  exists it1. repeat split; congruence.
Qed.

Lemma live_from_discard (m : gmap ProgramCacheKey ProgramCacheItem) :
  live_from m (omap discard_item m).
Proof.
  intros k it' Hk _. rewrite lookup_omap in Hk.
  destruct (m !! k) as [it|]; [|discriminate]. simpl in Hk.
  apply discard_item_Some in Hk as [_ ->]. exists it. auto.
Qed.

Lemma live_from_emplace (m : gmap ProgramCacheKey ProgramCacheItem) k it :
  program_id it = 0 → live_from m (emplace k it m).
Proof.
  intros Hid k' it' Hk' Hid'. unfold emplace in Hk'.
  destruct (m !! k) eqn:Hk; [exists it'; auto|].
  destruct (decide (k = k')) as [<-|Hne].
  - rewrite lookup_insert_eq in Hk'. congruence.
  - rewrite lookup_insert_ne in Hk' by assumption. exists it'. auto.
Qed.

Lemma DiscardPipelineCache_live_from d ok d' :
  DiscardPipelineCache d = Some (ok, d') →
  live_from (m_program_cache d) (m_program_cache d').
Proof.
  intros Hrun. destruct (DiscardPipelineCache_run d) as (ok0 & d0 & Hrun0 & Hcache & _).
  rewrite Hrun in Hrun0. injection Hrun0 as -> ->. rewrite Hcache.
  apply live_from_discard.
Qed.

Ltac by_discard :=
  let H := fresh in
  intros H; apply DiscardPipelineCache_live_from in H; exact H.

Lemma read_entries_live_from size n : ∀ d r d',
  read_entries n size d = Some (r, d') →
  live_from (m_program_cache d) (m_program_cache d').
Proof.
  induction n as [|n IH]; intros d r d'; simpl.
  { intros [= _ <-]. apply live_from_refl. }
  unfold mbind at 1, M_bind.
  destruct (file_call _ d) as [[bytes d1]|] eqn:Hread; [|discriminate].
  apply file_call_cache in Hread as Hcache. rewrite <- Hcache.
  destruct bytes as [bytes|]; [|by_discard].
  destruct (size <=? _); [by_discard|]. mred.
  destruct (m_program_cache d1 !! _); [by_discard|]. mred.
  intros Hrest. apply IH in Hrest. revert Hrest. mred.
  apply live_from_trans, live_from_emplace. reflexivity.
Qed.

Lemma ReadPipelineCache_live_from filename d r d' :
  ReadPipelineCache filename d = Some (r, d') →
  live_from (m_program_cache d) (m_program_cache d').
Proof.
  unfold ReadPipelineCache. mred.
  destruct (OpenCFile filename RPlusB (world d)) as [[file|errno] w]; mred.
  2:{ destruct (errno =? EACCES); mred; [intros [= _ <-]; apply live_from_refl|].
      destruct (errno =? ENOENT); mred;
        [by_discard|intros [= _ <-]; apply live_from_refl]. }
  destruct (_ || _); [by_discard|]. mred.
  destruct (FSeek64 _ _ _) as [[sought f1] w1]. mred.
  destruct sought; mred; [|by_discard].
  destruct (fread _ _ _) as [[footer_bytes f2] w2]. mred.
  destruct footer_bytes as [footer_bytes|]; [|by_discard]. mred.
  match goal with
  | |- context [FillFooter ?v ?d0] =>
      destruct (FillFooter_run v d0) as [g ->]
  end.
  mred. destruct (footer_matches _ _); mred; [|by_discard].
  destruct (_ <? 0); mred; [by_discard|].
  destruct (FSeek64 _ _ _) as [[sought f3] w3]. mred.
  destruct sought; mred; [|by_discard].
  intros Hrun. apply read_entries_live_from in Hrun. exact Hrun.
Qed.

Lemma live_referenced_from (m m' : gmap ProgramCacheKey ProgramCacheItem) :
  live_from m m' → live_referenced m → live_referenced m'.
Proof.
  intros Hfrom Hinv k it' Hk Hid. destruct (Hfrom k it' Hk Hid) as (it & Hk0 & Hid0 & <-).
  apply (Hinv k it Hk0). congruence.
Qed.

(** X3.  Every live entry has at least one reference, and the operations
    keep it so: [UnrefProgram], [ReadPipelineCache],
    [DiscardPipelineCache] and [ClosePipelineCache] always, and
    [LookupProgramCache] as long as the count of the entry it resolves is
    below the largest [u32]. *)
Theorem live_referenced_preserved d :
  live_referenced (m_program_cache d) →
  (∀ k plconfig p d',
     (∀ it, m_program_cache d !! k = Some it → 0 ≤ reference_count it < u32_max) →
     LookupProgramCache k plconfig d = Some (p, d') →
     live_referenced (m_program_cache d'))
  ∧ (∀ k d', UnrefProgram k d = Some (tt, d') →
             live_referenced (m_program_cache d'))
  ∧ (∀ filename r d', ReadPipelineCache filename d = Some (r, d') →
                      live_referenced (m_program_cache d'))
  ∧ (∀ ok d', DiscardPipelineCache d = Some (ok, d') →
              live_referenced (m_program_cache d'))
  ∧ (∀ d', ClosePipelineCache d = Some (tt, d') →
           live_referenced (m_program_cache d')).
Proof.
  intros Hinv.
  assert (Hinsert : ∀ (m : gmap ProgramCacheKey ProgramCacheItem) k it,
            live_referenced m → 0 < reference_count it → live_referenced (<[k := it]> m)).
  { intros m k it Hm Hit k' it' Hk' Hid'. destruct (decide (k = k')) as [<-|Hne].
    - rewrite lookup_insert_eq in Hk'. congruence.
    - rewrite lookup_insert_ne in Hk' by assumption. eauto. }
  repeat split.
  - intros k plconfig p d' Hrange Hrun.
    destruct (LookupProgramCache_cases k plconfig d p d' Hrun)
      as [(it & Hk & Hid & -> & ->)|[(it & Hk & Hid & Hsize & Hp & ->)
         |[(it & Hk & Hid & Hsize & -> & ->)|(m0 & Hm0 & Hcases)]]].
    + apply Hinsert; [assumption|]. simpl. specialize (Hrange it Hk).
      unfold u32_max in Hrange. rewrite wrap32_small; lia.
    + apply Hinsert; [assumption|]. simpl. specialize (Hrange it Hk).
      unfold u32_max in Hrange. rewrite wrap32_small; lia.
    + assumption.
    + assert (Hinv0 : live_referenced m0).
      { destruct Hm0 as [[_ ->]|(it & _ & _ & _ & ->)]; [assumption|].
        apply (live_referenced_from (m_program_cache d)); [|assumption].
        intros k' it' Hk' Hid'. rewrite lookup_omap in Hk'.
        destruct (decide (k = k')) as [<-|Hne].
        - rewrite lookup_delete_eq in Hk'. discriminate.
        - rewrite lookup_delete_ne in Hk' by assumption.
          destruct (m_program_cache d !! k') as [it0|]; [|discriminate]. simpl in Hk'.
          apply discard_item_Some in Hk' as [_ ->]. exists it0. auto. }
      destruct Hcases as [[_ ->]|(_ & item & -> & _ & Hrc)]; [assumption|].
      apply Hinsert; [assumption|]. lia.
  - intros k d' Hrun.
    destruct (UnrefProgram_cases k d d' Hrun) as (it & Hk & Hid & Hrc & Hcases).
    destruct Hcases as [[Hpos ->]|[(_ & _ & ->)|(_ & _ & ->)]].
    + apply Hinsert; assumption.
    + intros k' it' Hk'. destruct (decide (k = k')) as [<-|Hne].
      * rewrite lookup_delete_eq in Hk'. discriminate.
      * rewrite lookup_delete_ne in Hk' by assumption. eauto.
    + intros k' it' Hk' Hid'. destruct (decide (k = k')) as [<-|Hne].
      * rewrite lookup_insert_eq in Hk'. injection Hk' as <-. simpl in Hid'. lia.
      * rewrite lookup_insert_ne in Hk' by assumption. eauto.
  - intros filename r d' Hrun. apply ReadPipelineCache_live_from in Hrun.
    apply (live_referenced_from _ _ Hrun Hinv).
  - intros ok d' Hrun. apply DiscardPipelineCache_live_from in Hrun.
    apply (live_referenced_from _ _ Hrun Hinv).
  - intros d' Hrun. apply ClosePipelineCache_cache in Hrun. rewrite Hrun. assumption.
Qed.

Lemma live_references_emplace k k' it (m : gmap ProgramCacheKey ProgramCacheItem) :
  program_id it = 0 →
  live_references k' (emplace k it m) = live_references k' m.
Proof.
  intros Hid. unfold emplace. destruct (m !! k) eqn:Hk; [reflexivity|].
  rewrite live_references_insert. destruct (decide (k = k')) as [<-|]; [|reflexivity].
  rewrite Hid. unfold live_references. rewrite Hk. reflexivity.
Qed.

Lemma DiscardPipelineCache_live_references d ok d' k :
  DiscardPipelineCache d = Some (ok, d') →
  live_references k (m_program_cache d') = live_references k (m_program_cache d).
Proof.
  intros Hrun. destruct (DiscardPipelineCache_run d) as (ok0 & d0 & Hrun0 & Hcache & _).
  rewrite Hrun in Hrun0. injection Hrun0 as -> ->. rewrite Hcache.
  apply live_references_discard.
Qed.

Ltac by_discard_refs :=
  let H := fresh in
  match goal with
  | |- _ → live_references ?k _ = _ =>
      intros H; apply (DiscardPipelineCache_live_references _ _ _ k) in H; exact H
  end.

Lemma read_entries_live_references size k n : ∀ d r d',
  read_entries n size d = Some (r, d') →
  live_references k (m_program_cache d') = live_references k (m_program_cache d).
Proof.
  induction n as [|n IH]; intros d r d'; simpl.
  { intros [= _ <-]. reflexivity. }
  unfold mbind at 1, M_bind.
  destruct (file_call _ d) as [[bytes d1]|] eqn:Hread; [|discriminate].
  apply file_call_cache in Hread as Hcache. rewrite <- Hcache.
  destruct bytes as [bytes|]; [|by_discard_refs].
  destruct (size <=? _); [by_discard_refs|]. mred.
  destruct (m_program_cache d1 !! _); [by_discard_refs|]. mred.
  intros Hrest. apply IH in Hrest. revert Hrest. mred. intros ->.
  apply live_references_emplace. reflexivity.
Qed.

(** X6.  The disk store never changes how many live references a key
    has: not opening the file, not invalidating it, not closing it, and
    not adding a program to it (which leaves the handle and the count of
    the item it is given alone as well). *)
Theorem store_keeps_live_references d k :
  (∀ filename r d', ReadPipelineCache filename d = Some (r, d') →
     live_references k (m_program_cache d') = live_references k (m_program_cache d))
  ∧ (∀ ok d', DiscardPipelineCache d = Some (ok, d') →
       live_references k (m_program_cache d') = live_references k (m_program_cache d))
  ∧ (∀ d', ClosePipelineCache d = Some (tt, d') →
       live_references k (m_program_cache d') = live_references k (m_program_cache d))
  ∧ (∀ it it' d', AddToPipelineCache it d = Some (it', d') →
       live_references k (m_program_cache d') = live_references k (m_program_cache d)
       ∧ program_id it' = program_id it ∧ reference_count it' = reference_count it).
Proof.
  split; [|split; [|split]].
  - intros filename r d'. unfold ReadPipelineCache. mred.
    destruct (OpenCFile filename RPlusB (world d)) as [[file|errno] w]; mred.
    2:{ destruct (errno =? EACCES); mred; [intros [= _ <-]; reflexivity|].
        destruct (errno =? ENOENT); mred; [by_discard_refs|intros [= _ <-]; reflexivity]. }
    destruct (_ || _); [by_discard_refs|]. mred.
    destruct (FSeek64 _ _ _) as [[sought f1] w1]. mred.
    destruct sought; mred; [|by_discard_refs].
    destruct (fread _ _ _) as [[footer_bytes f2] w2]. mred.
    destruct footer_bytes as [footer_bytes|]; [|by_discard_refs]. mred.
    match goal with
    | |- context [FillFooter ?v ?d0] =>
        destruct (FillFooter_run v d0) as [g ->]
    end.
    mred. destruct (footer_matches _ _); mred; [|by_discard_refs].
    destruct (_ <? 0); mred; [by_discard_refs|].
    destruct (FSeek64 _ _ _) as [[sought f3] w3]. mred.
    destruct sought; mred; [|by_discard_refs].
    intros Hrun. apply (read_entries_live_references _ k) in Hrun. exact Hrun.
  - intros ok d'. apply DiscardPipelineCache_live_references.
  - intros d' Hrun. apply ClosePipelineCache_cache in Hrun. rewrite Hrun. reflexivity.
  - intros it it' d' Hrun. apply AddToPipelineCache_cache in Hrun as (-> & ? & ?). auto.
Qed.

(** ** Cache files that cannot be used *)

Lemma fread_short f n (w : World G) :
  io_script w = [] →
  Z.of_nat (length (file_data f w)) < f_pos f + n →
  ∃ f', fread f n w = ((None, f'), w) ∧ f_path f' = f_path f.
Proof.
  intros Hscript Hshort. unfold fread, next_io. rewrite Hscript.
  assert (Hc : (n <=? 0) || (Z.of_nat (length (file_data f w)) <? f_pos f + n) = true).
  { apply orb_true_iff. right. lia. }
  rewrite Hc. eexists. split; reflexivity.
Qed.

(** The loop over the index entries when the file ends before the last
    entry: some iteration runs [DiscardPipelineCache], on a cache that
    differs from the first by entries that are not loaded. *)
Lemma read_entries_short size n : ∀ d f,
  m_pipeline_disk_cache_file d = Some f →
  io_script (world d) = [] →
  0 ≤ f_pos f →
  (0 < n)%nat →
  Z.of_nat (length (file_data f (world d))) < f_pos f + 112 * Z.of_nat n →
  ∃ m f',
    read_entries n size d
    = DiscardPipelineCache (set_program_cache m (set_file (Some f') d))
    ∧ omap discard_item m = omap discard_item (m_program_cache d).
Proof.
  induction n as [|n IH]; intros d f Hfile Hscript Hpos Hn Hshort.
  { lia. }
  cbn [read_entries]. mred. rewrite Hfile.
  unfold sizeof_PipelineDiskCacheIndexEntry.
  destruct (decide (f_pos f + 112 ≤ Z.of_nat (length (file_data f (world d)))))
    as [Hfits|Hcut].
  - rewrite fread_ok by (assumption || lia). mred.
    change (Z.to_nat 112) with 112%nat.
    set (e := decode_entry (take 112 (drop (Z.to_nat (f_pos f)) (file_data f (world d))))).
    set (f1 := {| f_path := f_path f; f_pos := f_pos f + 112 |}).
    destruct (size <=? offset e + compressed_size e) eqn:Hrange.
    { exists (m_program_cache d), f1. split; [|reflexivity]. destruct d; reflexivity. }
    mred.
    destruct (m_program_cache d !! key e) as [it|] eqn:Hdup.
    { exists (m_program_cache d), f1. split; [|reflexivity]. destruct d; reflexivity. }
    mred. unfold emplace. rewrite Hdup.
    set (m1 := <[key e := item_of_entry e]> (m_program_cache d)).
    set (d1 := set_program_cache m1 (set_file (Some f1) (set_world (world d) d))).
    assert (IH' := IH d1 f1 eq_refl Hscript).
    change (file_data f1 (world d1)) with (file_data f (world d)) in IH'.
    change (m_program_cache d1) with m1 in IH'.
    destruct IH' as (m & f' & Hrun & Hm); [simpl; lia|lia|simpl; lia|].
    exists m, f'. split.
    + rewrite Hrun. reflexivity.
    + rewrite Hm. apply omap_discard_insert_unloaded; [assumption|reflexivity].
  - destruct (fread_short f 112 (world d)) as (f' & Hread & _); [assumption|lia|].
    rewrite Hread. mred. exists (m_program_cache d), f'. split; [|reflexivity].
    destruct d as [? ? ? ? ? ? ? ? ? [? ? ? ?]]; reflexivity.
Qed.


Lemma OpenCFile_missing path (w : World G) :
  io_script w = [] → disk w !! path = None →
  OpenCFile path RPlusB w = (inr ENOENT, w).
Proof. intros Hscript Hdisk. unfold OpenCFile, next_io. rewrite Hscript, Hdisk. reflexivity. Qed.

Lemma OpenCFile_fails path mode (w : World G) e s :
  io_script w = IoFail e :: s →
  OpenCFile path mode w = (inr e, set_io_script s w).
Proof. intros Hscript. unfold OpenCFile, next_io. rewrite Hscript. reflexivity. Qed.

(** X7.  Opening a cache file that does not exist creates it: the
    function returns true with an empty file open at position 0, the end
    of the data at 0, and the entries of the cache that were not loaded
    gone.  The driver is not called. *)
Theorem ReadPipelineCache_missing_file filename d :
  io_script (world d) = [] →
  disk (world d) !! filename = None →
  ∃ d',
    ReadPipelineCache filename d = Some (true, d')
    ∧ disk (world d') = <[filename := []]> (disk (world d))
    ∧ m_pipeline_disk_cache_file d' = Some {| f_path := filename; f_pos := 0 |}
    ∧ m_pipeline_disk_cache_filename d' = filename
    ∧ m_pipeline_disk_cache_data_end d' = 0
    ∧ m_pipeline_disk_cache_changed d' = m_pipeline_disk_cache_changed d
    ∧ m_program_cache d' = omap discard_item (m_program_cache d)
    ∧ gl (world d') = gl (world d).
Proof.
  intros Hscript Hdisk. unfold ReadPipelineCache. mred.
  rewrite OpenCFile_missing by assumption. mred.
  change (ENOENT =? EACCES) with false. change (ENOENT =? ENOENT) with true. mredb.
  match goal with
  | |- context [DiscardPipelineCache ?d0] =>
      destruct (DiscardPipelineCache_ok d0 Hscript)
        as (d' & Hrun & Hcache & Hend & Hfile & Hname & Hdisk' & _);
      destruct (DiscardPipelineCache_run d0)
        as (ok & d'' & Hrun' & _ & _ & Hchanged & _ & _ & Hgl & _)
  end.
  rewrite Hrun in Hrun'. injection Hrun' as <- <-.
  exists d'. repeat split; assumption.
Qed.

(** X8.  When opening the cache file fails with an error other than
    [ENOENT], the device goes on without a disk cache: no file, no file
    name, the program cache and the files as they were.  The result is
    true for [EACCES] (another instance holds the file) and false for any
    other error.  A later [ClosePipelineCache] then does nothing, unless
    the store was marked as changed before. *)
Theorem ReadPipelineCache_open_error filename d e s :
  io_script (world d) = IoFail e :: s →
  e ≠ ENOENT →
  let d' := set_filename "" (set_file None (set_world (set_io_script s (world d)) d)) in
  ReadPipelineCache filename d = Some (bool_decide (e = EACCES), d')
  ∧ (m_pipeline_disk_cache_changed d = false → ClosePipelineCache d' = Some (tt, d')).
Proof.
  intros Hscript Hne d'. split.
  - unfold ReadPipelineCache. mred. rewrite (OpenCFile_fails _ _ _ e s) by assumption. mred.
    destruct (e =? EACCES) eqn:Heacces; mred.
    + apply Z.eqb_eq in Heacces. rewrite bool_decide_eq_true_2 by assumption. reflexivity.
    + apply Z.eqb_neq in Heacces. rewrite bool_decide_eq_false_2 by assumption.
      assert (Hnoent : (e =? ENOENT) = false) by lia.
      rewrite Hnoent. mred. reflexivity.
  - intros Hchanged. unfold ClosePipelineCache, close_body, file_closer, d'. mred.
    rewrite Hchanged. mred. reflexivity.
Qed.

Lemma wrapped_data_end_short size n :
  392 ≤ size < u32_max → 0 ≤ n →
  size - 392 < 112 * n →
  size < wrap32 (size - 392 - 112 * n) + 112 * n.
Proof.
  intros Hsize Hn Hshort. unfold wrap32, u32_max, u32_modulus in *.
  destruct (decide (size - 392 - 112 * n < - 2 ^ 32)) as [Hfar|Hnear].
  - pose proof (Z.mod_pos_bound (size - 392 - 112 * n) (2 ^ 32)). lia.
  - replace (size - 392 - 112 * n) with ((size - 392 - 112 * n + 2 ^ 32) + (-1) * 2 ^ 32)
      by lia.
    rewrite Z.mod_add by lia. rewrite Z.mod_small by lia. lia.
Qed.

(** X9.  A cache file that is shorter than a footer, as long as the
    largest [u32] or longer, written for another version or driver, or
    whose footer counts more index entries than fit before it, is thrown
    away as a whole: the function returns true, the file is empty and
    open at position 0, and no entry read from it is in the cache. *)
Theorem ReadPipelineCache_rejects filename d data :
  let size := Z.of_nat (length data) in
  let file_footer := decode_footer (take 392 (drop (Z.to_nat (size - 392)) data)) in
  disk (world d) !! filename = Some data →
  io_script (world d) = [] →
  size < 392 ∨ u32_max ≤ size
  ∨ footer_matches file_footer (footer_of (m_shader_cache_version d) (gl (world d))) = false
  ∨ size - 392 < 112 * num_programs file_footer →
  ∃ d',
    ReadPipelineCache filename d = Some (true, d')
    ∧ disk (world d') = <[filename := []]> (disk (world d))
    ∧ m_pipeline_disk_cache_file d' = Some {| f_path := filename; f_pos := 0 |}
    ∧ m_pipeline_disk_cache_filename d' = filename
    ∧ m_pipeline_disk_cache_data_end d' = 0
    ∧ m_program_cache d' = omap discard_item (m_program_cache d).
Proof.
  intros size file_footer Hdisk Hscript Hbad.
  assert (Hdiscard : ∀ d0 m,
            io_script (world d0) = [] →
            m_pipeline_disk_cache_filename d0 = filename →
            disk (world d0) = disk (world d) →
            omap discard_item (m_program_cache d0) = omap discard_item m →
            m = m_program_cache d →
            ∃ d', DiscardPipelineCache d0 = Some (true, d')
                  ∧ disk (world d') = <[filename := []]> (disk (world d))
                  ∧ m_pipeline_disk_cache_file d' = Some {| f_path := filename; f_pos := 0 |}
                  ∧ m_pipeline_disk_cache_filename d' = filename
                  ∧ m_pipeline_disk_cache_data_end d' = 0
                  ∧ m_program_cache d' = omap discard_item (m_program_cache d)).
  { intros d0 m Hs0 Hname0 Hdisk0 Hm0 ->.
    destruct (DiscardPipelineCache_ok d0 Hs0)
      as (d' & Hrun & Hcache & Hend & Hfile & Hname & Hdisk' & _).
    exists d'. rewrite Hname0 in *. rewrite Hdisk0 in Hdisk'.
    repeat split; try assumption. congruence. }
  unfold ReadPipelineCache. mred.
  rewrite (OpenCFile_existing filename data) by assumption. mred.
  unfold FSize64, file_data. cbn [f_path]. rewrite Hdisk. cbn [default from_option].
  unfold id. fold size. unfold sizeof_PipelineDiskCacheFooter. change (4 * 2 + 128 * 3) with 392.
  destruct ((size <? 392) || (u32_max <=? size)) eqn:Hs1; mred.
  { apply (Hdiscard _ (m_program_cache d)); reflexivity || assumption. }
  apply orb_false_iff in Hs1 as [Hlow Hhigh].
  apply Z.ltb_ge in Hlow. apply Z.leb_gt in Hhigh.
  destruct Hbad as [Hbad|[Hbad|Hbad]]; [lia|lia|].
  rewrite FSeek64_ok by (assumption || lia). mred.
  rewrite fread_ok; [| assumption | lia | simpl; lia
                     | unfold file_data; simpl; rewrite Hdisk; simpl; fold size; lia].
  mred. unfold file_data. cbn [f_path f_pos]. rewrite Hdisk. cbn [default from_option].
  unfold id. change (Z.to_nat 392) with 392%nat. fold file_footer.
  match goal with
  | |- context [FillFooter ?v ?d0] => destruct (FillFooter_run v d0) as [g Hfill]
  end.
  rewrite Hfill. mred.
  destruct (footer_matches file_footer _) eqn:Hfooter; mred.
  2:{ apply (Hdiscard _ (m_program_cache d)); reflexivity || assumption. }
  destruct Hbad as [Hbad|Hbad]; [congruence|].
  pose proof (decode_u32_range (drop 4 (take 392 (drop (Z.to_nat (size - 392)) data))))
    as Hnum.
  change (decode_u32 (drop 4 (take 392 (drop (Z.to_nat (size - 392)) data))))
    with (num_programs file_footer) in Hnum.
  unfold sizeof_PipelineDiskCacheIndexEntry.
  rewrite (wrap32_small size) by (unfold u32_max in Hhigh; lia).
  set (data_end := wrap32 (size - 392 - 112 * num_programs file_footer)).
  assert (Hend : 0 ≤ data_end < u32_modulus).
  { apply Z.mod_pos_bound. reflexivity. }
  assert (Hneg : (data_end <? 0) = false) by lia.
  rewrite Hneg. mred.
  rewrite FSeek64_ok by (assumption || lia). mred.
  match goal with
  | |- context [read_entries ?n size ?d0] =>
      destruct (read_entries_short size n d0 {| f_path := filename; f_pos := data_end |})
        as (m & f' & Hrun & Hm)
  end.
  - reflexivity.
  - assumption.
  - simpl. lia.
  - lia.
  - mred. unfold file_data. cbn [f_path f_pos disk set_gl]. rewrite Hdisk.
    cbn [default from_option].
    unfold id. fold size. rewrite Z2Nat.id by lia.
    apply wrapped_data_end_short; lia.
  - rewrite Hrun. apply (Hdiscard _ (m_program_cache d)); try reflexivity; try assumption.
Qed.

(** ** The bound program, invalidation, and programs stored and loaded *)

Lemma PostLinkProgram_binds_last plconfig id d :
  (UseGLSLBindingLayout = true → PostLinkProgram plconfig id d = Some (tt, d))
  ∧ (UseGLSLBindingLayout = false →
     ∃ g, PostLinkProgram plconfig id d
          = Some (tt, set_world (set_gl (glUseProgram (m_last_program d) g) (world d)) d)).
Proof.
  split.
  - intros Hlayout. unfold PostLinkProgram. rewrite Hlayout. reflexivity.
  - intros Hlayout. destruct (PostLinkProgram_run plconfig id d) as [g0 Hrun].
    rewrite Hrun.
    assert (Hlast : ∃ g, g0 = glUseProgram (m_last_program d) g).
    { revert Hrun. unfold PostLinkProgram. rewrite Hlayout. mredb.
      destruct (glGetUniformBlockIndex _ _ _) as [location g1].
      assert (Hbody : ∀ i, keeps_caches
                (location ← gl_call (glGetUniformLocation id ("samp" +:+ pretty i));
                 if 0 <=? location then gl_do (glUniform1i location i) else mret tt)).
      { intros i. apply keeps_bind; [apply keeps_gl_call|].
        intros loc. destruct (0 <=? loc); [apply keeps_gl_do|apply keeps_ret]. }
      destruct (0 <=? to_s32 location); mred.
      all: match goal with
           | |- context [for_each ?l ?body ?d0] =>
               destruct (for_each l body d0) as [[[] d2]|] eqn:Hloop; [|discriminate];
               apply (keeps_for_each _ _ Hbody) in Hloop as (_ & Hlast & _)
           end.
      all: mred; intros Heq; exists (gl (world d2)).
      all: apply (f_equal (λ r : option (unit * OpenGLDevice G),
                             match r with
                             | Some (_, d) => gl (world d)
                             | None => g0
                             end)) in Heq; cbn in Heq.
      all: rewrite Hlast in Heq; symmetry; exact Heq. }
    destruct Hlast as [g ->]. exists g. reflexivity.
Qed.

Lemma restores_bind {A} (m : M (OpenGLDevice G) A) (f : A → M (OpenGLDevice G) Z) :
  keeps_last_program m → (∀ a, restores_binding (f a)) → restores_binding (m ≫= f).
Proof.
  intros Hm Hf d r d'. unfold mbind, M_bind.
  destruct (m d) as [[a d1]|] eqn:Hrun; [|discriminate].
  intros Hrest Hr. apply Hm in Hrun. destruct (Hf a d1 r d' Hrest Hr) as [Hlast [g Hg]].
  rewrite Hrun in *. eauto.
Qed.

Lemma restores_zero : restores_binding (mret 0).
Proof. intros d r d' [= <- <-] []. reflexivity. Qed.

Lemma keeps_last_of_caches {A} (m : M (OpenGLDevice G) A) :
  keeps_caches m → keeps_last_program m.
Proof. intros Hm d a d' Hrun. apply Hm in Hrun. apply Hrun. Qed.

Lemma keeps_last_file_call {A} (op : FILE → World G → (A * FILE) * World G) :
  keeps_last_program (file_call op).
Proof.
  intros d a d'. unfold file_call. destruct (m_pipeline_disk_cache_file d); [|discriminate].
  destruct (op _ _) as [[a0 f'] w]. intros [= _ <-]. reflexivity.
Qed.

Lemma restores_PostLinkProgram plconfig id :
  UseGLSLBindingLayout = false →
  restores_binding (PostLinkProgram plconfig id;; mret id).
Proof.
  intros Hlayout d r d'. unfold mbind, M_bind.
  destruct (PostLinkProgram_binds_last plconfig id d) as [_ Hrun].
  destruct (Hrun Hlayout) as [g ->]. intros [= <- <-] _. split; [reflexivity|].
  exists g. reflexivity.
Qed.

Ltac restores_step :=
  match goal with
  | |- restores_binding (mret 0) => apply restores_zero
  | |- restores_binding (PostLinkProgram _ _ ≫= _) =>
      apply restores_PostLinkProgram; assumption
  | |- restores_binding (file_call _ ≫= _) =>
      apply restores_bind; [apply keeps_last_file_call|intros ?]
  | |- restores_binding (_ ≫= _) =>
      apply restores_bind;
        [apply keeps_last_of_caches;
         unfold compile_shaders, attach_shader, GetGLId;
         repeat (keeps_step || apply keeps_Compile)
        |intros ?]
  | |- restores_binding (if ?c then _ else _) => destruct c
  | |- restores_binding (match ?x with _ => _ end) => destruct x
  end.

(** X14.  With explicit binding ([UseGLSLBindingLayout] false),
    [PostLinkProgram] binds the new program to set its uniforms, and its
    last driver call binds [m_last_program] again.  So a program that
    [CompileProgram] or [CreateProgramFromPipelineCache] returns leaves
    the bound program and the device's record of it as they were. *)
Theorem program_binding_restored plconfig :
  UseGLSLBindingLayout = false →
  (∀ id d, ∃ g, PostLinkProgram plconfig id d
                = Some (tt, set_world (set_gl (glUseProgram (m_last_program d) g) (world d))
                              d))
  ∧ (∀ d r d', CompileProgram plconfig d = Some (r, d') → r ≠ 0 →
     m_last_program d' = m_last_program d
     ∧ ∃ g, gl (world d') = glUseProgram (m_last_program d) g)
  ∧ (∀ it d r d', CreateProgramFromPipelineCache it plconfig d = Some (r, d') → r ≠ 0 →
     m_last_program d' = m_last_program d
     ∧ ∃ g, gl (world d') = glUseProgram (m_last_program d) g).
Proof.
  intros Hlayout. split; [|split].
  - intros id d. apply (PostLinkProgram_binds_last plconfig id d). assumption.
  - change (restores_binding (CompileProgram plconfig)).
    unfold CompileProgram. repeat restores_step.
  - intros it. change (restores_binding (CreateProgramFromPipelineCache it plconfig)).
    unfold CreateProgramFromPipelineCache. repeat restores_step.
Qed.

(** X13.  [DiscardPipelineCache] never drops a program that is in use: a
    live entry keeps its handle and its count and loses its place in the
    file, an entry that is not loaded is erased.  The end of the data is 0
    afterwards.  The file is empty and open when it could be reopened
    (always, if no stdio call fails); otherwise the device is left without
    file and file name, and the old file is not touched. *)
Theorem DiscardPipelineCache_keeps_live d :
  ∃ ok d',
    DiscardPipelineCache d = Some (ok, d')
    ∧ (∀ k, m_program_cache d' !! k
            = match m_program_cache d !! k with
              | Some it =>
                  if program_id it =? 0 then None
                  else Some (set_file_location 0 0 0 0 it)
              | None => None
              end)
    ∧ m_pipeline_disk_cache_data_end d' = 0
    ∧ m_last_program d' = m_last_program d
    ∧ gl (world d') = gl (world d)
    ∧ (io_script (world d) = [] → ok = true)
    ∧ (ok = true →
         m_pipeline_disk_cache_file d'
         = Some {| f_path := m_pipeline_disk_cache_filename d; f_pos := 0 |}
         ∧ m_pipeline_disk_cache_filename d' = m_pipeline_disk_cache_filename d
         ∧ disk (world d') = <[m_pipeline_disk_cache_filename d := []]> (disk (world d)))
    ∧ (ok = false →
         m_pipeline_disk_cache_file d' = None
         ∧ m_pipeline_disk_cache_filename d' = ""
         ∧ disk (world d') = disk (world d)).
Proof.
  destruct (DiscardPipelineCache_run d)
    as (ok & d' & Hrun & Hcache & Hend & _ & Hlast & _ & Hgl & Hok & Hfail).
  exists ok, d'. split; [assumption|]. split.
  { intros k. rewrite Hcache, lookup_omap.
    destruct (m_program_cache d !! k) as [it|]; [|reflexivity]. simpl.
    unfold discard_item. destruct (program_id it =? 0); reflexivity. }
  repeat (split; [assumption|]). split.
  { intros Hscript. destruct (DiscardPipelineCache_ok d Hscript) as (d0 & Hrun0 & _).
    congruence. }
  split.
  - intros ->. destruct (Hok eq_refl) as (? & ? & ?). auto.
  - intros ->. destruct (Hfail eq_refl) as (? & ? & ?). auto.
Qed.

(** X12.  When the driver has no binary for the program (the length or
    the binary itself comes back empty) or zstd fails,
    [AddToPipelineCache] leaves the item without a place in the file, and
    the file and the bookkeeping of the store as they were; only the
    driver has been called. *)
Theorem AddToPipelineCache_no_binary it d binary_size g1 :
  glGetProgramiv (program_id it) GL_PROGRAM_BINARY_LENGTH (gl (world d))
    = (binary_size, g1) →
  (binary_size = 0 →
     AddToPipelineCache it d = Some (it, set_world (set_gl g1 (world d)) d))
  ∧ (∀ len fmt buf g2,
       binary_size ≠ 0 →
       glGetProgramBinary (program_id it) binary_size g1 = ((len, fmt, buf), g2) →
       len = 0 ∨ zstd_compress (take (Z.to_nat len) buf) = None →
       AddToPipelineCache it d = Some (it, set_world (set_gl g2 (world d)) d)).
Proof.
  intros Hsize. split.
  - intros ->. unfold AddToPipelineCache. mred. rewrite Hsize. mred. reflexivity.
  - intros len fmt buf g2 Hnz Hbinary Hnone.
    unfold AddToPipelineCache. mred. rewrite Hsize. mred.
    assert (Hnz' : (binary_size =? 0) = false) by lia.
    rewrite Hnz'. mred. rewrite Hbinary. mred.
    destruct (len =? 0) eqn:Hlen; mred; [reflexivity|].
    destruct Hnone as [->|Hzstd]; [discriminate|].
    rewrite Hzstd. reflexivity.
Qed.

Lemma write_at_read pos (bytes data : list byte) :
  take (length bytes) (drop pos (write_at pos bytes data)) = bytes.
Proof.
  unfold write_at.
  assert (Hlen : length (take pos data ++ replicate (pos - length data) Byte.x00) = pos).
  { rewrite length_app, length_take, length_replicate. lia. }
  rewrite (app_assoc (take pos data)).
  rewrite <- Hlen at 1. rewrite drop_app_length.
  rewrite take_app_length. reflexivity.
Qed.

Lemma write_at_length pos (bytes data : list byte) :
  (pos + length bytes ≤ length (write_at pos bytes data))%nat.
Proof.
  unfold write_at. rewrite !length_app, length_take, length_replicate, length_drop. lia.
Qed.

(** X11.  What [AddToPipelineCache] stores,
    [CreateProgramFromPipelineCache] loads.  When the driver hands out a
    binary, zstd compresses it to a frame that decompresses to the same
    bytes, and no stdio call fails, the frame is written at the end of the
    data and the item records where.  Loading that item submits the very
    binary with its format to [glProgramBinary]: if the driver accepts it,
    the new program is returned. *)
Theorem AddToPipelineCache_then_load it plconfig d f binary_size g1 len fmt buf g2
    compressed e0 g3 prog g4 g5 g6 :
  m_pipeline_disk_cache_file d = Some f →
  io_script (world d) = [] →
  0 ≤ m_pipeline_disk_cache_data_end d →
  glGetProgramiv (program_id it) GL_PROGRAM_BINARY_LENGTH (gl (world d))
    = (binary_size, g1) →
  binary_size ≠ 0 →
  glGetProgramBinary (program_id it) binary_size g1 = ((len, fmt, buf), g2) →
  0 < len < u32_modulus →
  len ≤ Z.of_nat (length buf) →
  zstd_compress (take (Z.to_nat len) buf) = Some compressed →
  compressed ≠ [] →
  Z.of_nat (length compressed) < u32_modulus →
  zstd_decompress compressed = Some (take (Z.to_nat len) buf) →
  glGetError g2 = (e0, g3) →
  glCreateProgram g3 = (prog, g4) →
  glGetError g4 = (GL_NO_ERROR, g5) →
  glGetProgramiv prog GL_LINK_STATUS (glProgramBinary prog fmt (take (Z.to_nat len) buf) g5)
    = (GL_TRUE, g6) →
  ∃ it' d1 d2,
    AddToPipelineCache it d = Some (it', d1)
    ∧ file_offset it' = m_pipeline_disk_cache_data_end d
    ∧ file_uncompressed_size it' = len
    ∧ file_compressed_size it' = Z.of_nat (length compressed)
    ∧ disk (world d1)
      = <[f_path f := write_at (Z.to_nat (m_pipeline_disk_cache_data_end d)) compressed
                        (file_data f (world d))]> (disk (world d))
    ∧ CreateProgramFromPipelineCache it' plconfig d1 = Some (prog, d2)
    ∧ disk (world d2) = disk (world d1).
Proof.
  intros Hfile Hscript Hend Hsize Hnz Hbinary Hlen Hbuf Hzstd Hne Hclen Hunzstd
    Herr0 Hcreate Herr1 Hlink.
  set (data_end := m_pipeline_disk_cache_data_end d) in *.
  set (csize := Z.of_nat (length compressed)) in *.
  set (it' := set_file_location fmt data_end len csize it).
  set (f1 := {| f_path := f_path f; f_pos := data_end + csize |}).
  set (w1 := set_disk (<[f_path f := write_at (Z.to_nat data_end) compressed
                                      (file_data f (world d))]> (disk (world d)))
               (set_gl g2 (world d))).
  set (d1 := set_changed true
               (set_data_end (wrap32 (data_end + csize))
                  (set_file (Some f1) (set_world w1 d)))).
  assert (Hadd : AddToPipelineCache it d = Some (it', d1)).
  { unfold AddToPipelineCache. mred. rewrite Hsize. mred.
    assert (Hnz' : (binary_size =? 0) = false) by lia.
    rewrite Hnz'. mred. rewrite Hbinary. mred.
    assert (Hlen' : (len =? 0) = false) by lia.
    rewrite Hlen'. mred. rewrite Hzstd. mred. rewrite Hfile. fold data_end.
    rewrite FSeek64_ok by assumption. mred.
    rewrite fwrite_ok by assumption. mred.
    fold csize. rewrite (wrap32_small len) by lia. rewrite (wrap32_small csize) by lia.
    reflexivity. }
  assert (Hdata1 : file_data f (world d1)
                   = write_at (Z.to_nat data_end) compressed (file_data f (world d))).
  { unfold file_data, d1, w1. simpl. rewrite lookup_insert_eq. reflexivity. }
  exists it', d1.
  assert (Hload : ∃ d2, CreateProgramFromPipelineCache it' plconfig d1 = Some (prog, d2)
                        ∧ disk (world d2) = disk (world d1)).
  { unfold CreateProgramFromPipelineCache, d1, it'. mred.
    rewrite FSeek64_ok by assumption. mred.
    pose proof (write_at_length (Z.to_nat data_end) compressed (file_data f (world d)))
      as Hwlen.
    rewrite fread_ok; [|assumption| unfold csize; destruct compressed; [congruence|simpl; lia]
                       |simpl; lia
                       |simpl; change (file_data _ _) with (file_data f (world d1));
                        rewrite Hdata1; unfold csize; lia].
    mred. change (file_data _ w1) with (file_data f (world d1)). rewrite Hdata1.
    unfold csize. rewrite Nat2Z.id, write_at_read.
    unfold ZSTD_decompress. rewrite Hunzstd.
    assert (Hout : length (take (Z.to_nat len) buf) = Z.to_nat len).
    { rewrite length_take. lia. }
    rewrite Hout, DynamicHeapArray_length, Nat.leb_refl.
    rewrite drop_ge, app_nil_r by (rewrite DynamicHeapArray_length; lia). mred.
    change (gl w1) with g2. rewrite Herr0. mred. rewrite Hcreate. mred. rewrite Herr1.
    change (GL_NO_ERROR =? GL_NO_ERROR) with true. mredb.
    rewrite Hlink. change (GL_TRUE =? GL_TRUE) with true. mredb.
    match goal with
    | |- context [PostLinkProgram ?c ?p ?d0] =>
        destruct (PostLinkProgram_run c p d0) as [g Hpost]; rewrite Hpost
    end.
    mred. eexists. split; reflexivity. }
  destruct Hload as (d2 & Hload & Hdisk2). exists d2.
  repeat split; assumption || reflexivity.
Qed.

(** ** Compiling a shader *)

Lemma dump_bad_shader_shaders sh info_log n d d' :
  dump_bad_shader sh info_log n d = Some (tt, d') → shaders d' = shaders d.
Proof.
  unfold dump_bad_shader. mred.
  destruct (OpenCFile _ _ _) as [[fp|e] w]; mred; [|intros [= <-]; reflexivity].
  destruct (fwrite fp _ _) as [[r1 fp1] w1]. mred.
  destruct (fwrite fp1 _ _) as [[r2 fp2] w2]. mred.
  destruct (fwrite fp2 _ _) as [[r3 fp3] w3]. mred.
  intros [= <-]. reflexivity.
Qed.

(** What [do_compile] leaves in the shader object: the name of the
    compiled shader when it returns true, and nothing new otherwise. *)
Lemma do_compile_store p sh d r d' :
  do_compile p sh d = Some (r, d') →
  if r then ∃ shader, shaders d' = <[p := set_m_id (Some shader) sh]> (shaders d)
  else shaders d' = shaders d.
Proof.
  unfold do_compile. mred.
  destruct (glGetError _) as [e0 g1]. mred.
  destruct (glCreateShader _ _) as [shader g2]. mred.
  destruct (glGetError _) as [err g3]. mred.
  destruct (negb (err =? GL_NO_ERROR)); mred; [intros [= <- <-]; reflexivity|].
  destruct (glGetShaderiv _ _ _) as [status g4]. mred.
  destruct (glGetShaderiv _ _ _) as [info_log_length g5]. mred.
  destruct ((status =? GL_FALSE) || (0 <? info_log_length)); mred.
  2:{ intros [= <- <-]. mred. eauto. }
  destruct (glGetShaderInfoLog _ _ _) as [[len info_log] g6]. mred.
  destruct (status =? GL_TRUE); mred; [intros [= <- <-]; mred; eauto|].
  match goal with
  | |- context [dump_bad_shader ?a ?b ?c ?d0] =>
      destruct (dump_bad_shader a b c d0) as [[[] d1]|] eqn:Hdump; [|discriminate]
  end.
  apply dump_bad_shader_shaders in Hdump. mred. intros [= <- <-]. mred. assumption.
Qed.

(** X15.  A shader is compiled at most once: a second [Compile] gives
    the result of the first and changes nothing, also after a failure. *)
Theorem OpenGLShader_Compile_once p sh d r d1 :
  shaders d !! p = Some sh →
  (m_compile_tried sh = false → m_id sh = None) →
  OpenGLShader_Compile p d = Some (r, d1) →
  OpenGLShader_Compile p d1 = Some (r, d1).
Proof.
  intros Hp Hfresh Hrun.
  destruct (m_compile_tried sh) eqn:Htried.
  - rewrite (Compile_memo p sh d Hp Htried) in Hrun. injection Hrun as <- <-.
    apply (Compile_memo p sh d Hp Htried).
  - rewrite (Compile_first p sh d Hp Htried) in Hrun.
    apply do_compile_store in Hrun. revert Hrun. mred. intros Hrun.
    set (sh1 := set_m_compile_tried true sh) in *.
    destruct r.
    + destruct Hrun as [shader Hstore].
      rewrite (Compile_memo p (set_m_id (Some shader) sh1) d1).
      * reflexivity.
      * rewrite Hstore, insert_insert_eq. apply lookup_insert_eq.
      * reflexivity.
    + rewrite (Compile_memo p sh1 d1).
      * simpl. rewrite (Hfresh eq_refl). reflexivity.
      * rewrite Hrun. apply lookup_insert_eq.
      * reflexivity.
Qed.

Lemma write_at_end (bytes data : list byte) :
  write_at (length data) bytes data = data ++ bytes.
Proof.
  unfold write_at. rewrite firstn_all, Nat.sub_diag. simpl.
  rewrite drop_ge by lia. rewrite app_nil_r. reflexivity.
Qed.

(** A write at the end of a file, on a file system without injected
    failures: the bytes are appended (none, for an empty buffer). *)
Lemma fwrite_append f bs data (w : World G) :
  io_script w = [] →
  disk w !! f_path f = Some data →
  f_pos f = Z.of_nat (length data) →
  ∃ r w',
    fwrite f bs w
    = ((r, {| f_path := f_path f; f_pos := Z.of_nat (length (data ++ bs)) |}), w')
    ∧ disk w' = <[f_path f := data ++ bs]> (disk w)
    ∧ io_script w' = []
    ∧ gl w' = gl w
    ∧ s_next_bad_shader_id w' = s_next_bad_shader_id w.
Proof.
  intros Hscript Hdisk Hpos. destruct bs as [|b bs].
  - exists false, w. unfold fwrite, next_io. rewrite Hscript, app_nil_r, <- Hpos, FILE_eta.
    rewrite insert_id by assumption. auto.
  - eexists true, _. rewrite fwrite_ok by (assumption || discriminate).
    unfold file_data. rewrite Hdisk. simpl default.
    rewrite Hpos, Nat2Z.id, write_at_end, length_app, Nat2Z.inj_add.
    repeat split; reflexivity || assumption.
Qed.

Lemma dump_bad_shader_run sh info_log n d :
  io_script (world d) = [] →
  let id := s_next_bad_shader_id (world d) in
  let path := GetShaderDumpPath ("bad_shader_" +:+ pretty id +:+ ".txt") in
  ∃ d',
    dump_bad_shader sh info_log n d = Some (tt, d')
    ∧ gl (world d') = gl (world d)
    ∧ shaders d' = shaders d
    ∧ s_next_bad_shader_id (world d') = wrap32 (id + 1)
    ∧ disk (world d')
      = <[path := String.list_byte_of_string (m_source sh)
                  ++ String.list_byte_of_string
                       (newline +:+ newline +:+ "Compile " +:+ GetStageName (m_stage sh)
                          +:+ " shader failed" +:+ newline)
                  ++ take (Z.to_nat n) info_log]> (disk (world d))
    ∧ same_caches d d'.
Proof.
  intros Hscript id path. unfold dump_bad_shader. mred. fold id. fold path.
  unfold OpenCFile, next_io. mred. rewrite Hscript. mred.
  match goal with
  | |- context [fwrite ?f ?bs ?w] =>
      destruct (fwrite_append f bs [] w) as (r1 & w1 & Hw1 & Hdisk1 & Hs1 & Hgl1 & Hid1);
        [assumption|apply lookup_insert_eq|reflexivity|]
  end.
  rewrite Hw1. mred.
  match goal with
  | |- context [fwrite {| f_path := ?p; f_pos := Z.of_nat (length ?data) |} ?bs w1] =>
      destruct (fwrite_append {| f_path := p; f_pos := Z.of_nat (length data) |} bs data w1)
        as (r2 & w2 & Hw2 & Hdisk2 & Hs2 & Hgl2 & Hid2);
        [assumption|rewrite Hdisk1; apply lookup_insert_eq|reflexivity|]
  end.
  rewrite Hw2. mred.
  match goal with
  | |- context [fwrite {| f_path := ?p; f_pos := Z.of_nat (length ?data) |} ?bs w2] =>
      destruct (fwrite_append {| f_path := p; f_pos := Z.of_nat (length data) |} bs data w2)
        as (r3 & w3 & Hw3 & Hdisk3 & Hs3 & Hgl3 & Hid3);
        [assumption|rewrite Hdisk2; apply lookup_insert_eq|reflexivity|]
  end.
  rewrite Hw3. mred. eexists. split; [reflexivity|]. mred.
  simpl in *. rewrite Hgl3, Hgl2, Hgl1, Hid3, Hid2, Hid1, Hdisk3, Hdisk2, Hdisk1.
  rewrite !insert_insert_eq, <- app_assoc.
  repeat split; reflexivity.
Qed.

(** X16.  A shader that the driver fails to compile is deleted and stays
    without a name, and [Compile] returns false.  With no stdio failure
    the file bad_shader_<n>.txt in the dump directory holds the source, a
    line naming the stage, and the log of the compiler; the counter [n]
    goes up by one.  The caches are not touched. *)
Theorem OpenGLShader_Compile_failure_dump p sh d e0 g1 shader g2 g3 g5 n g6 n' info_log g7 :
  shaders d !! p = Some sh →
  m_compile_tried sh = false →
  io_script (world d) = [] →
  glGetError (gl (world d)) = (e0, g1) →
  glCreateShader (GetGLShaderType (m_stage sh)) g1 = (shader, g2) →
  glGetError g2 = (GL_NO_ERROR, g3) →
  glGetShaderiv shader GL_COMPILE_STATUS
    (glCompileShader shader (glShaderSource shader (m_source sh) g3)) = (GL_FALSE, g5) →
  glGetShaderiv shader GL_INFO_LOG_LENGTH g5 = (n, g6) →
  glGetShaderInfoLog shader n g6 = ((n', info_log), g7) →
  let id := s_next_bad_shader_id (world d) in
  let path := GetShaderDumpPath ("bad_shader_" +:+ pretty id +:+ ".txt") in
  ∃ d',
    OpenGLShader_Compile p d = Some (false, d')
    ∧ gl (world d') = glDeleteShader shader g7
    ∧ shaders d' = <[p := set_m_compile_tried true sh]> (shaders d)
    ∧ s_next_bad_shader_id (world d') = wrap32 (id + 1)
    ∧ disk (world d')
      = <[path := String.list_byte_of_string (m_source sh)
                  ++ String.list_byte_of_string
                       (newline +:+ newline +:+ "Compile " +:+ GetStageName (m_stage sh)
                          +:+ " shader failed" +:+ newline)
                  ++ take (Z.to_nat n') info_log]> (disk (world d))
    ∧ same_caches d d'.
Proof.
  intros Hp Htried Hscript Herr0 Hcreate Herr1 Hstatus Hlen Hlog id path.
  rewrite (Compile_first p sh d Hp Htried).
  unfold do_compile. mred. cbn [m_stage m_source set_m_compile_tried].
  rewrite Herr0. mred. rewrite Hcreate. mred. rewrite Herr1.
  change (GL_NO_ERROR =? GL_NO_ERROR) with true. mredb.
  rewrite Hstatus. mred. rewrite Hlen. mred.
  change (GL_FALSE =? GL_FALSE) with true. mredb. rewrite Hlog. mred.
  change (GL_FALSE =? GL_TRUE) with false. mredb.
  match goal with
  | |- context [dump_bad_shader ?a ?b ?c ?d0] =>
      destruct (dump_bad_shader_run a b c d0)
        as (d1 & Hdump & Hgl & Hshaders & Hid & Hdisk & Hsame); [assumption|]
  end.
  rewrite Hdump. mred. eexists. split; [reflexivity|]. mred.
  revert Hgl Hshaders Hid Hdisk Hsame. mred. cbn [m_stage m_source set_m_compile_tried].
  fold id. fold path. intros Hgl Hshaders Hid Hdisk Hsame.
  rewrite Hgl. repeat split; try assumption; apply Hsame.
Qed.

(** ** Closing and opening again *)

Lemma byte_to_of_Z z : byte_to_Z (byte_of_Z z) = z mod 256.
Proof.
  unfold byte_to_Z, byte_of_Z.
  pose proof (Z.mod_pos_bound z 256 eq_refl) as Hz.
  destruct (Byte.of_N (Z.to_N (z mod 256))) as [b|] eqn:Hb.
  - apply Byte.to_of_N in Hb. rewrite Hb. lia.
  - apply Byte.of_N_None_iff in Hb. lia.
Qed.

Lemma decode_encode_u32 x rest :
  0 ≤ x < u32_modulus → decode_u32 (encode_u32 x ++ rest) = x.
Proof.
  intros Hx. unfold encode_u32, decode_u32. cbn [app].
  rewrite !byte_to_of_Z. unfold u32_modulus in Hx.
  change (2 ^ 8) with 256. change (2 ^ 16) with 65536. change (2 ^ 24) with 16777216.
  change (2 ^ 32) with 4294967296 in Hx.
  Z.div_mod_to_equations. lia.
Qed.

Lemma c_str_length bs : (length (c_str bs) ≤ length bs)%nat.
Proof. induction bs as [|b bs IH]; simpl; [lia|]. destruct (Byte.eqb b _); simpl; lia. Qed.

Lemma Strlcpy_length src n : (0 < n)%nat → length (Strlcpy src n) = n.
Proof.
  intros Hn. unfold Strlcpy. rewrite length_app, length_replicate, length_take. lia.
Qed.

Lemma strncmp_eq_refl n : ∀ a, strncmp_eq a a n = true.
Proof.
  induction n as [|n IH]; intros a; simpl; [reflexivity|].
  rewrite (Byte.byte_dec_lb (eq_refl (hd Byte.x00 a))).
  destruct (Byte.eqb _ _); [reflexivity|apply IH].
Qed.


Lemma footer_of_lengths v (g : G) :
  length (driver_vendor (footer_of v g)) = 128%nat
  ∧ length (driver_renderer (footer_of v g)) = 128%nat
  ∧ length (driver_version (footer_of v g)) = 128%nat
  ∧ version (footer_of v g) = v.
Proof.
  unfold footer_of. destruct (glGetString _ _) as [vendor g1].
  destruct (glGetString _ _) as [renderer g2]. destruct (glGetString _ _) as [ver g3].
  simpl. rewrite !Strlcpy_length by lia. auto.
Qed.

Lemma encode_footer_length ft :
  length (driver_vendor ft) = 128%nat → length (driver_renderer ft) = 128%nat →
  length (driver_version ft) = 128%nat →
  length (encode_footer ft) = 392%nat.
Proof.
  intros H1 H2 H3. unfold encode_footer.
  rewrite !length_app, !encode_u32_length, H1, H2, H3. reflexivity.
Qed.

Lemma decode_encode_footer ft :
  0 ≤ version ft < u32_modulus → 0 ≤ num_programs ft < u32_modulus →
  length (driver_vendor ft) = 128%nat → length (driver_renderer ft) = 128%nat →
  length (driver_version ft) = 128%nat →
  decode_footer (encode_footer ft) = ft.
Proof.
  intros Hv Hn H1 H2 H3. destruct ft as [v n a b c].
  unfold decode_footer, encode_footer.
  cbn [version num_programs driver_vendor driver_renderer driver_version] in *.
  f_equal.
  - apply decode_encode_u32. assumption.
  - rewrite drop_app_length' by reflexivity.
    apply decode_encode_u32. assumption.
  - rewrite app_assoc.
    rewrite drop_app_length'
      by (symmetry; rewrite length_app, !encode_u32_length; reflexivity).
    apply take_app_length'. symmetry. assumption.
  - rewrite 2!app_assoc.
    rewrite drop_app_length'
      by (symmetry; rewrite !length_app, !encode_u32_length, H1; reflexivity).
    apply take_app_length'. symmetry. assumption.
  - rewrite 3!app_assoc.
    rewrite drop_app_length'
      by (symmetry; rewrite !length_app, !encode_u32_length, H1, H2; reflexivity).
    apply take_ge. lia.
Qed.

Lemma encode_entry_length e :
  length (ProgramCacheKey_to_bytes (key e)) = 96%nat →
  length (encode_entry e) = 112%nat.
Proof.
  intros Hk. unfold encode_entry. rewrite !length_app, !encode_u32_length, Hk. reflexivity.
Qed.

Lemma decode_encode_entry e :
  ProgramCacheKey_of_bytes (ProgramCacheKey_to_bytes (key e)) = key e →
  length (ProgramCacheKey_to_bytes (key e)) = 96%nat →
  0 ≤ format e < u32_modulus → 0 ≤ offset e < u32_modulus →
  0 ≤ uncompressed_size e < u32_modulus → 0 ≤ compressed_size e < u32_modulus →
  decode_entry (encode_entry e) = e.
Proof.
  intros Hkey Hlen Hf Ho Hu Hc. destruct e as [k f o u c].
  unfold decode_entry, encode_entry.
  cbn [key format offset uncompressed_size compressed_size] in *.
  set (kb := ProgramCacheKey_to_bytes k) in *.
  f_equal.
  - rewrite take_app_length' by (symmetry; assumption). assumption.
  - rewrite drop_app_length' by (symmetry; assumption). apply decode_encode_u32. assumption.
  - rewrite app_assoc.
    rewrite drop_app_length'
      by (symmetry; rewrite length_app, encode_u32_length, Hlen; reflexivity).
    apply decode_encode_u32. assumption.
  - rewrite 2!app_assoc.
    rewrite drop_app_length'
      by (symmetry; rewrite !length_app, !encode_u32_length, Hlen; reflexivity).
    apply decode_encode_u32. assumption.
  - rewrite 3!app_assoc.
    rewrite drop_app_length'
      by (symmetry; rewrite !length_app, !encode_u32_length, Hlen; reflexivity).
    rewrite <- (app_nil_r (encode_u32 c)). apply decode_encode_u32. assumption.
Qed.

(** The index entries read back from where they were written. *)
Lemma entries_at_encoded (es : list PipelineDiskCacheIndexEntry) : ∀ pre post,
  Forall (λ e, decode_entry (encode_entry e) = e ∧ length (encode_entry e) = 112%nat) es →
  entries_at (pre ++ concat (encode_entry <$> es) ++ post) (length pre) (length es) = es.
Proof.
  induction es as [|e es IH]; intros pre post Hes; [reflexivity|].
  inversion Hes as [|? ? [Hdec Hlen] Hes']; subst.
  cbn [length]. rewrite entries_at_S. f_equal.
  - rewrite drop_app_length. cbn [fmap list_fmap concat]. rewrite <- app_assoc.
    rewrite take_app_length' by (symmetry; assumption). assumption.
  - cbn [fmap list_fmap concat]. rewrite <- app_assoc, (app_assoc pre).
    replace (length pre + 112)%nat with (length (pre ++ encode_entry e))
      by (rewrite length_app, Hlen; reflexivity).
    apply IH. assumption.
Qed.

Lemma insert_entries_lookup (es : list PipelineDiskCacheIndexEntry) :
  ∀ (m : gmap ProgramCacheKey ProgramCacheItem) k,
  NoDup (key <$> es) →
  insert_entries es m !! k
  = match list_find (λ e, key e = k) es with
    | Some (_, e) => Some (item_of_entry e)
    | None => m !! k
    end.
Proof.
  induction es as [|e es IH]; intros m k Hnodup; [reflexivity|].
  inversion Hnodup as [|? ? Hnotin Hnodup']; subst.
  unfold insert_entries. cbn [foldl]. fold (insert_entries es (<[key e := item_of_entry e]> m)).
  rewrite IH by assumption. cbn [list_find].
  destruct (decide (key e = k)) as [<-|Hne].
  - simpl. destruct (list_find _ es) as [[i e']|] eqn:Hfind.
    + apply list_find_Some in Hfind as (Hi & Hk & _).
      exfalso. apply Hnotin. rewrite list_elem_of_fmap. exists e'. split; [auto|].
      apply list_elem_of_lookup. eauto.
    + apply lookup_insert_eq.
  - destruct (list_find _ es) as [[i e']|]; simpl; [reflexivity|].
    apply lookup_insert_ne. assumption.
Qed.

(** What [ClosePipelineCache] writes when the store has changed and no
    stdio call fails. *)
Lemma ClosePipelineCache_writes d f :
  m_pipeline_disk_cache_changed d = true →
  m_pipeline_disk_cache_file d = Some f →
  io_script (world d) = [] →
  0 ≤ m_pipeline_disk_cache_data_end d →
  let entries := backed_entries (map_to_list (m_program_cache d)) in
  let footer :=
    with_num_programs (wrap32 (Z.of_nat (length entries)))
      (footer_of (m_shader_cache_version d) (gl (world d))) in
  ∃ d',
    ClosePipelineCache d = Some (tt, d')
    ∧ m_pipeline_disk_cache_file d' = None
    ∧ disk (world d')
      = <[f_path f :=
            write_at (Z.to_nat (m_pipeline_disk_cache_data_end d))
              (concat (encode_entry <$> entries) ++ encode_footer footer)
              (file_data f (world d))]> (disk (world d)).
Proof.
  intros Hchanged Hfile Hscript Hend.
  unfold ClosePipelineCache, close_body. mred. rewrite Hchanged. mred.
  rewrite Hfile, FSeek64_ok by assumption. mred.
  set (f0 := {| f_path := f_path f; f_pos := m_pipeline_disk_cache_data_end d |}).
  match goal with
  | |- context [write_entries ?l ?c ?d1] =>
      destruct (write_entries_run l c d1 f0)
        as (d2 & f2 & Hrun & Hfile2 & Hpath2 & Hpos2 & Hscript2 & Hgl2 & Hcache2
            & Hver2 & Hnext)
  end.
  { reflexivity. } { assumption. } { assumption. } { unfold u32_modulus. lia. }
  simpl in Hrun. rewrite Hrun. mred. rewrite Hver2. simpl.
  destruct (FillFooter_run (m_shader_cache_version d) d2) as [g Hfill].
  rewrite Hfill. mred. rewrite Hfile2. mred.
  rewrite Z.add_0_l.
  match goal with
  | |- context [fwrite f2 ?bs ?w] =>
      rewrite (fwrite_ok f2 bs w) by (assumption || apply encode_footer_nonempty);
      specialize (Hnext bs (encode_footer_nonempty _))
  end.
  mred.
  match goal with
  | |- context [file_closer ?d3] =>
      destruct (file_closer_run d3) as (d' & Hclose & Hfile' & Hworld & _)
  end.
  exists d'. cbv zeta. rewrite Hclose. split; [reflexivity|]. split; [assumption|].
  rewrite Hworld. simpl. simpl in Hnext. rewrite Hpath2.
  unfold file_data in Hnext |- *. simpl. simpl in Hnext.
  rewrite Hgl2 in Hnext |- *. simpl in Hnext |- *. exact Hnext.
Qed.

Lemma write_at_layout pos (bytes data : list byte) :
  (length data ≤ pos + length bytes)%nat →
  ∃ pre, write_at pos bytes data = pre ++ bytes ∧ length pre = pos.
Proof.
  intros Hlen. exists (take pos data ++ replicate (pos - length data) Byte.x00). split.
  - unfold write_at. rewrite drop_ge by lia. rewrite app_nil_r, app_assoc. reflexivity.
  - rewrite length_app, length_take, length_replicate. lia.
Qed.

Lemma backed_entries_elem (l : list (ProgramCacheKey * ProgramCacheItem)) e :
  e ∈ backed_entries l ↔
  ∃ k it, (k, it) ∈ l ∧ file_uncompressed_size it ≠ 0 ∧ e = entry_of_item k it.
Proof.
  unfold backed_entries. rewrite list_elem_of_fmap. split.
  - intros ([k it] & -> & Hin). apply list_elem_of_filter in Hin as [Hsize Hin].
    exists k, it. auto.
  - intros (k & it & Hin & Hsize & ->). exists (k, it). split; [reflexivity|].
    apply list_elem_of_filter. auto.
Qed.

Lemma backed_entries_keys (l : list (ProgramCacheKey * ProgramCacheItem)) :
  NoDup l.*1 → NoDup (key <$> backed_entries l).
Proof.
  induction l as [|[k it] l IH]; intros Hnodup; [constructor|].
  inversion Hnodup as [|? ? Hnotin Hnodup']; subst.
  unfold backed_entries. rewrite filter_cons. simpl.
  destruct (decide (file_uncompressed_size it ≠ 0)); [|apply IH; assumption].
  cbn [fmap list_fmap]. constructor; [|apply IH; assumption].
  simpl. intros Hin. apply Hnotin.
  apply list_elem_of_fmap in Hin as (e & Hk & He).
  apply backed_entries_elem in He as (k' & it' & Hin' & _ & ->). simpl in Hk. subst k'.
  apply list_elem_of_fmap. exists (k, it'). auto.
Qed.

(** X10.  What [ClosePipelineCache] writes, [ReadPipelineCache] reads
    back.  Take a store that has changed, with its file open, whose blobs
    lie before [m_pipeline_disk_cache_data_end], and no stdio failure.
    After the close, a session with the same shader cache version and the
    same driver strings and an empty program cache opens the file
    successfully, finds the end of the data where it was, and holds
    exactly the entries with a place in the file, each with its format,
    offset and sizes, handle 0 and no references. *)
Theorem ClosePipelineCache_ReadPipelineCache_roundtrip d f :
  let m := m_program_cache d in
  let data_end := m_pipeline_disk_cache_data_end d in
  let n := Z.of_nat (length (backed_entries (map_to_list m))) in
  m_pipeline_disk_cache_changed d = true →
  m_pipeline_disk_cache_file d = Some f →
  io_script (world d) = [] →
  0 ≤ data_end →
  Z.of_nat (length (file_data f (world d))) ≤ data_end + 112 * n + 392 →
  data_end + 112 * n + 392 < u32_max →
  0 ≤ m_shader_cache_version d < u32_modulus →
  (∀ k it, m !! k = Some it → file_uncompressed_size it ≠ 0 →
     ProgramCacheKey_of_bytes (ProgramCacheKey_to_bytes k) = k
     ∧ length (ProgramCacheKey_to_bytes k) = 96%nat
     ∧ 0 ≤ file_format it < u32_modulus
     ∧ 0 ≤ file_uncompressed_size it < u32_modulus
     ∧ 0 ≤ file_offset it ∧ 0 ≤ file_compressed_size it
     ∧ file_offset it + file_compressed_size it ≤ data_end) →
  ∃ d',
    ClosePipelineCache d = Some (tt, d')
    ∧ ∀ d2,
        disk (world d2) = disk (world d') →
        io_script (world d2) = [] →
        m_program_cache d2 = ∅ →
        m_shader_cache_version d2 = m_shader_cache_version d →
        footer_of (m_shader_cache_version d) (gl (world d2))
        = footer_of (m_shader_cache_version d) (gl (world d)) →
        ∃ d3,
          ReadPipelineCache (f_path f) d2 = Some (true, d3)
          ∧ m_pipeline_disk_cache_data_end d3 = data_end
          ∧ disk (world d3) = disk (world d2)
          ∧ ∀ k, m_program_cache d3 !! k
                 = match m !! k with
                   | Some it =>
                       if file_uncompressed_size it =? 0 then None
                       else Some (set_program_id 0 (set_reference_count 0 it))
                   | None => None
                   end.
Proof.
  intros m data_end n Hchanged Hfile Hscript Hend Hold Hsize Hver Hitems.
  destruct (ClosePipelineCache_writes d f Hchanged Hfile Hscript Hend)
    as (d' & Hclose & _ & Hdisk').
  cbv zeta in Hdisk'. fold m data_end in Hdisk'.
  exists d'. split; [assumption|].
  intros d2 Hdisk2 Hscript2 Hempty Hver2 Hdriver.
  set (es := backed_entries (map_to_list m)) in *.
  assert (Hn : wrap32 (Z.of_nat (length es)) = n).
  { apply wrap32_small. unfold n, u32_max in *. lia. }
  rewrite Hn in Hdisk'.
  set (footer := with_num_programs n
                   (footer_of (m_shader_cache_version d) (gl (world d)))) in *.
  destruct (footer_of_lengths (m_shader_cache_version d) (gl (world d)))
    as (Hl1 & Hl2 & Hl3 & Hfv).
  assert (Hflen : length (encode_footer footer) = 392%nat).
  { apply encode_footer_length; assumption. }
  (* the entries, one by one *)
  assert (Hes : Forall (λ e, decode_entry (encode_entry e) = e
                             ∧ length (encode_entry e) = 112%nat
                             ∧ offset e + compressed_size e ≤ data_end) es).
  { apply Forall_forall. intros e He.
    apply backed_entries_elem in He as (k & it & Hin & Hnz & ->).
    apply elem_of_map_to_list in Hin.
    destruct (Hitems k it Hin Hnz) as (Hkey & Hklen & Hf & Hu & Ho & Hc & Hblob).
    unfold u32_max in Hsize.
    split; [|split].
    - apply decode_encode_entry; simpl; try assumption; unfold u32_modulus in *; lia.
    - apply encode_entry_length. assumption.
    - assumption. }
  assert (Helen : length (concat (encode_entry <$> es)) = (112 * length es)%nat).
  { clear -Hes. induction Hes as [|e l (_ & Hlen & _) _ IH]; [reflexivity|].
    cbn [fmap list_fmap concat length]. rewrite length_app, Hlen, IH. lia. }
  (* the layout of the file *)
  destruct (write_at_layout (Z.to_nat data_end)
              (concat (encode_entry <$> es) ++ encode_footer footer)
              (file_data f (world d)))
    as (pre & Hdata & Hpre).
  { rewrite length_app, Helen, Hflen. unfold n in Hold. lia. }
  set (data := pre ++ concat (encode_entry <$> es) ++ encode_footer footer).
  rewrite Hdata in Hdisk'. fold data in Hdisk'.
  assert (Hlookup : disk (world d2) !! f_path f = Some data).
  { rewrite Hdisk2, Hdisk'. apply lookup_insert_eq. }
  assert (Hlen : Z.of_nat (length data) = data_end + 112 * n + 392).
  { unfold data. rewrite !length_app, Helen, Hflen, Hpre. unfold n. lia. }
  assert (Hftr : decode_footer (take 392 (drop (Z.to_nat (Z.of_nat (length data) - 392)) data))
                 = footer).
  { rewrite Hlen. unfold data. rewrite app_assoc.
    rewrite drop_app_length'
      by (rewrite length_app, Helen, Hpre; unfold n; lia).
    rewrite take_ge by lia.
    apply decode_encode_footer; try assumption.
    - unfold footer. cbn [version with_num_programs]. rewrite Hfv. assumption.
    - unfold footer. cbn [num_programs with_num_programs].
      unfold n, u32_max, u32_modulus in *. lia. }
  destruct (ReadPipelineCache_to_loop (f_path f) d2 data) as [g Hread].
  { assumption. } { assumption. }
  { rewrite Hlen. unfold n. lia. }
  { rewrite Hftr, Hver2, Hdriver. unfold footer_matches, footer.
    cbn [version driver_vendor driver_renderer driver_version with_num_programs].
    rewrite Z.eqb_refl, !strncmp_eq_refl. reflexivity. }
  { rewrite Hftr, Hlen. unfold footer. cbn [num_programs with_num_programs]. lia. }
  rewrite Hftr, Hlen in Hread. unfold footer in Hread.
  cbn [num_programs with_num_programs] in Hread.
  replace (data_end + 112 * n + 392 - 392 - 112 * n) with data_end in Hread by lia.
  set (d0 := set_file (Some {| f_path := f_path f; f_pos := data_end |})
               (set_data_end data_end
                  (set_world (set_gl g (world d2)) (set_filename (f_path f) d2)))) in Hread.
  pose proof (read_entries_run (data_end + 112 * n + 392) (Z.to_nat n) d0
                {| f_path := f_path f; f_pos := data_end |} eq_refl Hscript2 Hend) as Hloop.
  assert (Hdata0 : file_data {| f_path := f_path f; f_pos := data_end |} (world d0) = data).
  { unfold file_data. simpl. rewrite Hlookup. reflexivity. }
  rewrite Hdata0 in Hloop. cbn [f_pos f_path] in Hloop.
  change (m_program_cache d0) with (m_program_cache d2) in Hloop.
  specialize (Hloop ltac:(rewrite Hlen; lia)).
  assert (Hat : entries_at data (Z.to_nat data_end) (Z.to_nat n) = es).
  { unfold data, n. rewrite Nat2Z.id, <- Hpre. apply entries_at_encoded.
    eapply Forall_impl; [exact Hes|]. intros e (? & ? & ?). auto. }
  rewrite Hat, Hempty in Hloop.
  rewrite (scan_entries_good _ es ∅) in Hloop.
  2:{ intros e He. rewrite Forall_forall in Hes. destruct (Hes e He) as (_ & _ & Hblob). lia. }
  2:{ apply backed_entries_keys. apply NoDup_fst_map_to_list. }
  2:{ intros e _. apply lookup_empty. }
  eexists. rewrite Hread. split; [exact Hloop|]. cbn.
  split; [reflexivity|]. split; [reflexivity|].
  intros k. rewrite insert_entries_lookup by (apply backed_entries_keys, NoDup_fst_map_to_list).
  destruct (list_find (λ e, key e = k) es) as [[i e]|] eqn:Hfind.
  - apply list_find_Some in Hfind as (Hi & Hk & _).
    apply list_elem_of_lookup_2 in Hi.
    apply backed_entries_elem in Hi as (k0 & it & Hin & Hnz & ->).
    apply elem_of_map_to_list in Hin. simpl in Hk. subst k0. rewrite Hin.
    assert (Hnz' : (file_uncompressed_size it =? 0) = false) by lia.
    rewrite Hnz'. destruct it; reflexivity.
  - rewrite lookup_empty.
    destruct (m !! k) as [it|] eqn:Hk; [|reflexivity].
    destruct (file_uncompressed_size it =? 0) eqn:Hz; [reflexivity|].
    exfalso. apply Z.eqb_neq in Hz.
    pose proof (proj1 (list_find_None _ _) Hfind) as Hnone.
    rewrite Forall_forall in Hnone.
    apply (Hnone (entry_of_item k it)); [|reflexivity].
    apply backed_entries_elem. exists k, it. split; [|auto].
    apply elem_of_map_to_list. assumption.
Qed.

End DeviceProperties.

(** ** Vertex array objects and pipelines *)

Ltac pred :=
  repeat (progress
    (cbv beta iota zeta delta
       [mbind M_bind mret M_ret gets modify lift abort Assert
        gl_call gl_do os_call file_call store_shader deref_shader on_device];
     cbn [m_program_cache m_last_program m_pipeline_disk_cache_file
          m_pipeline_disk_cache_filename m_pipeline_disk_cache_data_end
          m_pipeline_disk_cache_changed m_features_dual_source_blend
          m_shader_cache_version shaders world
          set_program_cache set_last_program set_file set_filename set_data_end
          set_changed set_shaders set_world
          gl disk io_script s_next_bad_shader_id
          set_gl set_disk set_io_script set_next_bad_shader_id
          device m_vao_cache m_last_vao set_device set_vao_cache set_last_vao
          vao_id vao_reference_count set_vao_reference_count
          negb andb orb])).

Section PipelineProperties.
Context {G : Type} `{!GLDriver G} `{!GLVertexArrays G} `{!Externals}.
Implicit Types (s : PipelineDevice G).

Lemma with_gl_with_gl g g' s : with_gl g' (with_gl g s) = with_gl g' s.
Proof. reflexivity. Qed.

Lemma with_gl_same s : with_gl (gl (world (device s))) s = s.
Proof. destruct s as [[? ? ? ? ? ? ? ? ? [? ? ? ?]] ? ?]. reflexivity. Qed.

Lemma gl_only_ret {A} (a : A) : gl_only (G := G) (mret a).
Proof. intros s a' s' [= _ <-]. exists (gl (world (device s))). symmetry. apply with_gl_same. Qed.

Lemma gl_only_abort {A} : gl_only (G := G) (abort (A := A)).
Proof. intros s a s'. discriminate. Qed.

Lemma gl_only_bind {A B} (m : M (PipelineDevice G) A) (f : A → M (PipelineDevice G) B) :
  gl_only m → (∀ a, gl_only (f a)) → gl_only (m ≫= f).
Proof.
  intros Hm Hf s b s'. unfold mbind, M_bind.
  destruct (m s) as [[a s1]|] eqn:Hrun; [|discriminate].
  intros Hrest. destruct (Hm s a s1 Hrun) as [g1 ->].
  destruct (Hf a _ b s' Hrest) as [g2 ->]. exists g2. reflexivity.
Qed.

Lemma gl_only_gets {A} (f : PipelineDevice G → A) : gl_only (gets f).
Proof. intros s a s' [= _ <-]. exists (gl (world (device s))). symmetry. apply with_gl_same. Qed.

Lemma gl_only_gl_call {A} (f : G → A * G) : gl_only (on_device (gl_call f)).
Proof.
  intros s a s'. pred. destruct (f _) as [a0 g]. intros [= _ <-]. exists g. reflexivity.
Qed.

Lemma gl_only_gl_do (f : G → G) : gl_only (on_device (gl_do f)).
Proof. intros s a s'. pred. intros [= _ <-]. eexists. reflexivity. Qed.

Lemma gl_only_for_each {A} (l : list A) (body : A → M (PipelineDevice G) unit) :
  (∀ a, gl_only (body a)) → gl_only (for_each l body).
Proof.
  intros Hbody. induction l as [|a l IH]; simpl.
  - apply gl_only_ret.
  - apply gl_only_bind; [apply Hbody|intros _; apply IH].
Qed.

Lemma gl_only_bind_attribute stride i va : gl_only (bind_attribute stride i va).
Proof.
  unfold bind_attribute.
  destruct (if va_type va <? 0 then None else _) as [m|]; [|apply gl_only_abort].
  apply gl_only_bind; [apply gl_only_gl_do|]. intros _.
  destruct (integer m); apply gl_only_gl_do.
Qed.

Lemma CreateVAO_run attributes stride s v s' :
  CreateVAO attributes stride s = Some (v, s') →
  ∃ g, s' = with_gl g s
       ∧ (v ≠ 0 → ∃ g0, g = glBindVertexArray (m_last_vao s) g0).
Proof.
  unfold CreateVAO. pred.
  destruct (glGetError _) as [e0 g1]. pred.
  destruct (glGenVertexArrays _) as [vao g2]. pred.
  destruct (glGetError _) as [err g3]. pred.
  destruct (err =? GL_NO_ERROR); pred.
  2:{ intros [= <- <-]. exists g3. split; [reflexivity|]. intros []. reflexivity. }
  match goal with
  | |- context [for_each ?l ?body ?s0] =>
      destruct (for_each l body s0) as [[[] s2]|] eqn:Hloop; [|discriminate];
      apply gl_only_for_each in Hloop as [g4 ->];
        [|intros [i va]; apply gl_only_bind_attribute]
  end.
  pred. intros [= <- <-]. eexists. split; [reflexivity|]. intros _. eexists. reflexivity.
Qed.

Lemma CreateVAO_defined attributes stride s :
  Forall (λ va, 0 ≤ va_type va < 9) attributes →
  is_Some (CreateVAO attributes stride s).
Proof.
  intros Htypes. unfold CreateVAO. pred.
  destruct (glGetError _) as [e0 g1]. pred.
  destruct (glGenVertexArrays _) as [vao g2]. pred.
  destruct (glGetError _) as [err g3]. pred.
  destruct (err =? GL_NO_ERROR); pred; [|eexists; reflexivity].
  assert (Hloop : ∀ (l : list (Z * VertexAttribute)) s0,
            Forall (λ x, 0 ≤ va_type x.2 < 9) l →
            is_Some (for_each l (λ '(i, va), bind_attribute stride i va) s0)).
  { induction l as [|[i va] l IH]; intros s0 Hl; simpl; [eexists; reflexivity|].
    inversion Hl as [|? ? Hva Hl']; subst. simpl in Hva. unfold mbind, M_bind.
    assert (Hbody : ∃ s1, bind_attribute stride i va s0 = Some (tt, s1)).
    { unfold bind_attribute.
      assert (Hneg : (va_type va <? 0) = false) by lia. rewrite Hneg.
      destruct (format_mapping !! Z.to_nat (va_type va)) as [m|] eqn:Hm.
      - pred. destruct (integer m); pred; eexists; reflexivity.
      - apply lookup_ge_None in Hm. simpl in Hm. lia. }
    destruct Hbody as [s1 ->]. apply IH. assumption. }
  match goal with
  | |- context [for_each ?l ?body ?s0] =>
      destruct (Hloop l s0) as [[[] s2] ->]
  end.
  - clear Hloop.
    assert (Himap : ∀ f : nat → VertexAttribute → Z * VertexAttribute,
              (∀ i va, (f i va).2 = va) →
              Forall (λ x, 0 ≤ va_type x.2 < 9) (imap f attributes)).
    { induction Htypes as [|va l Hva Hl IH]; intros f Hf; simpl; constructor.
      - rewrite Hf. assumption.
      - apply IH. intros i va'. apply Hf. }
    apply Himap. reflexivity.
  - pred. eexists. reflexivity.
Qed.

(** The ways [LookupVAOCache] can go. *)
Lemma LookupVAOCache_cases key s v s' :
  LookupVAOCache key s = Some (v, s') →
  (∃ it, m_vao_cache s !! key = Some it ∧ v = vao_id it
         ∧ s' = set_vao_cache
                  (<[key := set_vao_reference_count (wrap32 (vao_reference_count it + 1)) it]>
                     (m_vao_cache s)) s)
  ∨ (m_vao_cache s !! key = None
     ∧ ∃ g, (v ≠ 0 → ∃ g0, g = glBindVertexArray (m_last_vao s) g0)
            ∧ s' = if v =? 0 then with_gl g s
                   else set_vao_cache
                          (<[key := {| vao_id := v; vao_reference_count := 1 |}]>
                             (m_vao_cache s)) (with_gl g s)).
Proof.
  unfold LookupVAOCache. pred.
  destruct (m_vao_cache s !! key) as [it|] eqn:Hk; pred.
  { intros [= <- <-]. left. exists it. auto. }
  destruct (_ <? _); [discriminate|].
  match goal with
  | |- context [CreateVAO ?a ?b s] =>
      destruct (CreateVAO a b s) as [[id s1]|] eqn:Hcreate; [|discriminate]
  end.
  apply CreateVAO_run in Hcreate as (g & -> & Hbind). pred.
  destruct (id =? 0) eqn:Hid; pred; intros [= <- <-]; right; (split; [reflexivity|]);
    exists g.
  - split; [|reflexivity]. intros Hne. contradiction.
  - rewrite Hid. split; [assumption|]. unfold vao_emplace. pred. rewrite Hk. reflexivity.
Qed.

(** X17.  [CreateVAO] changes the driver state only, and when it returns
    a vertex array object its last driver call binds [m_last_vao] again.
    It returns for every list of attributes whose types are in the format
    table.  A type outside the table is an access out of bounds, reached
    when the object could be generated. *)
Theorem CreateVAO_restores_binding attributes stride s :
  (∀ v s', CreateVAO attributes stride s = Some (v, s') →
     ∃ g, s' = with_gl g s
          ∧ (v ≠ 0 → ∃ g0, g = glBindVertexArray (m_last_vao s) g0))
  ∧ (Forall (λ va, 0 ≤ va_type va < 9) attributes →
     is_Some (CreateVAO attributes stride s))
  ∧ (∀ i va, attributes !! i = Some va → 9 ≤ va_type va →
     ∀ e0 g1 vao g2 g3,
       glGetError (gl (world (device s))) = (e0, g1) →
       glGenVertexArrays g1 = (vao, g2) →
       glGetError g2 = (GL_NO_ERROR, g3) →
       CreateVAO attributes stride s = None).
Proof.
  split; [|split].
  - intros v s'. apply CreateVAO_run.
  - apply CreateVAO_defined.
  - intros i va Hi Hbad e0 g1 vao g2 g3 Herr0 Hgen Herr1.
    unfold CreateVAO. pred. rewrite Herr0. pred. rewrite Hgen. pred. rewrite Herr1.
    change (GL_NO_ERROR =? GL_NO_ERROR) with true. pred.
    assert (Hloop : ∀ (l : list (Z * VertexAttribute)) s0,
              (∃ j x, l !! j = Some x ∧ 9 ≤ va_type x.2) →
              for_each l (λ '(i, va), bind_attribute stride i va) s0 = None).
    { induction l as [|[j0 va0] l IH]; intros s0 (j & x & Hj & Hx).
      { rewrite lookup_nil in Hj. discriminate. }
      simpl. unfold mbind, M_bind.
      destruct (bind_attribute stride j0 va0 s0) as [[[] s1]|] eqn:Hbody; [|reflexivity].
      apply IH. destruct j as [|j].
      - simpl in Hj. injection Hj as <-. simpl in Hx. exfalso. revert Hbody.
        unfold bind_attribute.
        assert (Hneg : (va_type va0 <? 0) = false) by lia. rewrite Hneg.
        rewrite (proj2 (lookup_ge_None format_mapping (Z.to_nat (va_type va0))))
          by (simpl; lia).
        discriminate.
      - exists j, x. auto. }
    rewrite Hloop; [reflexivity|].
    exists i, (Z.of_nat i, va). split; [|assumption].
    rewrite list_lookup_imap, Hi. reflexivity.
Qed.

(** X18.  [UnrefVAO] takes one reference away.  With references left
    only the count changes.  With the last one the vertex array object is
    deleted and its entry erased; if it was the bound one, it is unbound
    first and [m_last_vao] is 0. *)
Theorem UnrefVAO_release key it s :
  m_vao_cache s !! key = Some it →
  0 < vao_reference_count it < u32_modulus →
  ∃ s',
    UnrefVAO key s = Some (tt, s')
    ∧ (1 < vao_reference_count it →
         s' = set_vao_cache
                (<[key := set_vao_reference_count (vao_reference_count it - 1) it]>
                   (m_vao_cache s)) s)
    ∧ (vao_reference_count it = 1 →
         m_vao_cache s' = delete key (m_vao_cache s)
         ∧ m_last_vao s' = (if m_last_vao s =? vao_id it then 0 else m_last_vao s)
         ∧ s' = set_last_vao (m_last_vao s')
                  (set_vao_cache (delete key (m_vao_cache s))
                     (with_gl
                        (glDeleteVertexArrays (vao_id it)
                           (if m_last_vao s =? vao_id it
                            then glBindVertexArray 0 (gl (world (device s)))
                            else gl (world (device s)))) s))).
Proof.
  intros Hk Hrc. unfold UnrefVAO. pred. rewrite Hk.
  assert (Hpos : (0 <? vao_reference_count it) = true) by lia.
  rewrite Hpos. pred.
  rewrite (wrap32_small (vao_reference_count it - 1)) by lia.
  destruct (0 <? vao_reference_count it - 1) eqn:Hmore; pred.
  - eexists. split; [reflexivity|]. split; [reflexivity|]. lia.
  - destruct (m_last_vao s =? vao_id it) eqn:Hbound; pred.
    all: eexists; split; [reflexivity|]; split; [lia|]; intros _; pred.
    all: rewrite delete_insert_eq; repeat split.
Qed.

Lemma UnrefVAO_references key it s :
  m_vao_cache s !! key = Some it →
  0 < vao_reference_count it < u32_modulus →
  ∃ s', UnrefVAO key s = Some (tt, s')
        ∧ m_vao_cache s'
          = (if 0 <? vao_reference_count it - 1
             then <[key := set_vao_reference_count (vao_reference_count it - 1) it]>
                    (m_vao_cache s)
             else delete key (m_vao_cache s))
        ∧ m_program_cache (device s') = m_program_cache (device s).
Proof.
  intros Hk Hrc. unfold UnrefVAO. pred. rewrite Hk.
  assert (Hpos : (0 <? vao_reference_count it) = true) by lia.
  rewrite Hpos. pred.
  rewrite (wrap32_small (vao_reference_count it - 1)) by lia.
  destruct (0 <? vao_reference_count it - 1) eqn:Hmore; pred.
  - eexists. split; [reflexivity|]. split; reflexivity.
  - destruct (m_last_vao s =? vao_id it) eqn:Hbound; pred.
    all: eexists; split; [reflexivity|]; pred.
    all: rewrite delete_insert_eq; split; reflexivity.
Qed.

Lemma UnrefVAO_shared key it s :
  m_vao_cache s !! key = Some it →
  1 < vao_reference_count it < u32_modulus →
  UnrefVAO key s
  = Some (tt, set_vao_cache
                (<[key := set_vao_reference_count (vao_reference_count it - 1) it]>
                   (m_vao_cache s)) s).
Proof.
  intros Hk Hrc. unfold UnrefVAO. pred. rewrite Hk.
  assert (Hpos : (0 <? vao_reference_count it) = true) by lia.
  rewrite Hpos. pred.
  rewrite (wrap32_small (vao_reference_count it - 1)) by lia.
  assert (Hmore : (0 <? vao_reference_count it - 1) = true) by lia.
  rewrite Hmore. pred. reflexivity.
Qed.

(** X19.  Acquiring and releasing a vertex array object.  When
    [LookupVAOCache] returns an object, the entry of the key holds it with
    one reference more and no other entry has changed; [UnrefVAO] of the
    key then passes its [Assert] and leaves the cache as it was at first.
    For a key that had an entry the device as a whole is as it was. *)
Theorem LookupVAOCache_UnrefVAO_roundtrip key s v s1 :
  (∀ it, m_vao_cache s !! key = Some it → 0 < vao_reference_count it < u32_max) →
  LookupVAOCache key s = Some (v, s1) →
  v ≠ 0 →
  (∃ it, m_vao_cache s1 !! key = Some it ∧ vao_id it = v
         ∧ vao_reference_count it = vao_references key (m_vao_cache s) + 1)
  ∧ (∀ k', k' ≠ key → m_vao_cache s1 !! k' = m_vao_cache s !! k')
  ∧ ∃ s2, UnrefVAO key s1 = Some (tt, s2)
          ∧ m_vao_cache s2 = m_vao_cache s
          ∧ (is_Some (m_vao_cache s !! key) → s2 = s).
Proof.
  intros Hrange Hrun Hv.
  destruct (LookupVAOCache_cases key s v s1 Hrun)
    as [(it & Hk & -> & ->)|(Hk & g & Hbind & ->)].
  - specialize (Hrange it Hk). unfold u32_max in Hrange.
    rewrite (wrap32_small (vao_reference_count it + 1)) by lia.
    set (it1 := set_vao_reference_count (vao_reference_count it + 1) it).
    split; [|split].
    + exists it1. pred. rewrite lookup_insert_eq. unfold vao_references. rewrite Hk. auto.
    + intros k' Hne. pred. apply lookup_insert_ne. congruence.
    + eexists. split.
      { apply (UnrefVAO_shared key it1).
        - pred. apply lookup_insert_eq.
        - simpl. lia. }
      pred. rewrite insert_insert_eq.
      assert (Hback : set_vao_reference_count (vao_reference_count it1 - 1) it1 = it).
      { unfold it1, set_vao_reference_count. destruct it. simpl. f_equal. lia. }
      rewrite Hback, insert_id by assumption.
      split; [reflexivity|]. intros _. destruct s; reflexivity.
  - assert (Hnz : (v =? 0) = false) by lia. rewrite Hnz.
    set (it1 := {| vao_id := v; vao_reference_count := 1 |}).
    split; [|split].
    + exists it1. pred. rewrite lookup_insert_eq. unfold vao_references. rewrite Hk. auto.
    + intros k' Hne. pred. apply lookup_insert_ne. congruence.
    + destruct (UnrefVAO_references key it1
                  (set_vao_cache (<[key := it1]> (m_vao_cache s)) (with_gl g s)))
        as (s2 & Hunref & Hm2 & _).
      { pred. apply lookup_insert_eq. }
      { simpl. unfold u32_modulus. lia. }
      exists s2. split; [assumption|].
      rewrite Hm2. pred. rewrite delete_insert_eq, delete_id by assumption.
      split; [reflexivity|]. intros [it Hit]. congruence.
Qed.

(** X20.  No entry of the vertex array cache holds the object 0, and
    [LookupVAOCache] and [UnrefVAO] keep it so.  So [LookupVAOCache]
    returns 0 only for a key without entry whose object could not be
    created, and then the cache is unchanged. *)
Theorem vao_ids_nonzero_preserved s :
  vao_ids_nonzero (m_vao_cache s) →
  (∀ key v s', LookupVAOCache key s = Some (v, s') →
     vao_ids_nonzero (m_vao_cache s')
     ∧ (v = 0 → m_vao_cache s' = m_vao_cache s ∧ m_vao_cache s !! key = None))
  ∧ (∀ key s', UnrefVAO key s = Some (tt, s') → vao_ids_nonzero (m_vao_cache s')).
Proof.
  intros Hinv. split.
  - intros key v s' Hrun.
    destruct (LookupVAOCache_cases key s v s' Hrun)
      as [(it & Hk & -> & ->)|(Hk & g & Hbind & ->)].
    + split.
      * intros k' it'. pred. destruct (decide (key = k')) as [<-|Hne].
        -- rewrite lookup_insert_eq. intros [= <-]. apply (Hinv key it Hk).
        -- rewrite lookup_insert_ne by assumption. apply Hinv.
      * intros Hzero. exfalso. apply (Hinv key it Hk). assumption.
    + destruct (v =? 0) eqn:Hv.
      * split; [exact Hinv|]. intros _. auto.
      * apply Z.eqb_neq in Hv. split; [|contradiction].
        intros k' it'. pred. destruct (decide (key = k')) as [<-|Hne].
        -- rewrite lookup_insert_eq. intros [= <-]. assumption.
        -- rewrite lookup_insert_ne by assumption. apply Hinv.
  - intros key s'. unfold UnrefVAO. pred.
    destruct (m_vao_cache s !! key) as [it|] eqn:Hk; [|discriminate].
    destruct (0 <? vao_reference_count it); pred; [|discriminate].
    destruct (0 <? wrap32 (vao_reference_count it - 1)); pred.
    + intros [= <-]. pred. intros k' it'. destruct (decide (key = k')) as [<-|Hne].
      * rewrite lookup_insert_eq. intros [= <-]. apply (Hinv key it Hk).
      * rewrite lookup_insert_ne by assumption. apply Hinv.
    + destruct (m_last_vao s =? vao_id it); pred; intros [= <-]; pred.
      all: intros k' it'; rewrite delete_insert_eq.
      all: destruct (decide (key = k')) as [<-|Hne];
        [rewrite lookup_delete_eq; discriminate
        |rewrite lookup_delete_ne by assumption; apply Hinv].
Qed.

Section PipelineProps.
Context {RasterizationState DepthState BlendState : Type}.
Local Abbreviation Config :=
  (PipelineConfig (RasterizationState := RasterizationState) (DepthState := DepthState)
     (BlendState := BlendState)).
Local Abbreviation Pipeline :=
  (OpenGLPipeline (RasterizationState := RasterizationState) (DepthState := DepthState)
     (BlendState := BlendState)).

(** X21.  [CreatePipeline] takes one reference to the program of the
    key and one to the vertex array object of its layout, and hands both
    to the pipeline together with the states and the topology of the
    configuration.  When it returns no pipeline it holds no reference:
    the live references of every program are as before (the program is
    released again if the vertex array object could not be had) and the
    vertex array cache is unchanged. *)
Theorem CreatePipeline_references (config : Config) k s r s' :
  GetProgramCacheKey (shaders (device s)) (plconfig config) = Some k →
  unloaded_unreferenced (m_program_cache (device s)) →
  0 ≤ live_references k (m_program_cache (device s)) < u32_max →
  vao_ids_nonzero (m_vao_cache s) →
  (∀ it, m_vao_cache s !! va_key k = Some it → 0 ≤ vao_reference_count it < u32_max) →
  CreatePipeline config s = Some (r, s') →
  match r with
  | Some pl =>
      pl_key pl = k ∧ m_program pl ≠ 0 ∧ m_vao pl ≠ 0
      ∧ (∃ it, m_program_cache (device s') !! k = Some it ∧ program_id it = m_program pl)
      ∧ (∃ it, m_vao_cache s' !! va_key k = Some it ∧ vao_id it = m_vao pl)
      ∧ live_references k (m_program_cache (device s'))
        = live_references k (m_program_cache (device s)) + 1
      ∧ vao_references (va_key k) (m_vao_cache s')
        = vao_references (va_key k) (m_vao_cache s) + 1
      ∧ (∀ k', k' ≠ k →
           live_references k' (m_program_cache (device s'))
           = live_references k' (m_program_cache (device s)))
      ∧ (∀ k', k' ≠ va_key k → m_vao_cache s' !! k' = m_vao_cache s !! k')
      ∧ m_rasterization_state pl = rasterization config
      ∧ m_depth_state pl = depth config
      ∧ m_blend_state pl = blend config
      ∧ m_topology pl = primitives (primitive config)
  | None =>
      (∀ k', live_references k' (m_program_cache (device s'))
             = live_references k' (m_program_cache (device s)))
      ∧ m_vao_cache s' = m_vao_cache s
  end.
Proof.
  intros Hkey Hinv Hrange Hvinv Hvrange. unfold CreatePipeline. pred. rewrite Hkey. pred.
  destruct (LookupProgramCache k (plconfig config) (device s)) as [[p d1]|] eqn:Hlookup;
    [|discriminate].
  destruct (LookupProgramCache_counts k (plconfig config) (device s) p d1 Hinv Hrange Hlookup)
    as (Hrefs & Hothers & Hentry).
  pred. destruct (p =? 0) eqn:Hp; pred.
  { intros [= <- <-]. pred. split; [|reflexivity]. intros k'.
    destruct (decide (k' = k)) as [->|Hne]; [lia|auto]. }
  apply Z.eqb_neq in Hp. destruct (Hentry Hp) as (it & Hit & Hid & Hrc).
  match goal with
  | |- context [LookupVAOCache ?key ?s0] =>
      destruct (LookupVAOCache key s0) as [[v s1]|] eqn:Hvao; [|discriminate]
  end.
  destruct (LookupVAOCache_cases _ _ _ _ Hvao)
    as [(vit & Hvk & -> & ->)|(Hvk & g & Hbind & ->)]; revert Hvk; pred; intros Hvk.
  - (* the vertex array object is in the cache *)
    pose proof (Hvinv _ _ Hvk) as Hvid. pose proof (Hvrange _ Hvk) as Hvrc.
    assert (Hnz : (vao_id vit =? 0) = false) by lia. rewrite Hnz.
    intros [= <- <-]. pred. simpl.
    split; [reflexivity|]. split; [exact Hp|]. split; [exact Hvid|].
    split; [exists it; auto|].
    split; [eexists; rewrite lookup_insert_eq; split; reflexivity|].
    split; [lia|]. split.
    { unfold vao_references. rewrite lookup_insert_eq, Hvk. simpl.
      unfold u32_max in Hvrc. rewrite wrap32_small; lia. }
    split; [exact Hothers|]. split.
    { intros k' Hne. apply lookup_insert_ne. congruence. }
    repeat split.
  - destruct (v =? 0) eqn:Hv; pred.
    + (* no vertex array object: the program is released *)
      destruct (UnrefProgram_live_references k
                  (set_world (set_gl g (world d1)) d1) it Hit)
        as (d2 & Hunref & Hrefs2).
      { congruence. }
      { unfold u32_max in Hrange. lia. }
      unfold with_gl. pred. rewrite Hunref. intros [= <- <-]. pred. split; [|reflexivity].
      intros k'. rewrite Hrefs2. destruct (decide (k = k')) as [<-|Hne]; [lia|].
      apply Hothers. congruence.
    + apply Z.eqb_neq in Hv. intros [= <- <-]. pred. simpl.
      split; [reflexivity|]. split; [exact Hp|]. split; [exact Hv|].
      split; [exists it; auto|].
      split; [eexists; rewrite lookup_insert_eq; split; reflexivity|].
      split; [lia|]. split.
      { unfold vao_references. rewrite lookup_insert_eq, Hvk. reflexivity. }
      split; [exact Hothers|]. split.
      { intros k' Hne. apply lookup_insert_ne. congruence. }
      repeat split.
Qed.

(** X22.  Destroying a pipeline whose program and vertex array object
    are referenced in the caches gives back one reference to each, and to
    nothing else.  [UnbindPipeline] is assumed to return and to leave the
    two caches alone. *)
Theorem OpenGLPipeline_destroy_releases
    (UnbindPipeline : Pipeline → M (PipelineDevice G) unit) (pl : Pipeline) s pit vit :
  (∀ s0, ∃ s1, UnbindPipeline pl s0 = Some (tt, s1)
               ∧ m_vao_cache s1 = m_vao_cache s0
               ∧ m_program_cache (device s1) = m_program_cache (device s0)) →
  m_program_cache (device s) !! pl_key pl = Some pit →
  program_id pit ≠ 0 →
  0 < reference_count pit < u32_modulus →
  m_vao_cache s !! va_key (pl_key pl) = Some vit →
  0 < vao_reference_count vit < u32_modulus →
  ∃ s',
    OpenGLPipeline_destroy UnbindPipeline pl s = Some (tt, s')
    ∧ (∀ k', live_references k' (m_program_cache (device s'))
             = live_references k' (m_program_cache (device s))
               - (if decide (pl_key pl = k') then 1 else 0))
    ∧ (∀ k', vao_references k' (m_vao_cache s')
             = vao_references k' (m_vao_cache s)
               - (if decide (va_key (pl_key pl) = k') then 1 else 0)).
Proof.
  intros Hunbind Hpk Hpid Hprc Hvk Hvrc.
  destruct (Hunbind s) as (s1 & Hrun1 & Hvao1 & Hcache1).
  destruct (UnrefProgram_live_references (pl_key pl) (device s1) pit)
    as (d2 & Hunref & Hrefs); [congruence|assumption|assumption|].
  destruct (UnrefVAO_references (va_key (pl_key pl)) vit (set_device d2 s1))
    as (s3 & Hunrefv & Hvao3 & Hcache3); [pred; congruence|assumption|].
  exists s3. split.
  { unfold OpenGLPipeline_destroy. unfold mbind at 1, M_bind. rewrite Hrun1.
    pred. rewrite Hunref. exact Hunrefv. }
  split.
  - intros k'. rewrite Hcache3. pred. rewrite Hrefs.
    destruct (decide (pl_key pl = k')) as [<-|Hne].
    + unfold live_references. rewrite Hpk.
      destruct (program_id pit =? 0) eqn:E; lia.
    + rewrite Hcache1. lia.
  - intros k'. rewrite Hvao3. pred. rewrite Hvao1.
    unfold vao_references.
    destruct (decide (va_key (pl_key pl) = k')) as [<-|Hne].
    + rewrite Hvk. destruct (0 <? vao_reference_count vit - 1) eqn:Hmore.
      * rewrite lookup_insert_eq. simpl. lia.
      * rewrite lookup_delete_eq. lia.
    + destruct (0 <? vao_reference_count vit - 1).
      * rewrite lookup_insert_ne by assumption. lia.
      * rewrite lookup_delete_ne by assumption. lia.
Qed.
End PipelineProps.
End PipelineProperties.

(** * The properties on concrete inputs *)

Module Witnesses.
Import Stub Examples.

Lemma UnrefProgram_release_witness :
  (m_program_cache live_device !! key1 = Some live_item
   ∧ program_id live_item ≠ 0
   ∧ 0 < reference_count live_item < u32_modulus)
  ∧ ∃ d', UnrefProgram key1 live_device = Some (tt, d')
          ∧ calls (gl (world d')) = [DeleteProgram 5; UseProgram 0]
          ∧ m_last_program d' = 0
          ∧ m_program_cache d' !! key1
            = Some (set_program_id 0 (set_reference_count 0 live_item)).
Proof.
  assert (H1 : m_program_cache live_device !! key1 = Some live_item) by reflexivity.
  assert (H2 : program_id live_item ≠ 0) by (simpl; lia).
  assert (H3 : 0 < reference_count live_item < u32_modulus) by (vm_compute; split; reflexivity).
  split; [repeat split; assumption|].
  destruct (UnrefProgram_release key1 live_item live_device H1 H2 H3)
    as (d' & Hrun & _ & Hzero).
  destruct (Hzero eq_refl) as (Hgl & Hlast & _ & _ & Hkept & _).
  exists d'. split; [exact Hrun|]. split; [rewrite Hgl; reflexivity|].
  split; [rewrite Hlast; reflexivity|].
  rewrite Hkept by (simpl; lia). apply lookup_insert_eq.
Defined.


Lemma CreateProgramFromPipelineCache_witness :
  m_pipeline_disk_cache_file disk_device = Some {| f_path := "cache.bin"; f_pos := 0 |}
  ∧ ∃ r d', CreateProgramFromPipelineCache disk_item config1 disk_device = Some (r, d')
            ∧ r = 1
            ∧ calls (gl (world d'))
              = [UseProgram 0; UseProgram 1;
                 ProgramBinary 1 1 [Byte.x01; Byte.x02; Byte.x03]; CreateProgram 1].
Proof.
  assert (H1 : m_pipeline_disk_cache_file disk_device
               = Some {| f_path := "cache.bin"; f_pos := 0 |}) by reflexivity.
  split; [exact H1|].
  destruct (CreateProgramFromPipelineCache_steps disk_item config1 disk_device _ H1)
    as (r & d' & Hrun & _).
  exists r, d'. split; [exact Hrun|].
  vm_compute in Hrun. injection Hrun as <- <-. split; reflexivity.
Defined.


Lemma LookupProgramCache_compile_failure_witness :
  (m_program_cache failing_device !! key1 = None
   ∧ CompileProgram config1 failing_device = Some (0, failed_device))
  ∧ LookupProgramCache key1 config1 failing_device = Some (0, failed_device)
  ∧ m_program_cache failed_device = ∅
  ∧ calls (gl (world failed_device))
    = [DeleteProgram 3; LinkProgram 3; CreateProgram 3; CompileShader 2; CreateShader 2;
       CompileShader 1; CreateShader 1].
Proof.
  assert (H1 : m_program_cache failing_device !! key1 = None) by reflexivity.
  assert (H2 : CompileProgram config1 failing_device = Some (0, failed_device))
    by (vm_compute; reflexivity).
  split; [split; assumption|].
  destruct (LookupProgramCache_compile_failure key1 config1 failing_device failed_device
              H1 H2) as (Hrun & Hcache & _).
  split; [exact Hrun|]. split; [rewrite Hcache; reflexivity|].
  vm_compute. reflexivity.
Defined.

Lemma AddToPipelineCache_write_failure_witness :
  (m_pipeline_disk_cache_file faulty_device = Some {| f_path := "cache.bin"; f_pos := 0 |}
   ∧ glGetProgramiv (program_id new_item) GL_PROGRAM_BINARY_LENGTH (gl (world faulty_device))
     = (3, gl0)
   ∧ 3 ≠ 0
   ∧ glGetProgramBinary (program_id new_item) 3 gl0
     = ((3, 1, [Byte.x01; Byte.x02; Byte.x03]), gl0)
   ∧ zstd_compress (take (Z.to_nat 3) [Byte.x01; Byte.x02; Byte.x03]) = Some blob1)
  ∧ ∃ d', AddToPipelineCache new_item faulty_device
          = Some (set_file_location 1 0 3 4 new_item, d')
          ∧ m_pipeline_disk_cache_data_end d' = 4
          ∧ m_pipeline_disk_cache_changed d' = true
          ∧ disk (world d') !! "cache.bin" = Some [].
Proof.
  assert (H1 : m_pipeline_disk_cache_file faulty_device
               = Some {| f_path := "cache.bin"; f_pos := 0 |}) by reflexivity.
  assert (H2 : glGetProgramiv (program_id new_item) GL_PROGRAM_BINARY_LENGTH
                 (gl (world faulty_device)) = (3, gl0)) by reflexivity.
  assert (H3 : 3 ≠ 0) by lia.
  assert (H4 : glGetProgramBinary (program_id new_item) 3 gl0
               = ((3, 1, [Byte.x01; Byte.x02; Byte.x03]), gl0)) by reflexivity.
  assert (H5 : zstd_compress (take (Z.to_nat 3) [Byte.x01; Byte.x02; Byte.x03])
               = Some blob1) by reflexivity.
  split; [repeat split; assumption|].
  destruct (AddToPipelineCache_write_failure new_item faulty_device _ 3 gl0 3 1
              [Byte.x01; Byte.x02; Byte.x03] gl0 blob1 H1 H2 H3 H4 H3 H5)
    as (d' & Hrun & Hend & Hchanged & _ & Hdisk & _).
  exists d'. split; [exact Hrun|]. split; [exact Hend|]. split; [exact Hchanged|].
  rewrite Hdisk; [reflexivity|].
  intros f1 w1 Hseek. vm_compute in Hseek. discriminate.
Defined.

Lemma ReadPipelineCache_index_witness :
  (disk (world (closed_device corrupt_file)) !! "cache.bin" = Some corrupt_file
   ∧ io_script (world (closed_device corrupt_file)) = []
   ∧ 392 ≤ Z.of_nat (length corrupt_file) < u32_max
   ∧ entries_at corrupt_file 4 2 !! 1%nat = Some entry2
   ∧ Z.of_nat (length corrupt_file) ≤ offset entry2 + compressed_size entry2)
  ∧ ∃ d', ReadPipelineCache "cache.bin" (closed_device corrupt_file) = Some (true, d')
          ∧ m_program_cache d' = ∅
          ∧ disk (world d') !! "cache.bin" = Some []
          ∧ m_pipeline_disk_cache_data_end d' = 0.
Proof.
  assert (H1 : disk (world (closed_device corrupt_file)) !! "cache.bin" = Some corrupt_file)
    by reflexivity.
  assert (H2 : io_script (world (closed_device corrupt_file)) = []) by reflexivity.
  assert (H3 : 392 ≤ Z.of_nat (length corrupt_file) < u32_max)
    by (vm_compute; split; discriminate || reflexivity).
  assert (H4 : entries_at corrupt_file 4 2 !! 1%nat = Some entry2)
    by (vm_compute; reflexivity).
  assert (H5 : Z.of_nat (length corrupt_file) ≤ offset entry2 + compressed_size entry2)
    by (vm_compute; discriminate).
  split; [repeat split; try assumption; apply H3|].
  destruct (ReadPipelineCache_index "cache.bin" (closed_device corrupt_file) corrupt_file
              H1 H2 H3) as [_ Hbad].
  { vm_compute. reflexivity. }
  { vm_compute. discriminate. }
  destruct Hbad as (d' & Hrun & _ & _ & Hempty & Hdisk & Hend & _).
  { exists 1%nat, entry2. split; [exact H4 | left; exact H5]. }
  exists d'. split; [exact Hrun|]. split; [apply Hempty; reflexivity|].
  split; [rewrite Hdisk; apply lookup_insert_eq | exact Hend].
Defined.

Lemma ClosePipelineCache_flushes_witness :
  (m_pipeline_disk_cache_changed dirty_device = true
   ∧ m_pipeline_disk_cache_file dirty_device = Some {| f_path := "cache.bin"; f_pos := 4 |}
   ∧ io_script (world dirty_device) = []
   ∧ 0 ≤ m_pipeline_disk_cache_data_end dirty_device)
  ∧ ∃ d', ClosePipelineCache dirty_device = Some (tt, d')
          ∧ m_pipeline_disk_cache_file d' = None
          ∧ disk (world d') !! "cache.bin"
            = Some (blob1
                    ++ encode_entry
                         {| key := key1; format := 1; offset := 0; uncompressed_size := 3;
                            compressed_size := 4 |}
                    ++ encode_footer (footer1 1)).
Proof.
  assert (H1 : m_pipeline_disk_cache_changed dirty_device = true) by reflexivity.
  assert (H2 : m_pipeline_disk_cache_file dirty_device
               = Some {| f_path := "cache.bin"; f_pos := 4 |}) by (vm_compute; reflexivity).
  assert (H3 : io_script (world dirty_device) = []) by reflexivity.
  assert (H4 : 0 ≤ m_pipeline_disk_cache_data_end dirty_device) by (vm_compute; discriminate).
  split; [repeat split; assumption|].
  destruct (ClosePipelineCache_flushes dirty_device) as (_ & _ & Hdirty & _).
  destruct (Hdirty H1 _ H2 H3 H4) as (d' & Hrun & Hfile & Hdisk).
  exists d'. split; [exact Hrun|]. split; [exact Hfile|].
  rewrite Hdisk. vm_compute. reflexivity.
Defined.

Lemma CreateShaderFromSource_defers_compile_witness :
  CreateShaderFromSource Vertex "void main(){}" "vs_main" device0 = Some (None, device0)
  ∧ ∃ p d', CreateShaderFromSource Vertex "void main(){}" "main" device0 = Some (Some p, d')
            ∧ calls (gl (world d')) = []
            ∧ (m_compile_tried <$> shaders d' !! p) = Some false.
Proof.
  split.
  - apply (CreateShaderFromSource_defers_compile Vertex "void main(){}" "vs_main" device0).
    discriminate.
  - destruct (CreateShaderFromSource_defers_compile Vertex "void main(){}" "main" device0)
      as [_ Hmain].
    destruct (Hmain eq_refl) as (p & sh & d' & Hrun & _ & Hheap & Hworld & _ & _ & _ & Htried & _).
    exists p, d'. split; [exact Hrun|]. split; [rewrite Hworld; reflexivity|].
    rewrite Hheap, lookup_insert_eq. simpl. rewrite Htried. reflexivity.
Defined.

(** C5 as stated does not hold: in a session that ran an invalidation
    (opening a missing cache file runs [DiscardPipelineCache], which creates
    the file empty) and no add, [ClosePipelineCache] writes neither index
    nor footer, and the file stays empty. *)
Lemma ClosePipelineCache_after_invalidation :
  (∃ d0, DiscardPipelineCache d0 = Some (true, invalidated_device)
         ∧ ReadPipelineCache "cache.bin" device0 = Some (true, invalidated_device))
  ∧ ClosePipelineCache invalidated_device = Some (tt, closed_invalidated_device)
  ∧ disk (world closed_invalidated_device) !! "cache.bin" = Some []
  ∧ ¬ ∃ blobs footer,
        disk (world closed_invalidated_device) !! "cache.bin"
        = Some (blobs ++ encode_footer footer).
Proof.
  split; [|split; [|split]].
  - exists (set_filename "cache.bin" device0). split; vm_compute; reflexivity.
  - vm_compute. reflexivity.
  - vm_compute. reflexivity.
  - intros (blobs & footer & Hfile).
    assert (Hempty : disk (world closed_invalidated_device) !! "cache.bin" = Some [])
      by (vm_compute; reflexivity).
    rewrite Hempty in Hfile. injection Hfile as Hfile.
    symmetry in Hfile. apply app_eq_nil in Hfile as [_ Hfooter].
    unfold encode_footer in Hfooter. discriminate.
Qed.

(** C2 does not hold of the code: an index entry whose sizes are zero
    passes the checks of [ReadPipelineCache] and becomes an entry with
    handle 0 and no place in the file.  [LookupProgramCache] then finds the
    entry, can neither load nor compile it, and returns 0 each time. *)
Theorem ReadPipelineCache_accepts_empty_entry :
  ReadPipelineCache "cache.bin" (closed_device zero_size_file)
  = Some (true, after_read zero_size_file)
  ∧ m_program_cache (after_read zero_size_file) !! key1
    = Some {| program_id := 0; reference_count := 0; file_format := 1; file_offset := 0;
              file_uncompressed_size := 0; file_compressed_size := 0 |}
  ∧ ∀ plconfig,
      LookupProgramCache key1 plconfig (after_read zero_size_file)
      = Some (0, after_read zero_size_file).
Proof.
  split; [vm_compute; reflexivity|].
  assert (Hentry : m_program_cache (after_read zero_size_file) !! key1
                   = Some {| program_id := 0; reference_count := 0; file_format := 1;
                             file_offset := 0; file_uncompressed_size := 0;
                             file_compressed_size := 0 |}) by (vm_compute; reflexivity).
  split; [exact Hentry|].
  intros plconfig. unfold LookupProgramCache. mred. rewrite Hentry. mred.
  change ((0 =? 0) && (0 <? 0)) with false. mred.
  unfold lookup_hit. mred. rewrite Hentry. mred. reflexivity.
Qed.

End Witnesses.

(** ** Witnesses of the further properties *)

Module PipelineWitnesses.
Import Stub Examples StubVertexArrays PipelineExamples.

Lemma LookupProgramCache_UnrefProgram_live_witness :
  (m_program_cache live_device !! key1 = Some live_item
   ∧ program_id live_item ≠ 0
   ∧ 0 < reference_count live_item < u32_max)
  ∧ (LookupProgramCache key1 config1 ≫= λ _, UnrefProgram key1) live_device
    = Some (tt, live_device).
Proof.
  assert (H1 : m_program_cache live_device !! key1 = Some live_item) by reflexivity.
  assert (H2 : program_id live_item ≠ 0) by discriminate.
  assert (H3 : 0 < reference_count live_item < u32_max) by (split; reflexivity).
  split; [auto|].
  apply (proj1 (LookupProgramCache_UnrefProgram_live key1 config1 live_item live_device
                  H1 H2)).
  exact H3.
Defined.

Lemma LookupProgramCache_reference_balance_witness :
  (unloaded_unreferenced (m_program_cache (open_device []))
   ∧ 0 ≤ live_references key1 (m_program_cache (open_device [])) < u32_max
   ∧ LookupProgramCache key1 config1 (open_device []) = Some (3, dirty_device))
  ∧ live_references key1 (m_program_cache dirty_device) = 1
  ∧ ∃ d2, UnrefProgram key1 dirty_device = Some (tt, d2)
          ∧ live_references key1 (m_program_cache d2) = 0.
Proof.
  assert (H1 : unloaded_unreferenced (m_program_cache (open_device []))).
  { intros k it Hk. discriminate Hk. }
  assert (H2 : 0 ≤ live_references key1 (m_program_cache (open_device [])) < u32_max).
  { split; [discriminate|reflexivity]. }
  assert (H3 : LookupProgramCache key1 config1 (open_device []) = Some (3, dirty_device)).
  { vm_compute. reflexivity. }
  split; [auto|].
  destruct (LookupProgramCache_reference_balance key1 config1 (open_device []) 3
              dirty_device H1 H2 H3) as (Hcount & _ & Hrelease).
  split; [exact Hcount|].
  destruct Hrelease as (_ & d2 & Hunref & Hrefs); [discriminate|].
  exists d2. split; [exact Hunref|]. apply Hrefs.
Defined.

Lemma live_referenced_preserved_witness :
  live_referenced (m_program_cache live_device)
  ∧ ∀ d', UnrefProgram key1 live_device = Some (tt, d') →
          live_referenced (m_program_cache d').
Proof.
  assert (H1 : live_referenced (m_program_cache live_device)).
  { intros k it Hk _. unfold live_device in Hk.
    cbn [m_program_cache set_program_cache set_last_program] in Hk.
    apply lookup_singleton_Some in Hk as [_ <-]. reflexivity. }
  split; [exact H1|].
  apply (live_referenced_preserved live_device H1).
Defined.

Lemma unloaded_unreferenced_preserved_witness :
  unloaded_unreferenced (m_program_cache disk_device)
  ∧ ∀ p d', LookupProgramCache key1 config1 disk_device = Some (p, d') →
            unloaded_unreferenced (m_program_cache d').
Proof.
  assert (H1 : unloaded_unreferenced (m_program_cache disk_device)).
  { intros k it Hk _. unfold disk_device in Hk.
    cbn [m_program_cache set_program_cache] in Hk.
    apply lookup_singleton_Some in Hk as [_ <-]. reflexivity. }
  split; [exact H1|].
  apply (unloaded_unreferenced_preserved disk_device H1).
Defined.

Lemma unloaded_backed_preserved_witness :
  unloaded_backed (m_program_cache disk_device)
  ∧ ∀ p d', LookupProgramCache key1 config1 disk_device = Some (p, d') →
            unloaded_backed (m_program_cache d').
Proof.
  assert (H1 : unloaded_backed (m_program_cache disk_device)).
  { intros k it Hk _. unfold disk_device in Hk.
    cbn [m_program_cache set_program_cache] in Hk.
    apply lookup_singleton_Some in Hk as [_ <-]. discriminate. }
  split; [exact H1|].
  apply (unloaded_backed_preserved disk_device H1).
Defined.

Lemma ReadPipelineCache_missing_file_witness :
  (io_script (world device0) = [] ∧ disk (world device0) !! "cache.bin" = None)
  ∧ ∃ d', ReadPipelineCache "cache.bin" device0 = Some (true, d')
          ∧ disk (world d') = {[ "cache.bin" := [] ]}
          ∧ m_pipeline_disk_cache_file d' = Some {| f_path := "cache.bin"; f_pos := 0 |}.
Proof.
  assert (H1 : io_script (world device0) = []) by reflexivity.
  assert (H2 : disk (world device0) !! "cache.bin" = None) by reflexivity.
  split; [auto|].
  destruct (ReadPipelineCache_missing_file "cache.bin" device0 H1 H2)
    as (d' & Hrun & Hdisk & Hfile & _).
  exists d'. split; [exact Hrun|]. split; [|exact Hfile].
  rewrite Hdisk. reflexivity.
Defined.

Lemma ReadPipelineCache_open_error_witness :
  (io_script (world locked_device) = [IoFail EACCES] ∧ EACCES ≠ ENOENT)
  ∧ ReadPipelineCache "cache.bin" locked_device = Some (true, device0)
  ∧ ClosePipelineCache device0 = Some (tt, device0).
Proof.
  assert (H1 : io_script (world locked_device) = [IoFail EACCES]) by reflexivity.
  assert (H2 : EACCES ≠ ENOENT) by discriminate.
  split; [auto|].
  destruct (ReadPipelineCache_open_error "cache.bin" locked_device EACCES [] H1 H2)
    as [Hrun Hclose].
  split; [exact Hrun|]. apply Hclose. reflexivity.
Defined.

Lemma ReadPipelineCache_rejects_witness :
  (disk (world (closed_device overcounted_file)) !! "cache.bin" = Some overcounted_file
   ∧ io_script (world (closed_device overcounted_file)) = []
   ∧ Z.of_nat (length overcounted_file) - 392
     < 112 * num_programs
               (decode_footer
                  (take 392 (drop (Z.to_nat (Z.of_nat (length overcounted_file) - 392))
                               overcounted_file))))
  ∧ ∃ d', ReadPipelineCache "cache.bin" (closed_device overcounted_file) = Some (true, d')
          ∧ disk (world d') = {[ "cache.bin" := [] ]}
          ∧ m_program_cache d' = ∅.
Proof.
  assert (H1 : disk (world (closed_device overcounted_file)) !! "cache.bin"
               = Some overcounted_file) by reflexivity.
  assert (H2 : io_script (world (closed_device overcounted_file)) = []) by reflexivity.
  assert (H3 : Z.of_nat (length overcounted_file) - 392
               < 112 * num_programs
                         (decode_footer
                            (take 392
                               (drop (Z.to_nat (Z.of_nat (length overcounted_file) - 392))
                                  overcounted_file)))) by (vm_compute; reflexivity).
  split; [auto|].
  destruct (ReadPipelineCache_rejects "cache.bin" (closed_device overcounted_file)
              overcounted_file H1 H2 (or_intror (or_intror (or_intror H3))))
    as (d' & Hrun & Hdisk & _ & _ & _ & Hcache).
  exists d'. split; [exact Hrun|]. split.
  - rewrite Hdisk. vm_compute. reflexivity.
  - rewrite Hcache. reflexivity.
Defined.

Lemma AddToPipelineCache_no_binary_witness :
  glGetProgramiv (program_id new_item) GL_PROGRAM_BINARY_LENGTH (gl (world failing_device))
  = (0, failing_gl)
  ∧ AddToPipelineCache new_item failing_device = Some (new_item, failing_device).
Proof.
  assert (H1 : glGetProgramiv (program_id new_item) GL_PROGRAM_BINARY_LENGTH
                 (gl (world failing_device)) = (0, failing_gl)) by reflexivity.
  split; [exact H1|].
  apply (proj1 (AddToPipelineCache_no_binary new_item failing_device 0 failing_gl H1)).
  reflexivity.
Defined.

Lemma AddToPipelineCache_then_load_witness :
  (m_pipeline_disk_cache_file (open_device []) = Some {| f_path := "cache.bin"; f_pos := 0 |}
   ∧ io_script (world (open_device [])) = []
   ∧ zstd_compress (take 3 (binary gl0)) = Some blob1
   ∧ zstd_decompress blob1 = Some (take 3 (binary gl0)))
  ∧ ∃ it' d1 d2,
      AddToPipelineCache linked_item (open_device []) = Some (it', d1)
      ∧ disk (world d1) = {[ "cache.bin" := blob1 ]}
      ∧ CreateProgramFromPipelineCache it' config1 d1 = Some (1, d2).
Proof.
  assert (H1 : m_pipeline_disk_cache_file (open_device [])
               = Some {| f_path := "cache.bin"; f_pos := 0 |}) by reflexivity.
  assert (H2 : io_script (world (open_device [])) = []) by reflexivity.
  assert (H3 : zstd_compress (take 3 (binary gl0)) = Some blob1) by reflexivity.
  assert (H4 : zstd_decompress blob1 = Some (take 3 (binary gl0))) by reflexivity.
  split; [auto|].
  edestruct (AddToPipelineCache_then_load linked_item config1 (open_device [])
               {| f_path := "cache.bin"; f_pos := 0 |} 3 gl0 3 1 (binary gl0) gl0 blob1)
    as (it' & d1 & d2 & Hadd & _ & _ & _ & Hdisk & Hload & _).
  - exact H1.
  - exact H2.
  - discriminate.
  - reflexivity.
  - discriminate.
  - reflexivity.
  - split; reflexivity.
  - discriminate.
  - exact H3.
  - discriminate.
  - reflexivity.
  - exact H4.
  - reflexivity.
  - reflexivity.
  - reflexivity.
  - reflexivity.
  - exists it', d1, d2. split; [exact Hadd|]. split; [|exact Hload].
    rewrite Hdisk. vm_compute. reflexivity.
Defined.

Lemma program_binding_restored_witness :
  UseGLSLBindingLayout = false
  ∧ ∃ g, PostLinkProgram config1 3 device0
         = Some (tt, set_world (set_gl (glUseProgram 0 g) world0) device0).
Proof.
  assert (H1 : UseGLSLBindingLayout = false) by reflexivity.
  split; [exact H1|].
  apply (proj1 (program_binding_restored config1 H1) 3 device0).
Defined.

Lemma OpenGLShader_Compile_once_witness :
  (shaders shader_device !! 0%nat = Some vs_object
   ∧ (m_compile_tried vs_object = false → m_id vs_object = None)
   ∧ OpenGLShader_Compile 0 shader_device = Some (true, compiled_device))
  ∧ OpenGLShader_Compile 0 compiled_device = Some (true, compiled_device).
Proof.
  assert (H1 : shaders shader_device !! 0%nat = Some vs_object) by reflexivity.
  assert (H2 : m_compile_tried vs_object = false → m_id vs_object = None)
    by (intros _; reflexivity).
  assert (H3 : OpenGLShader_Compile 0 shader_device = Some (true, compiled_device))
    by (vm_compute; reflexivity).
  split; [auto|].
  apply (OpenGLShader_Compile_once 0%nat vs_object shader_device true compiled_device
           H1 H2 H3).
Defined.

Lemma OpenGLShader_Compile_failure_dump_witness :
  (shaders broken_device !! 0%nat = Some vs_object
   ∧ m_compile_tried vs_object = false
   ∧ io_script (world broken_device) = [])
  ∧ ∃ d', OpenGLShader_Compile 0 broken_device = Some (false, d')
          ∧ s_next_bad_shader_id (world d') = 2
          ∧ disk (world d') !! "dump/bad_shader_1.txt"
            = Some (String.list_byte_of_string
                      ("void main(){}" +:+ newline +:+ newline
                         +:+ "Compile Vertex shader failed" +:+ newline)).
Proof.
  assert (H1 : shaders broken_device !! 0%nat = Some vs_object) by reflexivity.
  assert (H2 : m_compile_tried vs_object = false) by reflexivity.
  assert (H3 : io_script (world broken_device) = []) by reflexivity.
  split; [auto|].
  edestruct (OpenGLShader_Compile_failure_dump 0%nat vs_object broken_device)
    as (d' & Hrun & _ & _ & Hid & Hdisk & _).
  - exact H1.
  - exact H2.
  - exact H3.
  - reflexivity.
  - reflexivity.
  - reflexivity.
  - reflexivity.
  - reflexivity.
  - reflexivity.
  - exists d'. split; [exact Hrun|]. split; [exact Hid|].
    rewrite Hdisk. vm_compute. reflexivity.
Defined.

Lemma ClosePipelineCache_ReadPipelineCache_roundtrip_witness :
  (m_pipeline_disk_cache_changed dirty_device = true
   ∧ m_pipeline_disk_cache_file dirty_device = Some {| f_path := "cache.bin"; f_pos := 4 |}
   ∧ io_script (world dirty_device) = []
   ∧ m_pipeline_disk_cache_data_end dirty_device = 4
   ∧ m_program_cache dirty_device
     = {[ key1 := set_file_location 1 0 3 4 linked_item ]})
  ∧ ∃ d3, ReadPipelineCache "cache.bin" next_session = Some (true, d3)
          ∧ m_pipeline_disk_cache_data_end d3 = 4
          ∧ m_program_cache d3 !! key1 = Some disk_item.
Proof.
  assert (H1 : m_pipeline_disk_cache_changed dirty_device = true) by (vm_compute; reflexivity).
  assert (H2 : m_pipeline_disk_cache_file dirty_device
               = Some {| f_path := "cache.bin"; f_pos := 4 |}) by (vm_compute; reflexivity).
  assert (H3 : io_script (world dirty_device) = []) by (vm_compute; reflexivity).
  assert (H4 : m_pipeline_disk_cache_data_end dirty_device = 4) by (vm_compute; reflexivity).
  assert (H5 : m_program_cache dirty_device
               = {[ key1 := set_file_location 1 0 3 4 linked_item ]})
    by reflexivity.
  split; [auto|].
  destruct (ClosePipelineCache_ReadPipelineCache_roundtrip dirty_device
              {| f_path := "cache.bin"; f_pos := 4 |}) as (d' & Hclose & Hnext).
  - exact H1.
  - exact H2.
  - exact H3.
  - rewrite H4; discriminate.
  - vm_compute; discriminate.
  - vm_compute; reflexivity.
  - split; [vm_compute; discriminate|vm_compute; reflexivity].
  - intros k it Hk Hnz. rewrite H5 in Hk. apply lookup_singleton_Some in Hk as [<- <-].
    rewrite H4. vm_compute. repeat split; try reflexivity; discriminate.
  - assert (Hd' : closed_dirty_device = d').
    { unfold closed_dirty_device. rewrite Hclose. reflexivity. }
    destruct (Hnext next_session) as (d3 & Hread & Hend & _ & Hcache).
    + rewrite <- Hd'. vm_compute; reflexivity.
    + vm_compute; reflexivity.
    + vm_compute; reflexivity.
    + vm_compute; reflexivity.
    + vm_compute; reflexivity.
    + exists d3. split; [exact Hread|]. split; [rewrite Hend; exact H4|].
      rewrite Hcache, H5, lookup_singleton_eq. reflexivity.
Defined.

Lemma UnrefVAO_release_witness :
  (m_vao_cache vao_device !! va_key key3 = Some vao_item
   ∧ 0 < vao_reference_count vao_item < u32_modulus)
  ∧ ∃ s', UnrefVAO (va_key key3) vao_device = Some (tt, s')
          ∧ m_vao_cache s' = ∅ ∧ m_last_vao s' = 0.
Proof.
  assert (H1 : m_vao_cache vao_device !! va_key key3 = Some vao_item)
    by apply lookup_singleton_eq.
  assert (H2 : 0 < vao_reference_count vao_item < u32_modulus) by (split; reflexivity).
  split; [auto|].
  destruct (UnrefVAO_release (va_key key3) vao_item vao_device H1 H2)
    as (s' & Hrun & _ & Hlast).
  destruct (Hlast eq_refl) as (Hcache & Hvao & _).
  exists s'. split; [exact Hrun|]. split.
  - rewrite Hcache. apply delete_singleton_eq.
  - rewrite Hvao. reflexivity.
Defined.

Lemma LookupVAOCache_UnrefVAO_roundtrip_witness :
  ∃ s1 s2,
    LookupVAOCache (va_key key3) pipeline_device0 = Some (1, s1)
    ∧ m_vao_cache s1 !! va_key key3 = Some {| vao_id := 1; vao_reference_count := 1 |}
    ∧ UnrefVAO (va_key key3) s1 = Some (tt, s2)
    ∧ m_vao_cache s2 = ∅.
Proof.
  assert (H1 : ∀ it, m_vao_cache pipeline_device0 !! va_key key3 = Some it →
                     0 < vao_reference_count it < u32_max).
  { intros it Hit. discriminate Hit. }
  assert (H2 : ∃ s1, LookupVAOCache (va_key key3) pipeline_device0 = Some (1, s1))
    by (eexists; vm_compute; reflexivity).
  destruct H2 as [s1 H2].
  assert (H3 : 1 ≠ 0) by discriminate.
  destruct (LookupVAOCache_UnrefVAO_roundtrip (va_key key3) pipeline_device0 1 s1 H1 H2 H3)
    as ((it & Hit & Hid & Hrc) & _ & s2 & Hunref & Hcache & _).
  exists s1, s2. split; [exact H2|]. split.
  - rewrite Hit. destruct it as [v rc]. simpl in Hid, Hrc. rewrite Hid, Hrc. reflexivity.
  - split; [exact Hunref|]. rewrite Hcache. reflexivity.
Defined.

Lemma vao_ids_nonzero_preserved_witness :
  vao_ids_nonzero (m_vao_cache vao_device)
  ∧ ∀ s', UnrefVAO (va_key key3) vao_device = Some (tt, s') →
          vao_ids_nonzero (m_vao_cache s').
Proof.
  assert (H1 : vao_ids_nonzero (m_vao_cache vao_device)).
  { intros k it Hk. unfold vao_device in Hk. cbn [m_vao_cache] in Hk.
    apply lookup_singleton_Some in Hk as [_ <-]. discriminate. }
  split; [exact H1|].
  intros s'. apply (proj2 (vao_ids_nonzero_preserved vao_device H1)).
Defined.

Lemma CreatePipeline_references_witness :
  (GetProgramCacheKey (shaders (device pipeline_device0)) (plconfig pipeline_config)
   = Some key3
   ∧ CreatePipeline pipeline_config pipeline_device0
     = Some (Some pipeline1, pipeline_device1))
  ∧ live_references key3 (m_program_cache (device pipeline_device1)) = 1
  ∧ vao_references (va_key key3) (m_vao_cache pipeline_device1) = 1.
Proof.
  assert (H1 : GetProgramCacheKey (shaders (device pipeline_device0))
                 (plconfig pipeline_config) = Some key3) by reflexivity.
  assert (H2 : unloaded_unreferenced (m_program_cache (device pipeline_device0))).
  { intros k it Hk. discriminate Hk. }
  assert (H3 : 0 ≤ live_references key3 (m_program_cache (device pipeline_device0))
               < u32_max) by (split; [discriminate|reflexivity]).
  assert (H4 : vao_ids_nonzero (m_vao_cache pipeline_device0)).
  { intros k it Hk. discriminate Hk. }
  assert (H5 : ∀ it, m_vao_cache pipeline_device0 !! va_key key3 = Some it →
                     0 ≤ vao_reference_count it < u32_max).
  { intros it Hit. discriminate Hit. }
  assert (H6 : CreatePipeline pipeline_config pipeline_device0
               = Some (Some pipeline1, pipeline_device1)) by (vm_compute; reflexivity).
  split; [auto|].
  pose proof (CreatePipeline_references pipeline_config key3 pipeline_device0
                (Some pipeline1) pipeline_device1 H1 H2 H3 H4 H5 H6)
    as (_ & _ & _ & _ & _ & Hrefs & Hvrefs & _).
  split; [exact Hrefs|exact Hvrefs].
Defined.

Lemma OpenGLPipeline_destroy_releases_witness :
  (m_program_cache (device pipeline_device1) !! pl_key pipeline1 = Some linked_item
   ∧ m_vao_cache pipeline_device1 !! va_key (pl_key pipeline1) = Some vao_item)
  ∧ ∃ s', OpenGLPipeline_destroy (λ _, mret tt) pipeline1 pipeline_device1 = Some (tt, s')
          ∧ live_references key3 (m_program_cache (device s')) = 0
          ∧ vao_references (va_key key3) (m_vao_cache s') = 0.
Proof.
  assert (H1 : m_program_cache (device pipeline_device1) !! pl_key pipeline1
               = Some linked_item) by (vm_compute; reflexivity).
  assert (H2 : m_vao_cache pipeline_device1 !! va_key (pl_key pipeline1) = Some vao_item)
    by (vm_compute; reflexivity).
  split; [auto|].
  destruct (OpenGLPipeline_destroy_releases (λ _, mret tt) pipeline1 pipeline_device1
              linked_item vao_item) as (s' & Hrun & Hrefs & Hvrefs).
  - intros s0. exists s0. repeat split.
  - exact H1.
  - discriminate.
  - split; reflexivity.
  - exact H2.
  - split; reflexivity.
  - exists s'. split; [exact Hrun|]. split.
    + rewrite Hrefs. rewrite decide_True by reflexivity. vm_compute. reflexivity.
    + rewrite Hvrefs. rewrite decide_True by reflexivity. vm_compute. reflexivity.
Defined.
End PipelineWitnesses.
